(** * Metrics engine of the clinical-trial dashboard (js/data/dataAdapter.js)

    A shallow embedding of the data adapter and of the part of the main
    application that calls it.  The source file holds two revisions of the
    adapter: the "complete extraction" revision (lines 1-629, module [V2]
    below) and the earlier revision (lines 631-1225, module [V1]).

    Modelling conventions.
    - A JavaScript number is a rational, extended with NaN and the two
      infinities ([num]).  The scores of the sites and of the countries,
      which decide a [Math.round] at a tie on ordinary integer counters
      (34 queries with 23 open), are computed in binary64: every operation
      returns the exact result rounded to the nearest binary64 number, ties
      to even (module [B64]).  Elsewhere arithmetic is exact, and the
      concrete values and the bounds stated below are chosen away from the
      ties of [Math.round], where the two could differ.  The sign of zero and
      the overflow of binary64 (magnitudes of 2^1024 and more) are not
      modelled.
    - A counter read from the raw snapshot is an [option Q]: [None] is the
      absent property ([undefined]).
    - A JavaScript object used as a map is the list of its entries in
      [Object.entries] order.
    - [Math.random] and the clock are oracles indexed by the number of
      calls made so far; a thrown [TypeError] is a result of its own.
    - A calendar date (the [YYYY-MM-DD] prefix of an ISO string) is the
      number of the UTC day; an instant is a number of milliseconds.  A
      week of local time is seven days of 24 hours (no daylight saving).
    - Revision 1 is embedded for its scoring, its readiness ladder and its
      two generators; the helpers it shares verbatim with revision 2 are
      embedded once. *)

From Stdlib Require Import ZArith QArith Qround Qminmax Qabs Lqa Lia.
From Stdlib Require Import List Ascii String Bool Permutation DecimalString.
Import ListNotations.

Local Open Scope Q_scope.

(** ** JavaScript numbers *)

Module JS.

Inductive num : Type :=
| Fin (q : Q)
| NaN
| Inf (negative : bool).

Definition Qltb (a b : Q) : bool := negb (Qle_bool b a).

(** [ToNumber] of a property that may be absent. *)
Definition toNumber (v : option Q) : num :=
  match v with Some q => Fin q | None => NaN end.

Definition neg (a : num) : num :=
  match a with
  | Fin q => Fin (- q)
  | NaN => NaN
  | Inf s => Inf (negb s)
  end.

Definition add (a b : num) : num :=
  match a, b with
  | Fin x, Fin y => Fin (x + y)
  | NaN, _ | _, NaN => NaN
  | Inf s, Inf t => if Bool.eqb s t then Inf s else NaN
  | Inf s, Fin _ | Fin _, Inf s => Inf s
  end.

Definition sub (a b : num) : num := add a (neg b).

Definition mul (a b : num) : num :=
  match a, b with
  | Fin x, Fin y => Fin (x * y)
  | NaN, _ | _, NaN => NaN
  | Inf s, Inf t => Inf (xorb s t)
  | Inf s, Fin y | Fin y, Inf s =>
      if Qeq_bool y 0 then NaN else Inf (xorb s (Qltb y 0))
  end.

Definition div (a b : num) : num :=
  match a, b with
  | Fin x, Fin y =>
      if Qeq_bool y 0
      then (if Qeq_bool x 0 then NaN else Inf (Qltb x 0))
      else Fin (x / y)
  | NaN, _ | _, NaN => NaN
  | Inf _, Inf _ => NaN
  | Inf s, Fin y => Inf (xorb s (Qltb y 0))
  | Fin _, Inf _ => Fin 0
  end.

(** [a < b]; every comparison with NaN is false. *)
Definition lt (a b : num) : bool :=
  match a, b with
  | Fin x, Fin y => Qltb x y
  | NaN, _ | _, NaN => false
  | Inf s, Inf t => s && negb t
  | Inf s, Fin _ => s
  | Fin _, Inf t => negb t
  end.

Definition gt (a b : num) : bool := lt b a.

(** [a >= b] *)
Definition ge (a b : num) : bool :=
  match a, b with
  | Fin x, Fin y => Qle_bool y x
  | NaN, _ | _, NaN => false
  | Inf s, Inf t => negb s || t
  | Inf s, Fin _ => negb s
  | Fin _, Inf t => t
  end.

(** [a === b] on numbers. *)
Definition strictEq (a b : num) : bool :=
  match a, b with
  | Fin x, Fin y => Qeq_bool x y
  | Inf s, Inf t => Bool.eqb s t
  | _, _ => false
  end.

(** Truthiness of a number: 0 and NaN are falsy. *)
Definition truthy (a : num) : bool :=
  match a with
  | Fin q => negb (Qeq_bool q 0)
  | NaN => false
  | Inf _ => true
  end.

(** [a || b] on numbers. *)
Definition or (a b : num) : num := if truthy a then a else b.

(** [v || d] where [v] is a property of the raw snapshot. *)
Definition orQ (v : option Q) (d : Q) : Q :=
  match v with
  | Some q => if Qeq_bool q 0 then d else q
  | None => d
  end.

(** [v > 0], [v < c], [v === 0] where [v] may be absent. *)
Definition gt0 (v : option Q) : bool := gt (toNumber v) (Fin 0).
Definition ltc (v : option Q) (c : Q) : bool := lt (toNumber v) (Fin c).
Definition gec (v : option Q) (c : Q) : bool := ge (toNumber v) (Fin c).
Definition isZero (v : option Q) : bool := strictEq (toNumber v) (Fin 0).

Module Math.

(** [Math.round]: the nearest integer, ties towards +infinity. *)
Definition roundQ (q : Q) : Z := Qfloor (q + (1 # 2)).

Definition round (a : num) : num :=
  match a with
  | Fin q => Fin (inject_Z (roundQ q))
  | _ => a
  end.

Definition max (a b : num) : num :=
  match a, b with
  | NaN, _ | _, NaN => NaN
  | _, _ => if lt a b then b else a
  end.

Definition min (a b : num) : num :=
  match a, b with
  | NaN, _ | _, NaN => NaN
  | _, _ => if lt b a then b else a
  end.

End Math.

End JS.

Import JS.

(** ** Binary64 arithmetic

    The numbers of binary64 are 0 and the rationals [m * 2^k] with
    [|m| < 2^53] and [-1074 <= k]; an arithmetic operation of JavaScript
    returns the exact result rounded to the nearest of them, ties to the even
    [m].  Results beyond the largest binary64 number (Infinity in the code)
    are not modelled. *)

Module B64.

Definition pow2 (k : Z) : Q :=
  if (k >=? 0)%Z then inject_Z (2 ^ k) else 1 # Z.to_pos (2 ^ (- k)).

(** The integer [e] with [2^e <= |q| < 2^(e+1)], for [q] other than 0. *)
Definition ilog2 (q : Q) : Z :=
  let e := (Z.log2 (Z.abs (Qnum q)) - Z.log2 (Zpos (Qden q)))%Z in
  if Qle_bool (pow2 e) (Qabs q) then e else (e - 1)%Z.

(** The nearest integer, ties to even. *)
Definition nearestEven (q : Q) : Z :=
  let f := Qfloor q in
  match Qcompare (q - inject_Z f) (1 # 2) with
  | Lt => f
  | Gt => (f + 1)%Z
  | Eq => if Z.even f then f else (f + 1)%Z
  end.

(** The nearest binary64 number: 53 significant bits, and multiples of
    [2^-1074] below [2^-1022] (gradual underflow). *)
Definition nearest (q : Q) : Q :=
  if Qeq_bool q 0 then 0
  else
    let k := Z.max (ilog2 q - 52) (-1074) in
    Qred (inject_Z (nearestEven (q / pow2 k)) * pow2 k).

Definition add (a b : Q) : Q := nearest (a + b).
Definition sub (a b : Q) : Q := nearest (a - b).
Definition mul (a b : Q) : Q := nearest (a * b).
Definition div (a b : Q) : Q := nearest (a / b).


End B64.

(** ** The raw snapshot (input contract): every property is optional *)

Record Aging : Type := mkAging {
  aging_0_7 : option Q;
  aging_8_14 : option Q;
  aging_15_30 : option Q;
  aging_over30 : option Q
}.

Record Queries : Type := mkQueries {
  queries_total : option Q;
  queries_open : option Q;
  queries_closed : option Q;
  queries_resolutionRate : option Q;
  queries_aging : option Aging
}.

Record Saes : Type := mkSaes {
  saes_total : option Q;
  saes_open : option Q;
  saes_patientsWithOpenSAE : option Q;
  saes_sitesWithOpenSAE : option Q
}.

Record Visits : Type := mkVisits {
  visits_totalMissing : option Q;
  visits_overdue30Days : option Q
}.

Record Lab : Type := mkLab { lab_totalIssues : option Q }.

Record Dictionary : Type := mkDictionary {
  dict_total : option Q;
  dict_uncoded : option Q
}.

Record Coding : Type := mkCoding {
  coding_meddra : option Dictionary;
  coding_whodd : option Dictionary;
  coding_totalUncoded : option Q
}.

Record Sdv : Type := mkSdv {
  sdv_total : option Q;
  sdv_verified : option Q;
  sdv_pending : option Q;
  sdv_verificationRate : option Q
}.

Record Signatures : Type := mkSignatures {
  signatures_pending : option Q;
  signatures_overdue : option Q
}.

Record Edrr : Type := mkEdrr { edrr_openIssues : option Q }.

Record Site : Type := mkSite {
  site_patients : option Q;
  site_total_queries : option Q;
  site_open_queries : option Q
}.

Record Country : Type := mkCountry {
  country_total_sites : option Q;
  country_total_queries : option Q;
  country_open_queries : option Q;
  country_sites : option (list (string * Site))
}.

Record Region : Type := mkRegion {
  region_total_countries : option Q;
  region_countries : option (list (string * Country))
}.

Definition Regions : Type := list (string * Region).

(** A point of a trend series, as an object: its own properties. *)
Inductive jsval : Type :=
| JNum (n : num)
| JDate (day : Z)
| JStr (s : string)
| JBool (b : bool).

Definition obj : Type := list (string * jsval).

Fixpoint get (k : string) (o : obj) : option jsval :=
  match o with
  | [] => None
  | (k', v) :: o' => if String.eqb k k' then Some v else get k o'
  end.

Record Raw : Type := mkRaw {
  raw_queries : option Queries;
  raw_saes : option Saes;
  raw_visits : option Visits;
  raw_lab : option Lab;
  raw_coding : option Coding;
  raw_sdv : option Sdv;
  raw_signatures : option Signatures;
  raw_edrr : option Edrr;
  raw_regions : option Regions;
  raw_dqiTrend : option (list obj);
  raw_lastUpdated : option string;
  raw_dataSource : option string;
  raw_governanceStatement : option string;
  raw_extractionStats : option obj
}.

(** [x || {}] for each sub-structure. *)
Definition noQueries : Queries := mkQueries None None None None None.
Definition noSaes : Saes := mkSaes None None None None.
Definition noVisits : Visits := mkVisits None None.
Definition noLab : Lab := mkLab None.
Definition noCoding : Coding := mkCoding None None None.
Definition noSdv : Sdv := mkSdv None None None None.
Definition noSignatures : Signatures := mkSignatures None None.
Definition noEdrr : Edrr := mkEdrr None.

Definition orEmpty {A : Type} (v : option A) (empty : A) : A :=
  match v with Some a => a | None => empty end.

(** [o?.p]: the property [p] of an object that may be absent. *)
Definition opt {A B : Type} (p : A -> option B) (o : option A) : option B :=
  match o with Some a => p a | None => None end.

(** ** Strings *)

Local Open Scope string_scope.

Definition lowerAscii (c : Ascii.ascii) : Ascii.ascii :=
  let n := Ascii.nat_of_ascii c in
  if (65 <=? n)%nat && (n <=? 90)%nat then Ascii.ascii_of_nat (n + 32) else c.

(** [s.toLowerCase()], on the ASCII letters. *)
Fixpoint toLowerCase (s : string) : string :=
  match s with
  | EmptyString => EmptyString
  | String c s' => String (lowerAscii c) (toLowerCase s')
  end.

Fixpoint lookupName (table : list (string * string)) (code : string) : option string :=
  match table with
  | [] => None
  | (k, v) :: t => if String.eqb code k then Some v else lookupName t code
  end.

(** [names[code] || code] *)
Definition countryNameIn (table : list (string * string)) (code : string) : string :=
  match lookupName table code with
  | Some n => if String.eqb n "" then code else n
  | None => code
  end.

(** ** Hierarchy aggregation: helpers that both revisions share verbatim *)

(** [Array.prototype.sort] with a comparator: a stable sort.  [cmp a b > 0]
    places [a] after [b]. *)
Fixpoint insertBy {A : Type} (cmp : A -> A -> Z) (x : A) (l : list A) : list A :=
  match l with
  | [] => [x]
  | y :: l' => if (cmp x y >? 0)%Z then y :: insertBy cmp x l' else x :: l
  end.

Fixpoint sort {A : Type} (cmp : A -> A -> Z) (l : list A) : list A :=
  match l with
  | [] => []
  | x :: l' => insertBy cmp x (sort cmp l')
  end.

(** [a.slice(0, 5)] and [a.slice(-5)] *)
Definition sliceFirst {A : Type} (k : nat) (l : list A) : list A := firstn k l.
Definition sliceLast {A : Type} (k : nat) (l : list A) : list A :=
  skipn (List.length l - k) l.

Definition sumQ (l : list Q) : Q := fold_left Qplus l 0%Q.

Definition lengthQ {A : Type} (l : list A) : Q := inject_Z (Z.of_nat (List.length l)).

Record CountryEntry : Type := mkCountryEntry {
  ce_id : string;
  ce_name : string;
  ce_sites : Q;
  ce_patients : Q;
  ce_dqi : Z;
  ce_cleanPercent : Z;
  ce_openSAE : Z;
  ce_status : string
}.

Record RegionEntry : Type := mkRegionEntry {
  re_id : string;
  re_name : string;
  re_countries : list CountryEntry
}.

(** A ranked site.  [se_ref] is not a property: it is the identity of the
    object, the number of objects pushed to [allSites] before it. *)
Record SiteEntry : Type := mkSiteEntry {
  se_ref : nat;
  se_id : string;
  se_name : string;
  se_country : string;
  se_dqi : Z;
  se_cleanPercent : Z;
  se_patients : Q;
  se_openQueries : Q;
  se_totalQueries : Q;
  se_status : string
}.

(** [totalQueries > 0 ? ((totalQueries - openQueries) / totalQueries * 100) : 100] *)
Definition resolutionRate (totalQueries openQueries : Q) : Q :=
  if Qltb 0 totalQueries
  then B64.mul (B64.div (B64.sub totalQueries openQueries) totalQueries) 100
  else 100.

(** [Math.round(resolutionRate * 0.8 + 20)]: the literal [0.8] is the
    binary64 number nearest to 8/10, and [Math.round] takes the exact value
    of the sum it is given. *)
Definition nodeDqi (rate : Q) : Z :=
  Math.roundQ (B64.add (B64.mul rate (B64.nearest (8 # 10))) 20).

(** [Math.round(resolutionRate * 0.85)] *)
Definition nodeCleanPercent (rate : Q) : Z :=
  Math.roundQ (B64.mul rate (B64.nearest (85 # 100))).

(** [dqi >= 85 ? 'healthy' : dqi >= 70 ? 'at-risk' : 'critical'] *)
Definition nodeStatus (dqi : Z) : string :=
  if (dqi >=? 85)%Z then "healthy"
  else if (dqi >=? 70)%Z then "at-risk"
  else "critical".

Definition countTotalSites (regions : option Regions) : Q :=
  sumQ (flat_map (fun r : string * Region =>
          map (fun c : string * Country => orQ (country_total_sites (snd c)) 0)
              (orEmpty (region_countries (snd r)) []))
        (orEmpty regions [])).

Definition countTotalCountries (regions : option Regions) : Q :=
  sumQ (map (fun r : string * Region =>
          orQ (region_total_countries (snd r))
              (lengthQ (orEmpty (region_countries (snd r)) [])))
        (orEmpty regions [])).

Section Aggregation.

Variable getCountryName : string -> string.

Definition transformCountry (c : string * Country) : CountryEntry :=
  let (countryCode, countryData) := c in
  let totalQueries := orQ (country_total_queries countryData) 0 in
  let openQueries := orQ (country_open_queries countryData) 0 in
  let rate := resolutionRate totalQueries openQueries in
  let dqi := nodeDqi rate in
  let sites := orEmpty (country_sites countryData) [] in
  {| ce_id := toLowerCase countryCode;
     ce_name := getCountryName countryCode;
     ce_sites := orQ (country_total_sites countryData) (lengthQ sites);
     ce_patients :=
       sumQ (map (fun s : string * Site => orQ (site_patients (snd s)) 0) sites);
     ce_dqi := dqi;
     ce_cleanPercent := nodeCleanPercent rate;
     ce_openSAE := Qfloor (openQueries / 10);
     ce_status := nodeStatus dqi |}.

Definition transformRegionsData (rawRegions : Regions) : list RegionEntry :=
  map (fun r : string * Region =>
         {| re_id := toLowerCase (fst r);
            re_name := fst r;
            re_countries :=
              map transformCountry (orEmpty (region_countries (snd r)) []) |})
      rawRegions.

(** The site leaves in the order of the three nested loops, each with
    the code of its country. *)
Definition siteLeaves (rawRegions : Regions) : list (string * (string * Site)) :=
  flat_map (fun r : string * Region =>
    flat_map (fun c : string * Country =>
      map (fun s : string * Site => (fst c, s))
          (orEmpty (country_sites (snd c)) []))
      (orEmpty (region_countries (snd r)) []))
    rawRegions.

Definition siteEntry (ref : nat) (leaf : string * (string * Site)) : SiteEntry :=
  let '(countryCode, (siteId, siteData)) := leaf in
  let totalQueries := orQ (site_total_queries siteData) 0 in
  let openQueries := orQ (site_open_queries siteData) 0 in
  let rate := resolutionRate totalQueries openQueries in
  let dqi := nodeDqi rate in
  {| se_ref := ref;
     se_id := siteId;
     se_name := getCountryName countryCode ++ " - " ++ siteId;
     se_country := countryCode;
     se_dqi := dqi;
     se_cleanPercent := nodeCleanPercent rate;
     se_patients := orQ (site_patients siteData) 0;
     se_openQueries := openQueries;
     se_totalQueries := totalQueries;
     se_status := nodeStatus dqi |}.

(** [allSites] after the loops, before the sort. *)
Definition allSites (rawRegions : Regions) : list SiteEntry :=
  let leaves := siteLeaves rawRegions in
  map (fun p : nat * (string * (string * Site)) => siteEntry (fst p) (snd p))
      (combine (seq 0 (List.length leaves)) leaves).

(** [(a, b) => b.dqi - a.dqi] *)
Definition byDqiDesc (a b : SiteEntry) : Z := (se_dqi b - se_dqi a)%Z.

Definition rankedSites (rawRegions : Regions) : list SiteEntry :=
  sort byDqiDesc (allSites rawRegions).

Definition topSites (rawRegions : Regions) : list SiteEntry :=
  sliceFirst 5 (rankedSites rawRegions).

Definition bottomSites (rawRegions : Regions) : list SiteEntry :=
  rev (sliceLast 5 (rankedSites rawRegions)).

Definition calculateSiteRankings (rawRegions : Regions)
  : list SiteEntry * list SiteEntry :=
  (topSites rawRegions, bottomSites rawRegions).

End Aggregation.

(** ** Effects: the random source, the clock and thrown errors *)

Record Env : Type := mkEnv {
  random : nat -> Q;   (* the k-th value returned by [Math.random()] *)
  clock : nat -> Z     (* the k-th reading of the clock, in milliseconds *)
}.

Record St : Type := mkSt {
  draws : nat;   (* calls of [Math.random] so far *)
  reads : nat    (* readings of the clock so far *)
}.

Inductive Result (A : Type) : Type :=
| Ok (a : A) (s : St)
| Throw (error : string).

Arguments Ok {A} a s.
Arguments Throw {A} error.

Definition M (A : Type) : Type := Env -> St -> Result A.

Definition ret {A : Type} (a : A) : M A := fun _ s => Ok a s.

Definition bind {A B : Type} (m : M A) (f : A -> M B) : M B :=
  fun e s =>
    match m e s with
    | Ok a s' => f a e s'
    | Throw err => Throw err
    end.

Definition throw {A : Type} (err : string) : M A := fun _ _ => Throw err.

Declare Scope eff_scope.
Delimit Scope eff_scope with eff.
Notation "x <- m ;; k" := (bind m (fun x => k))
  (at level 61, m at next level, right associativity) : eff_scope.
Notation "' p <- m ;; k" := (bind m (fun p => k))
  (at level 61, p pattern, m at next level, right associativity) : eff_scope.

Local Open Scope eff_scope.

(** [Math.random()] *)
Definition Math_random : M Q :=
  fun e s => Ok (random e (draws s)) (mkSt (S (draws s)) (reads s)).

(** [Date.now()], and the instant of [new Date()] *)
Definition Date_now : M Z :=
  fun e s => Ok (clock e (reads s)) (mkSt (draws s) (S (reads s))).

(** [o.p] where [o] may be [undefined]: reading a property of, or calling
    a method on, [undefined] throws. *)
Definition member {A : Type} (o : option A) : M A :=
  match o with
  | Some a => ret a
  | None => throw "TypeError"
  end.

(** [for (...) { body }] over the given values of the loop variable,
    collecting what each iteration pushes. *)
Fixpoint forEach {A B : Type} (body : A -> M B) (l : list A) : M (list B) :=
  match l with
  | [] => ret []
  | a :: l' => b <- body a ;; bs <- forEach body l' ;; ret (b :: bs)
  end.

(** The oracles are those of a JavaScript host: [Math.random] is in
    [0, 1) and the clock does not run backwards. *)
Definition hostEnv (e : Env) : Prop :=
  (forall k, 0 <= random e k < 1)%Q /\
  (forall j k, (j <= k)%nat -> (clock e j <= clock e k)%Z).

(** ** Dates and text *)

Definition msPerDay : Z := 24 * 60 * 60 * 1000.

(** The integral part of a time value ([TimeClip]). *)
Definition truncQ (q : Q) : Z :=
  if Qle_bool 0 q then Qfloor q else (- Qfloor (- q))%Z.

(** [d.toISOString().split('T')[0]], as the number of the UTC day. *)
Definition isoDay (ms : Z) : Z := (ms / msPerDay)%Z.

(** A template literal: its fixed text and the numbers placed in it, which
    are rendered by the host ([toLocaleString] depends on the locale). *)
Inductive piece : Type :=
| Lit (s : string)
| Locale (n : num)            (* [n.toLocaleString()] *)
| Plain (v : option num).     (* [${v}], [undefined] included *)

Definition text : Type := list piece.

(** [v.toLocaleString()] *)
Definition toLocaleString (v : option num) : M piece :=
  n <- member v ;; ret (Locale n).

Definition finQ (v : option Q) : option num := option_map Fin v.

(** [s || d] on strings: the empty string is falsy. *)
Definition orStr (v : option string) (d : string) : string :=
  match v with
  | Some s => if String.eqb s "" then d else s
  | None => d
  end.

Definition decimal (n : nat) : string :=
  DecimalString.NilEmpty.string_of_uint (Nat.to_uint n).

Fixpoint zeros (k : nat) : string :=
  match k with 0%nat => "" | S k' => String "0"%char (zeros k') end.

(** [s.padStart(4, '0')] *)
Definition padStart4 (s : string) : string :=
  zeros (4 - String.length s) ++ s.

(** [[1, 2, ..., floor(bound)]]: the values of [i] in
    [for (let i = 1; i <= bound; i++)]. *)
Definition upTo (bound : Q) : list nat := seq 1 (Z.to_nat (Qfloor bound)).

Definition Qmin10 (q : Q) : Q := if Qltb q 10 then q else 10.

(** [for (let i = weeks - 1; i >= 0; i--)] *)
Definition weeksDown (weeks : nat) : list nat := rev (seq 0 weeks).

(** ** Trend series *)

Definition trendPoint (day : Z) (value : num) : obj :=
  [("date", JDate day); ("value", JNum value)].

Definition ofNat (n : nat) : Q := inject_Z (Z.of_nat n).

(** [const date = new Date(); date.setDate(date.getDate() - i * 7)] and
    then [date.toISOString().split('T')[0]] *)
Definition weeksAgo (i : nat) : M Z :=
  now <- Date_now ;; ret (isoDay (now - Z.of_nat i * 7 * msPerDay)).

Definition generateDQITrend (currentDqi : num) (weeks : nat) : M (list obj) :=
  forEach (fun i =>
    date <- weeksAgo i ;;
    r <- Math_random ;;
    let historicalDqi :=
      Math.max (Fin 20)
        (add (sub currentDqi (Fin (ofNat i * 3)))
             (mul (sub (Fin r) (Fin (1 # 2))) (Fin 5))) in
    ret (trendPoint date (Math.round historicalDqi)))
  (weeksDown weeks).

Definition generateTrendData (currentValue : num) (weeks : nat) (decreasing : bool)
  : M (list obj) :=
  forEach (fun i =>
    date <- weeksAgo i ;;
    r <- Math_random ;;
    let variance := mul (mul (sub (Fin r) (Fin (1 # 2))) (Fin (1 # 10))) currentValue in
    let ratio := div (Fin (ofNat i)) (Fin (ofNat weeks)) in
    let trend :=
      if decreasing
      then mul currentValue (add (Fin 1) (mul ratio (Fin (3 # 10))))
      else mul currentValue (sub (Fin 1) (mul ratio (Fin (15 # 100)))) in
    ret (trendPoint date (Math.round (add trend variance))))
  (weeksDown weeks).

(** ** The dashboard model (output contract) *)

Record Patient : Type := mkPatient {
  pat_id : string;
  pat_siteId : string;
  pat_site : string;
  pat_status : string;
  pat_dqi : Z;
  pat_isClean : bool;
  pat_missingVisits : Z;
  pat_missingPages : Z;
  pat_openQueries : Z;
  pat_labIssues : Z;
  pat_saeStatus : string;
  pat_saeCount : Z;
  pat_lastActivity : Z
}.

Record SaeRecord : Type := mkSaeRecord {
  sae_id : string;
  sae_patientId : string;
  sae_siteId : string;
  sae_site : string;
  sae_event : string;
  sae_severity : string;
  sae_status : string;
  sae_daysOpen : Z;
  sae_reportedDate : Z;
  sae_blocking : bool
}.

Record Insight : Type := mkInsight {
  ins_id : Z;
  ins_type : string;
  ins_icon : string;
  ins_title : string;
  ins_summary : text;
  ins_priority : string;
  ins_affectedSites : option (list string);
  ins_generatedAt : Z;
  ins_source : string
}.

Record Recommendation : Type := mkRecommendation {
  rec_id : Z;
  rec_role : string;
  rec_priority : string;
  rec_action : string;
  rec_target : text;
  rec_rationale : text;
  rec_deadline : Z;
  rec_estimatedImpact : text;
  rec_source : string
}.

Record Criterion : Type := mkCriterion {
  crit_id : string;
  crit_label : string;
  crit_threshold : string;
  crit_current : text;
  crit_status : string;
  crit_source : string
}.

Record Study : Type := mkStudy {
  study_id : string;
  study_name : string;
  study_phase : string;
  study_sponsor : string;
  study_totalPatients : Z;
  study_activeSites : Q;
  study_countries : Q;
  study_regions : nat
}.

Record ExecutiveKPIs : Type := mkExecutiveKPIs {
  kpi_dqi_current : num;
  kpi_dqi_previous : num;
  kpi_dqi_target : Z;
  kpi_dqi_trend : string;
  kpi_cleanPatients_current : Q;
  kpi_cleanPatients_total : Z;
  kpi_cleanPatients_percentage : Z;
  kpi_cleanPatients_previousPercentage : Z;
  kpi_cleanPatients_trend : string;
  kpi_sitesAtRisk_current : Q;
  kpi_sitesAtRisk_previous : Q;
  kpi_sitesAtRisk_trend : string;
  kpi_openSAEs_current : Q;
  kpi_openSAEs_critical : Z;
  kpi_openSAEs_previous : Q;
  kpi_openSAEs_trend : string;
  kpi_readinessStatus : string;
  kpi_queryResolution_current : Q;
  kpi_queryResolution_target : Z;
  kpi_queryResolution_trend : string
}.

Record Bottlenecks : Type := mkBottlenecks {
  bn_queries_total : Q;
  bn_queries_open : Q;
  bn_queries_closed : Q;
  bn_queries_resolutionRate : Q;
  bn_queries_aging : Aging;
  bn_visits_total : num;
  bn_visits_completed : num;
  bn_visits_overdue : Q;
  bn_visits_upcoming : Z;
  bn_visits_overdue_1_7 : Z;
  bn_visits_overdue_8_14 : Z;
  bn_visits_overdue_15_30 : Z;
  bn_visits_overdue_over30 : Q;
  bn_lab_missingRanges : Z;
  bn_lab_missingLabNames : Z;
  bn_lab_unreconciled : Q;
  bn_coding_totalTerms : Q;
  bn_coding_coded : num;
  bn_coding_uncoded : Q;
  bn_coding_meddraIssues : Q;
  bn_coding_whoddIssues : Q;
  bn_sdv_totalForms : Q;
  bn_sdv_verified : Q;
  bn_sdv_pending : Q;
  bn_sdv_verificationRate : Q;
  bn_signatures_required : Q;
  bn_signatures_completed : Q;
  bn_signatures_pending : Q;
  bn_signatures_overdue : Q
}.

(** [raw.lastUpdated || new Date().toISOString()] *)
Inductive Stamp : Type :=
| Given (s : string)
| Instant (ms : Z).

Record DashboardModel : Type := mkDashboardModel {
  dm_lastUpdated : Stamp;
  dm_previousSnapshotDate : Z;
  dm_dataSource : string;
  dm_governanceStatement : option string;
  dm_extractionStats : option obj;
  dm_study : Study;
  dm_executiveKPIs : ExecutiveKPIs;
  dm_readinessCriteria : list Criterion;
  dm_regions : list RegionEntry;
  dm_topSites : list SiteEntry;
  dm_bottomSites : list SiteEntry;
  dm_patients : list Patient;
  dm_bottlenecks : Bottlenecks;
  dm_saes : list SaeRecord;
  dm_aiInsights : list Insight;
  dm_agentRecommendations : list Recommendation;
  dm_trends_dqi : list obj;
  dm_trends_cleanPatients : list obj;
  dm_trends_openQueries : list obj
}.

(** What the adapter hands to the application: the baseline fixture
    [MockData] (js/data/mockData.js), or a model built from the snapshot. *)
Inductive Served : Type :=
| MockData
| Model (d : DashboardModel).

(** [this.data.executiveKPIs]: the fixture carries its own block of
    executive KPIs, a computed model the one built for it. *)
Definition hasExecutiveKPIs (d : Served) : bool :=
  match d with MockData => true | Model _ => true end.

(** ** Sample lists: flagged patients and SAE records *)

Definition saeEvents : list string :=
  ["Adverse Cardiac Event"; "Severe Allergic Reaction"; "Hospitalization";
   "Laboratory Abnormality"].

Definition generateSAEList (raw : Raw) : M (list SaeRecord) :=
  let saes := orEmpty (raw_saes raw) noSaes in
  forEach (fun i =>
    r1 <- Math_random ;;
    now <- Date_now ;;
    r2 <- Math_random ;;
    ret {| sae_id := "SAE-" ++ padStart4 (decimal (1000 + i));
           sae_patientId := "PAT-" ++ padStart4 (decimal i);
           sae_siteId := "Site " ++ decimal (100 + i);
           sae_site := "Clinical Site " ++ decimal (100 + i);
           sae_event := nth (i mod 4) saeEvents "";
           sae_severity := "Serious";
           sae_status := "Open";
           sae_daysOpen := (Qfloor (r1 * 45) + 5)%Z;
           sae_reportedDate :=
             isoDay (truncQ (inject_Z now - r2 * 60 * inject_Z msPerDay));
           sae_blocking := (i <=? 5)%nat |})
  (upTo (Qmin10 (orQ (saes_open saes) 5))).

(** The flagged patients; the two revisions differ in the range of the
    sampled score, [base + Math.random() * spread]. *)
Definition generateFlaggedPatientsWith (base spread : Q) (raw : Raw) : M (list Patient) :=
  let saes := orEmpty (raw_saes raw) noSaes in
  forEach (fun i =>
    r1 <- Math_random ;;
    r2 <- Math_random ;;
    r3 <- Math_random ;;
    r4 <- Math_random ;;
    r5 <- Math_random ;;
    now <- Date_now ;;
    r6 <- Math_random ;;
    ret {| pat_id := "PAT-" ++ padStart4 (decimal i);
           pat_siteId := "Site " ++ decimal (100 + i);
           pat_site := "Clinical Site " ++ decimal (100 + i);
           pat_status := "flagged";
           pat_dqi := Math.roundQ (base + r1 * spread);
           pat_isClean := false;
           pat_missingVisits := Qfloor (r2 * 3);
           pat_missingPages := Qfloor (r3 * 5);
           pat_openQueries := (Qfloor (r4 * 10) + 1)%Z;
           pat_labIssues := Qfloor (r5 * 3);
           pat_saeStatus := "open";
           pat_saeCount := 1;
           pat_lastActivity :=
             isoDay (truncQ (inject_Z now - r6 * 7 * inject_Z msPerDay)) |})
  (upTo (Qmin10 (orQ (saes_patientsWithOpenSAE saes) 5))).

(** ** The adapter, revision 2 (lines 1-629) *)

Module V2.

Definition countryNames : list (string * string) :=
  [("USA", "United States"); ("CAN", "Canada"); ("MEX", "Mexico"); ("BRA", "Brazil");
   ("ARG", "Argentina"); ("COL", "Colombia"); ("CHL", "Chile"); ("PER", "Peru");
   ("CHN", "China"); ("JPN", "Japan"); ("KOR", "South Korea"); ("IND", "India");
   ("TWN", "Taiwan"); ("THA", "Thailand"); ("PHL", "Philippines"); ("MYS", "Malaysia");
   ("DEU", "Germany"); ("FRA", "France"); ("GBR", "United Kingdom"); ("ESP", "Spain");
   ("ITA", "Italy"); ("POL", "Poland"); ("NLD", "Netherlands"); ("AUT", "Austria");
   ("BEL", "Belgium"); ("CZE", "Czech Republic"); ("HUN", "Hungary"); ("RUS", "Russia");
   ("UKR", "Ukraine"); ("TUR", "Turkey"); ("ISR", "Israel"); ("ZAF", "South Africa");
   ("AUS", "Australia"); ("NZL", "New Zealand"); ("SGP", "Singapore");
   ("EGY", "Egypt"); ("SAU", "Saudi Arabia"); ("ARE", "UAE"); ("OMN", "Oman")].

Definition getCountryName : string -> string := countryNameIn countryNames.

(** *** Scoring (lines 85-110) *)

Definition queryResolutionScore (queries : Queries) : Q :=
  orQ (queries_resolutionRate queries) 0.

Definition saeResolutionScore (saes : Saes) : num :=
  if gt0 (saes_total saes)
  then Math.round
         (mul (div (sub (toNumber (saes_total saes)) (toNumber (saes_open saes)))
                   (toNumber (saes_total saes)))
              (Fin 100))
  else Fin 100.

Definition sdvScore (sdv : Sdv) : Q := orQ (sdv_verificationRate sdv) 0.

(** [Math.max(0, 100 - Math.min(100, issues / unit))] *)
Definition inverseScore (issues : option Q) (unit : Q) : num :=
  Math.max (Fin 0)
    (sub (Fin 100) (Math.min (Fin 100) (div (toNumber issues) (Fin unit)))).

Definition visitScore (visits : Visits) : num :=
  inverseScore (visits_totalMissing visits) 10.

Definition labScore (lab : Lab) : num := inverseScore (lab_totalIssues lab) 200.

Definition codingScore (coding : Coding) : num :=
  let total := opt dict_total (coding_meddra coding) in
  let uncoded := opt dict_uncoded (coding_meddra coding) in
  if gt0 total
  then mul (div (sub (toNumber total) (toNumber uncoded)) (toNumber total)) (Fin 100)
  else Fin 100.

Definition signatureScore (signatures : Signatures) : num :=
  inverseScore (signatures_overdue signatures) 100.

Definition dqi (raw : Raw) : num :=
  let queries := orEmpty (raw_queries raw) noQueries in
  let saes := orEmpty (raw_saes raw) noSaes in
  let visits := orEmpty (raw_visits raw) noVisits in
  let lab := orEmpty (raw_lab raw) noLab in
  let coding := orEmpty (raw_coding raw) noCoding in
  let sdv := orEmpty (raw_sdv raw) noSdv in
  let signatures := orEmpty (raw_signatures raw) noSignatures in
  Math.round
    (add (add (add (add (add (add
       (mul (saeResolutionScore saes) (Fin (30 # 100)))
       (mul (Fin (queryResolutionScore queries)) (Fin (25 # 100))))
       (mul (visitScore visits) (Fin (10 # 100))))
       (mul (labScore lab) (Fin (10 # 100))))
       (mul (codingScore coding) (Fin (10 # 100))))
       (mul (Fin (sdvScore sdv)) (Fin (10 # 100))))
       (mul (signatureScore signatures) (Fin (5 # 100)))).

(** *** Patients (lines 112-117) *)

Definition totalUniquePatients (saes : Saes) : Z :=
  Math.roundQ (orQ (saes_patientsWithOpenSAE saes) 0 * (35 # 10)).

Definition cleanPatients (saes : Saes) : Q :=
  Qmax 0 (inject_Z (totalUniquePatients saes) - orQ (saes_patientsWithOpenSAE saes) 0).

Definition cleanPatientPercent (saes : Saes) : Z :=
  if (totalUniquePatients saes >? 0)%Z
  then Math.roundQ (cleanPatients saes / inject_Z (totalUniquePatients saes) * 100)
  else 0%Z.

(** *** Readiness (lines 119-125) *)

Definition readinessStatus (saes : Saes) (queries : Queries) : string :=
  if isZero (saes_open saes) && Qle_bool 98 (queryResolutionScore queries)
  then "ready"
  else if ltc (saes_open saes) 100 && Qle_bool 85 (queryResolutionScore queries)
  then "at-risk"
  else "not-ready".

(** [queries.aging?.['>30 days']] *)
Definition over30 (queries : Queries) : option Q :=
  opt aging_over30 (queries_aging queries).

Definition passIf (b : bool) : string := if b then "pass" else "fail".

(** [v?.toLocaleString() || '0'] *)
Definition localeOrZero (v : option Q) : text :=
  match v with
  | Some q => [Locale (Fin q)]
  | None => [Lit "0"]
  end.

Definition readinessCriteria (saes : Saes) (queries : Queries) : list Criterion :=
  let pct := cleanPatientPercent saes in
  [ {| crit_id := "sae"; crit_label := "Open SAEs"; crit_threshold := "= 0";
       crit_current := localeOrZero (saes_open saes);
       crit_status := passIf (isZero (saes_open saes));
       crit_source := "SAE_Dashboard (DM + Safety)" |};
    {| crit_id := "clean"; crit_label := "Clean Patient %"; crit_threshold := "≥ 95%";
       crit_current := [Plain (Some (Fin (inject_Z pct))); Lit "%"];
       crit_status := passIf (pct >=? 95)%Z;
       crit_source := "Derived from patient snapshot" |};
    {| crit_id := "query"; crit_label := "Query Resolution %"; crit_threshold := "≥ 98%";
       crit_current :=
         [Plain (Some (Fin (orQ (queries_resolutionRate queries) 0))); Lit "%"];
       crit_status := passIf (Qle_bool 98 (orQ (queries_resolutionRate queries) 0));
       crit_source := "CPID_EDC_Metrics" |};
    {| crit_id := "critical_queries"; crit_label := "Queries >30 days";
       crit_threshold := "= 0";
       crit_current := localeOrZero (over30 queries);
       crit_status := passIf (Qeq_bool (orQ (over30 queries) 0) 0);
       crit_source := "CPID_EDC_Metrics" |} ].

(** *** Bottlenecks (lines 155-201) *)

Definition noAging : Aging := mkAging (Some 0) (Some 0) (Some 0) (Some 0).

Definition codedOf (d : option Dictionary) : num :=
  or (sub (toNumber (opt dict_total d)) (toNumber (opt dict_uncoded d))) (Fin 0).

Definition bottlenecks (raw : Raw) : Bottlenecks :=
  let queries := orEmpty (raw_queries raw) noQueries in
  let visits := orEmpty (raw_visits raw) noVisits in
  let lab := orEmpty (raw_lab raw) noLab in
  let coding := orEmpty (raw_coding raw) noCoding in
  let sdv := orEmpty (raw_sdv raw) noSdv in
  let signatures := orEmpty (raw_signatures raw) noSignatures in
  let edrr := orEmpty (raw_edrr raw) noEdrr in
  let missing := orQ (visits_totalMissing visits) 0 in
  let issues := orQ (lab_totalIssues lab) 0 in
  {| bn_queries_total := orQ (queries_total queries) 0;
     bn_queries_open := orQ (queries_open queries) 0;
     bn_queries_closed := orQ (queries_closed queries) 0;
     bn_queries_resolutionRate := orQ (queries_resolutionRate queries) 0;
     bn_queries_aging := orEmpty (queries_aging queries) noAging;
     bn_visits_total :=
       or (add (toNumber (visits_totalMissing visits))
               (mul (toNumber (visits_overdue30Days visits)) (Fin 2)))
          (Fin 1000);
     bn_visits_completed :=
       if gt0 (visits_totalMissing visits)
       then Math.round (mul (toNumber (visits_totalMissing visits)) (Fin 5))
       else Fin 5000;
     bn_visits_overdue := missing;
     bn_visits_upcoming := Math.roundQ (missing * (5 # 10));
     bn_visits_overdue_1_7 := Math.roundQ (missing * (3 # 10));
     bn_visits_overdue_8_14 := Math.roundQ (missing * (25 # 100));
     bn_visits_overdue_15_30 := Math.roundQ (missing * (25 # 100));
     bn_visits_overdue_over30 :=
       orQ (visits_overdue30Days visits) (inject_Z (Math.roundQ (missing * (2 # 10))));
     bn_lab_missingRanges := Math.roundQ (issues * (4 # 10));
     bn_lab_missingLabNames := Math.roundQ (issues * (3 # 10));
     bn_lab_unreconciled := orQ (edrr_openIssues edrr) 0;
     bn_coding_totalTerms :=
       orQ (opt dict_total (coding_meddra coding)) 0
       + orQ (opt dict_total (coding_whodd coding)) 0;
     bn_coding_coded :=
       add (codedOf (coding_meddra coding)) (codedOf (coding_whodd coding));
     bn_coding_uncoded := orQ (coding_totalUncoded coding) 0;
     bn_coding_meddraIssues := orQ (opt dict_uncoded (coding_meddra coding)) 0;
     bn_coding_whoddIssues := orQ (opt dict_uncoded (coding_whodd coding)) 0;
     bn_sdv_totalForms := orQ (sdv_total sdv) 0;
     bn_sdv_verified := orQ (sdv_verified sdv) 0;
     bn_sdv_pending := orQ (sdv_pending sdv) 0;
     bn_sdv_verificationRate := orQ (sdv_verificationRate sdv) 0;
     bn_signatures_required :=
       orQ (signatures_pending signatures) 0 + orQ (signatures_overdue signatures) 0
       + 50000;
     bn_signatures_completed := 50000;
     bn_signatures_pending := orQ (signatures_pending signatures) 0;
     bn_signatures_overdue := orQ (signatures_overdue signatures) 0 |}.

(** *** Insights (lines 479-522) *)

Definition localeOf (v : option Q) : M piece :=
  toLocaleString (Some (Fin (orQ v 0))).

Definition generateAIInsights (raw : Raw) (dqi : num) (saes : Saes) (queries : Queries)
    (lab : Lab) (visits : Visits) : M (list Insight) :=
  open <- localeOf (saes_open saes) ;;
  sites <- localeOf (saes_sitesWithOpenSAE saes) ;;
  patients <- localeOf (saes_patientsWithOpenSAE saes) ;;
  at1 <- Date_now ;;
  let insight1 :=
    {| ins_id := 1;
       ins_type := if gt0 (saes_open saes) then "blocker" else "trend";
       ins_icon := if gt0 (saes_open saes) then "🚫" else "📈";
       ins_title := "Submission Readiness Assessment";
       ins_summary :=
         [Lit "<strong>"; open; Lit " open SAEs</strong> across "; sites;
          Lit " sites are blocking database lock. "; patients;
          Lit " patients have unresolved safety events. <strong>Safety team escalation required.</strong>"];
       ins_priority := if gt (toNumber (saes_open saes)) (Fin 1000) then "critical" else "high";
       ins_affectedSites := None;
       ins_generatedAt := at1;
       ins_source := "SAE_Dashboard (DM + Safety) - 23 studies" |} in
  insight2 <-
    (if gt0 (over30 queries)
     then
       aging <- member (queries_aging queries) ;;
       aged <- localeOf (aging_over30 aging) ;;
       total <- localeOf (queries_total queries) ;;
       aging' <- member (queries_aging queries) ;;
       at2 <- Date_now ;;
       ret [ {| ins_id := 2;
                ins_type := "risk";
                ins_icon := "⚠️";
                ins_title := "Query Aging Alert";
                ins_summary :=
                  [Lit "<strong>"; aged; Lit " queries</strong> open >30 days. Total queries: ";
                   total; Lit ", Resolution rate: ";
                   Plain (finQ (queries_resolutionRate queries));
                   Lit "% (target: 98%). <strong>CRA follow-up recommended.</strong>"];
                ins_priority :=
                  if gt (toNumber (aging_over30 aging')) (Fin 1000) then "critical" else "high";
                ins_affectedSites := None;
                ins_generatedAt := at2;
                ins_source := "CPID_EDC_Metrics - 23 studies" |} ]
     else ret []) ;;
  issues <- localeOf (lab_totalIssues lab) ;;
  missing <- localeOf (visits_totalMissing visits) ;;
  at3 <- Date_now ;;
  let insight3 :=
    {| ins_id := 3;
       ins_type := "trend";
       ins_icon := "📊";
       ins_title := "Data Quality Index Summary";
       ins_summary :=
         [Lit "DQI: <strong>"; Plain (Some dqi);
          Lit "%</strong> (Safety 30%, Queries 25%, Visits/Lab/Coding 35%, SDV/Sig 10%). <strong>";
          issues; Lit "</strong> lab issues, <strong>"; missing;
          Lit "</strong> missing visits flagged."];
       ins_priority := if lt dqi (Fin 70) then "high" else "info";
       ins_affectedSites := None;
       ins_generatedAt := at3;
       ins_source := "Complete extraction from 9 file types" |} in
  ret ([insight1] ++ insight2 ++ [insight3])%list.

(** *** Recommendations (lines 524-603) *)

(** [new Date(Date.now() + days * 24 * 60 * 60 * 1000).toISOString().split('T')[0]] *)
Definition deadlineIn (days : Z) : M Z :=
  now <- Date_now ;; ret (isoDay (now + days * msPerDay)).

Definition generateAgentRecommendations (raw : Raw) (saes : Saes) (queries : Queries)
    (signatures : Signatures) (lab : Lab) (coding : Coding) : M (list Recommendation) :=
  rec1 <-
    (if gt0 (saes_open saes)
     then
       open <- localeOf (saes_open saes) ;;
       patients <- localeOf (saes_patientsWithOpenSAE saes) ;;
       deadline <- deadlineIn 7 ;;
       ret [ {| rec_id := 1; rec_role := "Safety"; rec_priority := "CRITICAL";
                rec_action := "Expedite SAE Review & Resolution";
                rec_target := [open; Lit " open safety events"];
                rec_rationale := [patients; Lit " patients with open SAE blocking DB lock"];
                rec_deadline := deadline;
                rec_estimatedImpact := [Lit "Unblocks submission readiness"];
                rec_source := "SAE_Dashboard" |} ]
     else ret []) ;;
  rec2 <-
    (if gt0 (over30 queries)
     then
       aging <- member (queries_aging queries) ;;
       aged <- localeOf (aging_over30 aging) ;;
       deadline <- deadlineIn 14 ;;
       aging' <- member (queries_aging queries) ;;
       ret [ {| rec_id := 2; rec_role := "CRA"; rec_priority := "HIGH";
                rec_action := "Address Aging Queries";
                rec_target := [aged; Lit " queries >30 days"];
                rec_rationale :=
                  [Lit "Resolution rate: "; Plain (finQ (queries_resolutionRate queries));
                   Lit "% (target: 98%)"];
                rec_deadline := deadline;
                rec_estimatedImpact :=
                  [Lit "+";
                   Plain (Some (Math.round
                     (mul (div (toNumber (aging_over30 aging'))
                               (toNumber (queries_total queries)))
                          (Fin 100))));
                   Lit "% resolution rate"];
                rec_source := "CPID_EDC_Metrics" |} ]
     else ret []) ;;
  rec3 <-
    (if gt0 (signatures_overdue signatures)
     then
       overdue <- localeOf (signatures_overdue signatures) ;;
       deadline <- deadlineIn 14 ;;
       ret [ {| rec_id := 3; rec_role := "Site"; rec_priority := "HIGH";
                rec_action := "Complete Overdue PI Signatures";
                rec_target := [overdue; Lit " overdue signatures"];
                rec_rationale := [Lit "PI signature completion required before submission"];
                rec_deadline := deadline;
                rec_estimatedImpact := [Lit "Improves DQI by 5%"];
                rec_source := "CPID_EDC_Metrics.PI Signature Report" |} ]
     else ret []) ;;
  rec4 <-
    (if gt0 (lab_totalIssues lab)
     then
       issues <- localeOf (lab_totalIssues lab) ;;
       deadline <- deadlineIn 21 ;;
       ret [ {| rec_id := 4; rec_role := "DQT"; rec_priority := "MEDIUM";
                rec_action := "Resolve Lab Data Issues";
                rec_target := [issues; Lit " lab issues"];
                rec_rationale := [Lit "Missing lab names/ranges impact data completeness"];
                rec_deadline := deadline;
                rec_estimatedImpact := [Lit "Lab score improvement"];
                rec_source := "Missing_Lab_Name_and_Ranges" |} ]
     else ret []) ;;
  rec5 <-
    (if gt0 (coding_totalUncoded coding)
     then
       uncoded <- localeOf (coding_totalUncoded coding) ;;
       deadline <- deadlineIn 21 ;;
       ret [ {| rec_id := 5; rec_role := "DQT"; rec_priority := "MEDIUM";
                rec_action := "Complete Term Coding";
                rec_target := [uncoded; Lit " uncoded terms"];
                rec_rationale := [Lit "MedDRA/WHO-DD coding required for submission"];
                rec_deadline := deadline;
                rec_estimatedImpact := [Lit "Coding readiness"];
                rec_source := "GlobalCodingReport" |} ]
     else ret []) ;;
  ret (rec1 ++ rec2 ++ rec3 ++ rec4 ++ rec5)%list.

(** *** The trend of the DQI (lines 207-213) *)

(** [t => t.value === 50] *)
Definition isPlaceholder (t : obj) : bool :=
  match get "value" t with
  | Some (JNum n) => strictEq n (Fin 50)
  | _ => false
  end.

(** [dqiTrend.length === 0 || dqiTrend.every(t => t.value === 50)] *)
Definition degenerate (series : list obj) : bool :=
  match series with
  | [] => true
  | _ => forallb isPlaceholder series
  end.

Definition dqiTrendOf (raw : Raw) (dqi : num) : M (list obj) :=
  let dqiTrend := orEmpty (raw_dqiTrend raw) [] in
  if degenerate dqiTrend then generateDQITrend dqi 7 else ret dqiTrend.

Definition generateFlaggedPatients : Raw -> M (list Patient) :=
  generateFlaggedPatientsWith 30 40.

(** *** The assembled model (lines 73-307): the body of
    [getRealDashboardData] once the snapshot is there *)

Definition study (raw : Raw) : Study :=
  let saes := orEmpty (raw_saes raw) noSaes in
  {| study_id := "MULTI-STUDY";
     study_name := "Combined Clinical Trial Analysis (23 Studies)";
     study_phase := "Phase III";
     study_sponsor := "NEST 2.0 Hackathon";
     study_totalPatients := totalUniquePatients saes;
     study_activeSites := countTotalSites (raw_regions raw);
     study_countries := countTotalCountries (raw_regions raw);
     study_regions := List.length (orEmpty (raw_regions raw) []) |}.

Definition executiveKPIs (raw : Raw) : ExecutiveKPIs :=
  let queries := orEmpty (raw_queries raw) noQueries in
  let saes := orEmpty (raw_saes raw) noSaes in
  let dqi := dqi raw in
  let pct := cleanPatientPercent saes in
  {| kpi_dqi_current := dqi;
     kpi_dqi_previous := Math.max (Fin 0) (sub dqi (Fin 3));
     kpi_dqi_target := 95;
     kpi_dqi_trend := "up";
     kpi_cleanPatients_current := cleanPatients saes;
     kpi_cleanPatients_total := totalUniquePatients saes;
     kpi_cleanPatients_percentage := pct;
     kpi_cleanPatients_previousPercentage := Z.max 0 (pct - 2);
     kpi_cleanPatients_trend := "up";
     kpi_sitesAtRisk_current := orQ (saes_sitesWithOpenSAE saes) 0;
     kpi_sitesAtRisk_previous := orQ (saes_sitesWithOpenSAE saes) 0 + 15;
     kpi_sitesAtRisk_trend := "down";
     kpi_openSAEs_current := orQ (saes_open saes) 0;
     kpi_openSAEs_critical := Qfloor (orQ (saes_open saes) 0 * (15 # 100));
     kpi_openSAEs_previous := orQ (saes_open saes) 0 + 200;
     kpi_openSAEs_trend := "down";
     kpi_readinessStatus := readinessStatus saes queries;
     kpi_queryResolution_current := orQ (queries_resolutionRate queries) 0;
     kpi_queryResolution_target := 98;
     kpi_queryResolution_trend := "up" |}.

(** [raw.lastUpdated || new Date().toISOString()] *)
Definition lastUpdatedOf (raw : Raw) : M Stamp :=
  let given := orStr (raw_lastUpdated raw) "" in
  if String.eqb given ""
  then now <- Date_now ;; ret (Instant now)
  else ret (Given given).

Definition transform (raw : Raw) : M DashboardModel :=
  let queries := orEmpty (raw_queries raw) noQueries in
  let saes := orEmpty (raw_saes raw) noSaes in
  let visits := orEmpty (raw_visits raw) noVisits in
  let lab := orEmpty (raw_lab raw) noLab in
  let coding := orEmpty (raw_coding raw) noCoding in
  let signatures := orEmpty (raw_signatures raw) noSignatures in
  let rawRegions := orEmpty (raw_regions raw) [] in
  let regions := transformRegionsData getCountryName rawRegions in
  let '(topSites, bottomSites) := calculateSiteRankings getCountryName rawRegions in
  dqiTrend <- dqiTrendOf raw (dqi raw) ;;
  aiInsights <- generateAIInsights raw (dqi raw) saes queries lab visits ;;
  agentRecommendations <-
    generateAgentRecommendations raw saes queries signatures lab coding ;;
  lastUpdated <- lastUpdatedOf raw ;;
  now <- Date_now ;;
  patients <- generateFlaggedPatients raw ;;
  saeList <- generateSAEList raw ;;
  cleanTrend <- generateTrendData (Fin (inject_Z (cleanPatientPercent saes))) 7 false ;;
  queryTrend <- generateTrendData (Fin (orQ (queries_open queries) 0)) 7 true ;;
  ret {| dm_lastUpdated := lastUpdated;
         dm_previousSnapshotDate := (now - 7 * msPerDay)%Z;
         dm_dataSource :=
           orStr (raw_dataSource raw)
                 "Complete extraction from 9 file types across 23 studies";
         dm_governanceStatement := raw_governanceStatement raw;
         dm_extractionStats := raw_extractionStats raw;
         dm_study := study raw;
         dm_executiveKPIs := executiveKPIs raw;
         dm_readinessCriteria := readinessCriteria saes queries;
         dm_regions := regions;
         dm_topSites := topSites;
         dm_bottomSites := bottomSites;
         dm_patients := patients;
         dm_bottlenecks := bottlenecks raw;
         dm_saes := saeList;
         dm_aiInsights := aiInsights;
         dm_agentRecommendations := agentRecommendations;
         dm_trends_dqi := dqiTrend;
         dm_trends_cleanPatients := cleanTrend;
         dm_trends_openQueries := queryTrend |}.

End V2.

(** ** The adapter, revision 1 (lines 631-1225): scoring, readiness and
    the two generators *)

Module V1.

(** *** Scoring (lines 713-726) *)

Definition queryResolutionScore (queries : Queries) : Q :=
  orQ (queries_resolutionRate queries) 0 / 100.

Definition saeResolutionScore (saes : Saes) : num :=
  if gt0 (saes_total saes)
  then div (sub (toNumber (saes_total saes)) (toNumber (saes_open saes)))
           (toNumber (saes_total saes))
  else Fin 1.

Definition dqi (raw : Raw) : num :=
  let queries := orEmpty (raw_queries raw) noQueries in
  let saes := orEmpty (raw_saes raw) noSaes in
  Math.round
    (mul (add (add (add (add
            (mul (saeResolutionScore saes) (Fin (30 # 100)))
            (mul (Fin (queryResolutionScore queries)) (Fin (25 # 100))))
            (mul (Fin (75 # 100)) (Fin (20 # 100))))
            (mul (Fin (85 # 100)) (Fin (15 # 100))))
            (mul (Fin (90 # 100)) (Fin (10 # 100))))
         (Fin 100)).

(** *** Readiness (lines 740-747) *)

Definition readinessStatus (saes : Saes) (queries : Queries) : string :=
  if isZero (saes_open saes) && gec (queries_resolutionRate queries) 98
  then "ready"
  else if ltc (saes_open saes) 10 && gec (queries_resolutionRate queries) 90
  then "at-risk"
  else "not-ready".

Definition sitesAtRisk (saes : Saes) : Q := orQ (saes_sitesWithOpenSAE saes) 0.

(** *** Insights (lines 1075-1120) *)

Definition generateAIInsights (raw : Raw) (dqi : num) (sitesAtRisk : Q) (saes : Saes)
    (queries : Queries) : M (list Insight) :=
  open <- toLocaleString (finQ (saes_open saes)) ;;
  sites <- toLocaleString (finQ (saes_sitesWithOpenSAE saes)) ;;
  patients <- toLocaleString (finQ (saes_patientsWithOpenSAE saes)) ;;
  at1 <- Date_now ;;
  let insight1 :=
    {| ins_id := 1;
       ins_type := if gt0 (saes_open saes) then "blocker" else "trend";
       ins_icon := if gt0 (saes_open saes) then "🚫" else "📈";
       ins_title := "Submission Readiness Assessment";
       ins_summary :=
         [Lit "<strong>"; open; Lit " open SAEs</strong> across "; sites;
          Lit " sites are currently blocking database lock. "; patients;
          Lit " patients have unresolved safety events. <strong>Safety team escalation required before interim analysis.</strong>"];
       ins_priority := if gt (toNumber (saes_open saes)) (Fin 100) then "critical" else "high";
       ins_affectedSites := Some [];
       ins_generatedAt := at1;
       ins_source := "SAE_Dashboard_DM + SAE_Dashboard_Safety" |} in
  insight2 <-
    (if gt0 (V2.over30 queries)
     then
       aging <- member (queries_aging queries) ;;
       aged <- toLocaleString (finQ (aging_over30 aging)) ;;
       aging' <- member (queries_aging queries) ;;
       at2 <- Date_now ;;
       ret [ {| ins_id := 2;
                ins_type := "risk";
                ins_icon := "⚠️";
                ins_title := "Query Aging Alert";
                ins_summary :=
                  [Lit "<strong>"; aged;
                   Lit " queries</strong> have been open for more than 30 days. Query resolution rate is ";
                   Plain (finQ (queries_resolutionRate queries));
                   Lit "% against target of 98%. <strong>CRA follow-up recommended for aging queries.</strong>"];
                ins_priority :=
                  if gt (toNumber (aging_over30 aging')) (Fin 500) then "critical" else "high";
                ins_affectedSites := Some [];
                ins_generatedAt := at2;
                ins_source := "CPID_EDC_Metrics.Query Report - Cumulative" |} ]
     else ret []) ;;
  at3 <- Date_now ;;
  let insight3 :=
    {| ins_id := 3;
       ins_type := "trend";
       ins_icon := "📊";
       ins_title := "Data Quality Index Summary";
       ins_summary :=
         [Lit "Current DQI is <strong>"; Plain (Some dqi);
          Lit "%</strong> based on weighted composite of safety resolution (30%), query resolution (25%), visit/page completeness (20%), lab/coding readiness (15%), and SDV/signatures (10%). <strong>Target: 95%</strong>"];
       ins_priority := if lt dqi (Fin 80) then "high" else "info";
       ins_affectedSites := Some [];
       ins_generatedAt := at3;
       ins_source := "Derived from validated pre-computed metrics" |} in
  ret ([insight1] ++ insight2 ++ [insight3])%list.

(** *** Recommendations (lines 1122-1184) *)

Definition generateAgentRecommendations (raw : Raw) (saes : Saes) (queries : Queries)
    (sitesAtRisk : Q) : M (list Recommendation) :=
  rec1 <-
    (if gt0 (saes_open saes)
     then
       open <- toLocaleString (finQ (saes_open saes)) ;;
       patients <- toLocaleString (finQ (saes_patientsWithOpenSAE saes)) ;;
       deadline <- V2.deadlineIn 7 ;;
       ret [ {| rec_id := 1; rec_role := "Safety"; rec_priority := "CRITICAL";
                rec_action := "Expedite SAE Review & Resolution";
                rec_target := [open; Lit " open safety events"];
                rec_rationale :=
                  [patients; Lit " patients with open SAE blocking database lock"];
                rec_deadline := deadline;
                rec_estimatedImpact := [Lit "Unblocks submission readiness"];
                rec_source := "SAE_Dashboard" |} ]
     else ret []) ;;
  rec2 <-
    (if gt0 (V2.over30 queries)
     then
       aging <- member (queries_aging queries) ;;
       aged <- toLocaleString (finQ (aging_over30 aging)) ;;
       deadline <- V2.deadlineIn 14 ;;
       aging' <- member (queries_aging queries) ;;
       ret [ {| rec_id := 2; rec_role := "CRA"; rec_priority := "HIGH";
                rec_action := "Address Aging Queries";
                rec_target := [aged; Lit " queries >30 days"];
                rec_rationale :=
                  [Lit "Queries aging beyond 30 days indicate site follow-up delays"];
                rec_deadline := deadline;
                rec_estimatedImpact :=
                  [Lit "+";
                   Plain (Some (Math.round
                     (mul (div (toNumber (aging_over30 aging'))
                               (toNumber (queries_total queries)))
                          (Fin 100))));
                   Lit "% resolution rate"];
                rec_source := "CPID_EDC_Metrics.Query Report" |} ]
     else ret []) ;;
  rec3 <-
    (if Qltb 0 sitesAtRisk
     then
       sites <- toLocaleString (Some (Fin sitesAtRisk)) ;;
       deadline <- V2.deadlineIn 21 ;;
       ret [ {| rec_id := 3; rec_role := "CRA"; rec_priority := "MEDIUM";
                rec_action := "Schedule Site Visits";
                rec_target := [sites; Lit " sites with open safety events"];
                rec_rationale := [Lit "Sites with open SAEs require on-site intervention"];
                rec_deadline := deadline;
                rec_estimatedImpact := [Lit "DQI improvement at flagged sites"];
                rec_source := "Site snapshot" |} ]
     else ret []) ;;
  open <- toLocaleString (finQ (queries_open queries)) ;;
  deadline <- V2.deadlineIn 14 ;;
  let rec4 :=
    {| rec_id := 4; rec_role := "DQT";
       rec_priority := if ltc (queries_resolutionRate queries) 90 then "HIGH" else "MEDIUM";
       rec_action := "Query Resolution Campaign";
       rec_target := [open; Lit " open queries across studies"];
       rec_rationale :=
         [Lit "Current resolution rate "; Plain (finQ (queries_resolutionRate queries));
          Lit "% below target 98%"];
       rec_deadline := deadline;
       rec_estimatedImpact := [Lit "Clean patient % increase"];
       rec_source := "CPID_EDC_Metrics" |} in
  ret (rec1 ++ rec2 ++ rec3 ++ [rec4])%list.

(** *** Patients (lines 731-738 and 931-934) *)

(** [raw.saes?.patientsWithOpenSAE * 3 || 5000] *)
Definition estimateTotalPatients (raw : Raw) : num :=
  or (mul (toNumber (opt saes_patientsWithOpenSAE (raw_saes raw))) (Fin 3)) (Fin 5000).

Definition cleanPatients (raw : Raw) : num :=
  let saes := orEmpty (raw_saes raw) noSaes in
  Math.max (Fin 0)
    (sub (estimateTotalPatients raw) (Fin (orQ (saes_patientsWithOpenSAE saes) 0))).

Definition cleanPatientPercent (raw : Raw) : num :=
  if gt (estimateTotalPatients raw) (Fin 0)
  then div (Math.round
              (mul (div (cleanPatients raw) (estimateTotalPatients raw)) (Fin 1000)))
           (Fin 10)
  else Fin 0.

(** The status of the 'clean' readiness criterion (lines 759-766). *)
Definition cleanCriterionStatus (raw : Raw) : string :=
  V2.passIf (ge (cleanPatientPercent raw) (Fin 95)).

(** [generateFlaggedPatients] (lines 1025-1050) samples the score as
    [Math.round(40 + Math.random() * 30)]. *)
Definition generateFlaggedPatients : Raw -> M (list Patient) :=
  generateFlaggedPatientsWith 40 30.

End V1.

(** ** Loading the snapshot and serving the model (lines 33-71, and
    [ClinicalDashboard.initAsync] of the main application) *)

(** What [fetch('js/data/realData.json')] and [response.json()] come to. *)
Inductive FetchOutcome : Type :=
| NetworkError                 (* [fetch] rejects *)
| NotOk                        (* [!response.ok] *)
| BadJson                      (* [response.json()] rejects *)
| Json (body : option Raw).    (* the parsed body: an object, or a falsy value *)

Record Host : Type := mkHost {
  (* the global [RealData]: [None] when [typeof RealData === 'undefined'],
     [Some None] when it is declared with a falsy value *)
  RealData : option (option Raw);
  fetched : FetchOutcome
}.

Definition fetchFails (o : FetchOutcome) : Prop :=
  match o with Json _ => False | _ => True end.

(** [loadRealData()]: the snapshot, or [null], and the module-level
    [RealDataCache] afterwards. *)
Definition loadRealData (host : Host) (RealDataCache : option Raw)
  : option Raw * option Raw :=
  match RealDataCache with
  | Some cached => (Some cached, RealDataCache)
  | None =>
      match RealData host with
      | Some embedded => (embedded, embedded)
      | None =>
          match fetched host with
          | Json body => (body, body)
          | _ => (None, None)
          end
      end
  end.

Definition getRealDashboardData (transform : Raw -> M DashboardModel)
    (host : Host) (RealDataCache : option Raw) : M (Served * option Raw) :=
  let '(raw, cache) := loadRealData host RealDataCache in
  match raw with
  | None => ret (MockData, cache)
  | Some r => d <- transform r ;; ret (Model d, cache)
  end.

(** [initAsync()]: the value of [this.data] when [init()] is called.
    [adapterLoaded] is [typeof getRealDashboardData === 'function']. *)
Definition initAsync (useRealData adapterLoaded : bool)
    (transform : Raw -> M DashboardModel) (host : Host) (RealDataCache : option Raw)
    (e : Env) (s : St) : Served :=
  let data :=
    if useRealData && adapterLoaded
    then match getRealDashboardData transform host RealDataCache e s with
         | Ok (d, _) _ => d
         | Throw _ => MockData
         end
    else MockData in
  if negb (hasExecutiveKPIs data) then MockData else data.

(** ** The main application: what it computes from the model before it
    renders (methods of [ClinicalDashboard]) *)

Module Dashboard.

(** [getStatusClass(value, greenThreshold, amberThreshold)] *)
Definition getStatusClass (value greenThreshold amberThreshold : num) : string :=
  if ge value greenThreshold then "text-success"
  else if ge value amberThreshold then "text-warning"
  else "text-danger".

(** [getHeatmapClass(dqi)] *)
Definition getHeatmapClass (dqi : num) : string :=
  if ge dqi (Fin 90) then "level-1"
  else if ge dqi (Fin 85) then "level-2"
  else if ge dqi (Fin 75) then "level-3"
  else if ge dqi (Fin 65) then "level-4"
  else "level-5".

(** [getPriorityBadgeClass(priority)] *)
Definition getPriorityBadgeClass (priority : string) : string :=
  if String.eqb priority "critical" then "badge-danger"
  else if String.eqb priority "high" then "badge-warning"
  else "badge-neutral".

(** [this.data.saes.filter(s => s.blocking)] ([renderSafetyReadiness]) *)
Definition blockingSAEs (saes : list SaeRecord) : list SaeRecord :=
  filter sae_blocking saes.

(** [patients.filter(p => p.status === 'flagged')] and
    [patients.filter(p => p.saeStatus === 'open')] ([renderPatientTable]) *)
Definition flagged (patients : list Patient) : list Patient :=
  filter (fun p => String.eqb (pat_status p) "flagged") patients.

Definition withSAE (patients : list Patient) : list Patient :=
  filter (fun p => String.eqb (pat_saeStatus p) "open") patients.

(** The recommendations that [renderRecommendations(role)] shows. *)
Definition shownRecommendations (role : string) (recommendations : list Recommendation)
  : list Recommendation :=
  if negb (String.eqb role "all")
  then filter (fun r => String.eqb (rec_role r) role) recommendations
  else recommendations.

(** [[...topSites, ...bottomSites].find(s => s.id === siteId)]
    ([showSiteDetails]) *)
Definition findSite (topSites bottomSites : list SiteEntry) (siteId : string)
  : option SiteEntry :=
  find (fun s => String.eqb (se_id s) siteId) (topSites ++ bottomSites)%list.

(** The rows of the two ranking tables carry the inline handler
    [onclick="dashboard.showSiteDetails('${site.id}')"], the id written as it
    is between the quotes ([renderSiteRankings]).  [handlerArgument id] is
    the string that a click passes to [showSiteDetails] when that string is
    [id] itself.  An id that holds a quote, a backslash, an ampersand, a line
    break or a null character can end or alter the attribute or the literal
    (a single quote makes the handler a syntax error): what a click then does
    is not modelled, and the result is [None]. *)
Definition verbatimChar (c : ascii) : bool :=
  negb (existsb (Nat.eqb (nat_of_ascii c)) [0; 10; 13; 34; 38; 39; 92]%nat).

Definition handlerArgument (id : string) : option string :=
  if forallb verbatimChar (list_ascii_of_string id) then Some id else None.

(** [this.data.patients.find(p => p.id === patientId)] ([showPatientDetails]) *)
Definition findPatient (patients : list Patient) (patientId : string) : option Patient :=
  find (fun p => String.eqb (pat_id p) patientId) patients.

End Dashboard.

(** * Specification-side predicates and sample inputs *)

(** The computation returns, whatever the oracles and the state. *)
Definition total {A : Type} (m : M A) : Prop :=
  forall e s, exists a s', m e s = Ok a s'.

(** The fields of the model that the transformation computes from the
    snapshot alone, without the random source or the clock. *)
Record Derived : Type := mkDerived {
  dv_dataSource : string;
  dv_governanceStatement : option string;
  dv_extractionStats : option obj;
  dv_study : Study;
  dv_executiveKPIs : ExecutiveKPIs;
  dv_readinessCriteria : list Criterion;
  dv_regions : list RegionEntry;
  dv_topSites : list SiteEntry;
  dv_bottomSites : list SiteEntry;
  dv_bottlenecks : Bottlenecks
}.

Definition derivedOf (d : DashboardModel) : Derived :=
  {| dv_dataSource := dm_dataSource d;
     dv_governanceStatement := dm_governanceStatement d;
     dv_extractionStats := dm_extractionStats d;
     dv_study := dm_study d;
     dv_executiveKPIs := dm_executiveKPIs d;
     dv_readinessCriteria := dm_readinessCriteria d;
     dv_regions := dm_regions d;
     dv_topSites := dm_topSites d;
     dv_bottomSites := dm_bottomSites d;
     dv_bottlenecks := dm_bottlenecks d |}.

Definition V2_derived (raw : Raw) : Derived :=
  let queries := orEmpty (raw_queries raw) noQueries in
  let saes := orEmpty (raw_saes raw) noSaes in
  let rawRegions := orEmpty (raw_regions raw) [] in
  {| dv_dataSource :=
       orStr (raw_dataSource raw)
             "Complete extraction from 9 file types across 23 studies";
     dv_governanceStatement := raw_governanceStatement raw;
     dv_extractionStats := raw_extractionStats raw;
     dv_study := V2.study raw;
     dv_executiveKPIs := V2.executiveKPIs raw;
     dv_readinessCriteria := V2.readinessCriteria saes queries;
     dv_regions := transformRegionsData V2.getCountryName rawRegions;
     dv_topSites := topSites V2.getCountryName rawRegions;
     dv_bottomSites := bottomSites V2.getCountryName rawRegions;
     dv_bottlenecks := V2.bottlenecks raw |}.

Definition zero : option Q := Some 0.

(** [queries = {total: 1000, open: 200, resolutionRate: 80}],
    [saes = {total: 500, open: 0}], every other counter present and 0. *)
Definition scenario : Raw :=
  {| raw_queries := Some (mkQueries (Some 1000) (Some 200) None (Some 80) None);
     raw_saes := Some (mkSaes (Some 500) (Some 0) None None);
     raw_visits := Some (mkVisits zero zero);
     raw_lab := Some (mkLab zero);
     raw_coding :=
       Some (mkCoding (Some (mkDictionary zero zero)) (Some (mkDictionary zero zero)) zero);
     raw_sdv := Some (mkSdv zero zero zero zero);
     raw_signatures := Some (mkSignatures zero zero);
     raw_edrr := Some (mkEdrr zero);
     raw_regions := Some [];
     raw_dqiTrend := None;
     raw_lastUpdated := None;
     raw_dataSource := None;
     raw_governanceStatement := None;
     raw_extractionStats := None |}.

Definition openIsZero (openSAEs : option Q) : Prop :=
  exists o, openSAEs = Some o /\ o == 0.

Definition openBelow (ceiling : Q) (openSAEs : option Q) : Prop :=
  exists o, openSAEs = Some o /\ o < ceiling.

(** The ladder as the specification words it, for a ceiling and a floor. *)
Definition ladder (ceiling floor : Q) (openSAEs : option Q) (rate : Q) (status : string)
  : Prop :=
  let isReady := openIsZero openSAEs /\ 98 <= rate in
  let isAtRisk := openBelow ceiling openSAEs /\ floor <= rate in
  (status = "ready" <-> isReady) /\
  (status = "at-risk" <-> ~ isReady /\ isAtRisk) /\
  (status = "not-ready" <-> ~ isReady /\ ~ isAtRisk).

Definition withOpen (o : Q) : Saes := mkSaes None (Some o) None None.
Definition withRate (r : Q) : Queries := mkQueries None None None (Some r) None.

Definition rateOnly (r : Q) : Raw :=
  {| raw_queries := Some (withRate r);
     raw_saes := Some (mkSaes (Some 500) None None None);
     raw_visits := None; raw_lab := None; raw_coding := None; raw_sdv := None;
     raw_signatures := None; raw_edrr := None; raw_regions := None;
     raw_dqiTrend := None; raw_lastUpdated := None; raw_dataSource := None;
     raw_governanceStatement := None;
     raw_extractionStats := None |}.

Definition offline : Host := {| RealData := None; fetched := NetworkError |}.
Definition fixedEnv (r : Q) (now : Z) : Env := mkEnv (fun _ => r) (fun _ => now).
Definition start : St := mkSt 0 0.

(** The snapshot [{}]. *)
Definition emptyRaw : Raw :=
  {| raw_queries := None; raw_saes := None; raw_visits := None; raw_lab := None;
     raw_coding := None; raw_sdv := None; raw_signatures := None; raw_edrr := None;
     raw_regions := None; raw_dqiTrend := None; raw_lastUpdated := None;
     raw_dataSource := None; raw_governanceStatement := None;
     raw_extractionStats := None |}.


(** The countries of the input tree, in the order of the two loops. *)
Definition countryNodes (rawRegions : Regions) : list (string * Country) :=
  flat_map (fun r : string * Region => orEmpty (region_countries (snd r)) [])
           rawRegions.

Definition countryEntries (getCountryName : string -> string) (rawRegions : Regions)
  : list CountryEntry :=
  flat_map re_countries (transformRegionsData getCountryName rawRegions).





(** The number [n] is finite and equal to [q]. *)
Definition isNum (n : num) (q : Q) : Prop :=
  match n with Fin x => x == q | _ => False end.

Definition inRange (n : num) : Prop := exists q, n = Fin q /\ 0 <= q <= 100.

(** A positive total comes with an outstanding count between 0 and it. *)
Definition resolved (total outstanding : option Q) : Prop :=
  forall t, total = Some t -> 0 < t ->
  exists o, outstanding = Some o /\ 0 <= o <= t.

(** A precomputed rate, when present, is a percentage. *)
Definition percentage (r : option Q) : Prop :=
  forall q, r = Some q -> 0 <= q <= 100.

(** The scenario with a precomputed resolution rate of 200. *)
Definition overRate : Raw :=
  {| raw_queries := Some (mkQueries (Some 1000) (Some 200) None (Some 200) None);
     raw_saes := raw_saes scenario;
     raw_visits := raw_visits scenario;
     raw_lab := raw_lab scenario;
     raw_coding := raw_coding scenario;
     raw_sdv := raw_sdv scenario;
     raw_signatures := raw_signatures scenario;
     raw_edrr := raw_edrr scenario;
     raw_regions := raw_regions scenario;
     raw_dqiTrend := None; raw_lastUpdated := None; raw_dataSource := None;
     raw_governanceStatement := None;
     raw_extractionStats := None |}.

(** One country with one site; 3 of its 1 queries are open. *)
Definition overOpen : Regions :=
  [("Europe",
    mkRegion None
      (Some [("FRA",
              mkCountry (Some 1) (Some 1) (Some 3)
                (Some [("Site 1", mkSite (Some 4) (Some 1) (Some 3))]))]))].

(** The points that a loop over the weeks pushes, from the number of
    draws and of clock readings made before it. *)
Fixpoint runWeeks (point : nat -> Z -> Q -> obj) (e : Env) (d r : nat) (l : list nat)
  : list obj :=
  match l with
  | [] => []
  | i :: l' =>
      point i (isoDay (clock e r - Z.of_nat i * 7 * msPerDay)) (random e d)
      :: runWeeks point e (S d) (S r) l'
  end.

Definition dqiPoint (currentDqi : num) (i : nat) (date : Z) (r : Q) : obj :=
  trendPoint date
    (Math.round
       (Math.max (Fin 20)
          (add (sub currentDqi (Fin (ofNat i * 3)))
               (mul (sub (Fin r) (Fin (1 # 2))) (Fin 5))))).

(** Strictly increasing dates. *)
Fixpoint increasing (days : list Z) : Prop :=
  match days with
  | [] => True
  | a :: rest =>
      match rest with
      | [] => True
      | b :: _ => (a < b)%Z /\ increasing rest
      end
  end.

Definition dateOf (p : obj) : option Z :=
  match get "date" p with Some (JDate day) => Some day | _ => None end.

Definition valueOf (p : obj) : option num :=
  match get "value" p with Some (JNum n) => Some n | _ => None end.

Definition flaggedSynthetic (p : obj) : Prop := get "synthetic" p = Some (JBool true).

(** The scenario with a trend series of its own. *)
Definition supplied : Raw :=
  {| raw_queries := raw_queries scenario;
     raw_saes := raw_saes scenario;
     raw_visits := raw_visits scenario;
     raw_lab := raw_lab scenario;
     raw_coding := raw_coding scenario;
     raw_sdv := raw_sdv scenario;
     raw_signatures := raw_signatures scenario;
     raw_edrr := raw_edrr scenario;
     raw_regions := raw_regions scenario;
     raw_dqiTrend := Some [trendPoint 19660 (Fin 84); trendPoint 19667 (Fin 85)];
     raw_lastUpdated := Some "2023-11-14T22:13:20.000Z";
     raw_dataSource := None;
     raw_governanceStatement := None;
     raw_extractionStats := None |}.

Definition previousSnapshotOf (r : Result DashboardModel) : option Z :=
  match r with Ok d _ => Some (dm_previousSnapshotDate d) | Throw _ => None end.

Definition sampledScoresOf (r : Result DashboardModel) : list Z :=
  match r with Ok d _ => map pat_dqi (dm_patients d) | Throw _ => [] end.

Definition siteOf (patients total open : Z) : Site :=
  mkSite (Some (inject_Z patients)) (Some (inject_Z total)) (Some (inject_Z open)).

(** Ten sites in three countries of two regions. *)
Definition tenSites : Regions :=
  [("Americas",
    mkRegion None
      (Some [("USA",
              mkCountry (Some 6) (Some 600) (Some 90)
                (Some [("Site 1", siteOf 12 100 0); ("Site 2", siteOf 8 100 10);
                       ("Site 3", siteOf 15 100 50); ("Site 4", siteOf 7 100 10);
                       ("Site 5", siteOf 9 100 20); ("Site 6", siteOf 11 100 0)]));
             ("BRA",
              mkCountry None (Some 200) (Some 150)
                (Some [("Site 7", siteOf 5 100 80); ("Site 8", siteOf 6 100 60)]))]));
   ("Europe",
    mkRegion (Some 1)
      (Some [("DEU",
              mkCountry (Some 2) (Some 50) (Some 5)
                (Some [("Site 9", siteOf 4 50 5); ("Site 10", siteOf 3 0 0)]))]))].

Definition threeSites : Regions :=
  [("Europe",
    mkRegion None
      (Some [("FRA",
              mkCountry None (Some 30) (Some 3)
                (Some [("Site 1", siteOf 4 10 1); ("Site 2", siteOf 4 10 2);
                       ("Site 3", siteOf 4 10 0)]))]))].


(** Every element of a list is related to every later one. *)
Fixpoint ordered {A : Type} (R : A -> A -> Prop) (l : list A) : Prop :=
  match l with
  | [] => True
  | a :: l' => Forall (R a) l' /\ ordered R l'
  end.

(** [a] is ranked before [b]: a higher score, or the same score and an
    earlier place in the traversal of the tree. *)
Definition rankedBefore (a b : SiteEntry) : Prop :=
  (se_dqi b < se_dqi a)%Z \/ (se_dqi a = se_dqi b /\ (se_ref a < se_ref b)%nat).

(** The first site of a ranking list is an extreme of all the sites; the
    list is empty only when there is no site. *)
Definition headBounds (le : Z -> Z -> Prop) (listed all : list SiteEntry) : Prop :=
  match listed with
  | first :: _ => Forall (fun s => le (se_dqi s) (se_dqi first)) all
  | [] => all = []
  end.

(** The sites of a country that declares no [total_sites] (or declares
    0): the number of its site keys. *)
Definition undeclaredSites (c : string * Country) : Q :=
  let sites := lengthQ (orEmpty (country_sites (snd c)) []) in
  match country_total_sites (snd c) with
  | Some q => if Qeq_bool q 0 then sites else 0
  | None => sites
  end.

(** A host in which the snapshot is embedded as the global [RealData]. *)
Definition embedding (raw : Raw) : Host :=
  {| RealData := Some (Some raw); fetched := NetworkError |}.

(** The number of sample records drawn for a counter:
    [Math.min(10, counter || 5)] iterations of a loop from 1. *)
Definition sampleSize (counter : option Q) : nat :=
  List.length (upTo (Qmin10 (orQ counter 5))).

Definition saeIds : list string :=
  ["SAE-1001"; "SAE-1002"; "SAE-1003"; "SAE-1004"; "SAE-1005";
   "SAE-1006"; "SAE-1007"; "SAE-1008"; "SAE-1009"; "SAE-1010"].

Definition patientIds : list string :=
  ["PAT-0001"; "PAT-0002"; "PAT-0003"; "PAT-0004"; "PAT-0005";
   "PAT-0006"; "PAT-0007"; "PAT-0008"; "PAT-0009"; "PAT-0010"].

(** A date that lies at most [days] days before a reading of the clock. *)
Definition withinDays (e : Env) (days : Z) (date : Z) : Prop :=
  exists k, (isoDay (clock e k) - days <= date <= isoDay (clock e k))%Z.

(** What holds of the SAE record drawn at iteration [i]. *)
Definition saeSample (e : Env) (i : nat) (r : SaeRecord) : Prop :=
  sae_id r = nth (i - 1) saeIds "" /\
  sae_patientId r = nth (i - 1) patientIds "" /\
  sae_blocking r = (i <=? 5)%nat /\
  sae_status r = "Open" /\
  (5 <= sae_daysOpen r <= 49)%Z /\
  withinDays e 60 (sae_reportedDate r).

(** What holds of the patient drawn at iteration [i], for a score sampled
    between [lo] and [hi]. *)
Definition patientSample (e : Env) (lo hi : Z) (i : nat) (p : Patient) : Prop :=
  pat_id p = nth (i - 1) patientIds "" /\
  pat_status p = "flagged" /\ pat_saeStatus p = "open" /\ pat_isClean p = false /\
  (lo <= pat_dqi p <= hi)%Z /\
  (0 <= pat_missingVisits p <= 2)%Z /\
  (0 <= pat_missingPages p <= 4)%Z /\
  (1 <= pat_openQueries p <= 10)%Z /\
  (0 <= pat_labIssues p <= 2)%Z /\
  withinDays e 7 (pat_lastActivity p).

(** The point that [generateTrendData] pushes for the week [i], from the
    date and the random value drawn for it. *)
Definition trendDataPoint (currentValue : num) (weeks : nat) (decreasing : bool)
    (i : nat) (date : Z) (r : Q) : obj :=
  let variance := mul (mul (sub (Fin r) (Fin (1 # 2))) (Fin (1 # 10))) currentValue in
  let ratio := div (Fin (ofNat i)) (Fin (ofNat weeks)) in
  let trend :=
    if decreasing
    then mul currentValue (add (Fin 1) (mul ratio (Fin (3 # 10))))
    else mul currentValue (sub (Fin 1) (mul ratio (Fin (15 # 100)))) in
  trendPoint date (Math.round (add trend variance)).

(** The dates of the points of a loop over the weeks. *)
Fixpoint runDays (e : Env) (r : nat) (l : list nat) : list Z :=
  match l with
  | [] => []
  | i :: l' => (isoDay (clock e r) - 7 * Z.of_nat i)%Z :: runDays e (S r) l'
  end.

(** The value of a point is the integer [v], and [lo <= v <= hi]. *)
Definition valueBetween (lo hi : Q) (p : obj) : Prop :=
  exists v : Z, valueOf p = Some (Fin (inject_Z v)) /\ lo <= inject_Z v <= hi.

(** A point whose value is the number 50. *)
Definition placeholder (p : obj) : Prop :=
  exists q, valueOf p = Some (Fin q) /\ q == 50.

(** The snapshot [{saes: {patientsWithOpenSAE: p}}]. *)
Definition withPatients (p : Q) : Raw :=
  {| raw_queries := None;
     raw_saes := Some (mkSaes None None (Some p) None);
     raw_visits := None; raw_lab := None; raw_coding := None; raw_sdv := None;
     raw_signatures := None; raw_edrr := None; raw_regions := None;
     raw_dqiTrend := None; raw_lastUpdated := None; raw_dataSource := None;
     raw_governanceStatement := None;
     raw_extractionStats := None |}.

(** The counters that the insight generator of revision 1 formats
    without a default are all present. *)
Definition saeCountersPresent (saes : Saes) : Prop :=
  exists o a p,
    saes_open saes = Some o /\ saes_sitesWithOpenSAE saes = Some a /\
    saes_patientsWithOpenSAE saes = Some p.

(** The counters that the recommendation generator of revision 1 formats
    without a default are present where it reads them. *)
Definition recommendationCountersPresent (saes : Saes) (queries : Queries) : Prop :=
  (exists o, queries_open queries = Some o) /\
  (gt0 (saes_open saes) = true -> exists p, saes_patientsWithOpenSAE saes = Some p).

(** The conditions under which revision 2 pushes its five
    recommendations, by id. *)
Definition recommendationGuards (saes : Saes) (queries : Queries)
    (signatures : Signatures) (lab : Lab) (coding : Coding) : list (Z * bool) :=
  [ (1, gt0 (saes_open saes));
    (2, gt0 (V2.over30 queries));
    (3, gt0 (signatures_overdue signatures));
    (4, gt0 (lab_totalIssues lab));
    (5, gt0 (coding_totalUncoded coding)) ]%Z.

(** The role and the days to the deadline of the recommendation [id]
    of revision 2. *)
Definition roleOf (id : Z) : string :=
  if (id =? 1)%Z then "Safety"
  else if (id =? 2)%Z then "CRA"
  else if (id =? 3)%Z then "Site"
  else "DQT".

Definition deadlineDays (id : Z) : Z :=
  if (id =? 1)%Z then 7 else if (id <=? 3)%Z then 14 else 21.

(** The relation between the heat-map level of a score and the status
    that the adapter derives from the same score. *)
Definition heatmapAgrees (dqi : Z) (status : string) : Prop :=
  let level := Dashboard.getHeatmapClass (Fin (inject_Z dqi)) in
  (status = "healthy" <-> level = "level-1" \/ level = "level-2") /\
  (status = "at-risk" -> level = "level-3" \/ level = "level-4") /\
  (status = "critical" -> level = "level-4" \/ level = "level-5") /\
  (level = "level-3" -> status = "at-risk") /\
  (level = "level-5" -> status = "critical").

(** The row of a sampled patient: a click on it opens the same patient,
    and its score is never shown in the colour of success. *)
Definition patientRow (patients : list Patient) (p : Patient) : Prop :=
  Dashboard.findPatient patients (pat_id p) = Some p /\
  Dashboard.getStatusClass (Fin (inject_Z (pat_dqi p))) (Fin 90) (Fin 70)
    <> "text-success".

(** A snapshot that holds the two visit counters only. *)
Definition withVisits (missing overdue30 : Q) : Raw :=
  {| raw_queries := None; raw_saes := None;
     raw_visits := Some (mkVisits (Some missing) (Some overdue30));
     raw_lab := None; raw_coding := None; raw_sdv := None;
     raw_signatures := None; raw_edrr := None; raw_regions := None;
     raw_dqiTrend := None; raw_lastUpdated := None; raw_dataSource := None;
     raw_governanceStatement := None;
     raw_extractionStats := None |}.

(** The four buckets of overdue visits of the bottleneck view, added up. *)
Definition overdueBuckets (b : Bottlenecks) : Q :=
  inject_Z (bn_visits_overdue_1_7 b) + inject_Z (bn_visits_overdue_8_14 b)
  + inject_Z (bn_visits_overdue_15_30 b) + bn_visits_overdue_over30 b.

(** * Properties *)

(** ** Comparisons and rounding *)

Lemma Qltb_lt (a b : Q) : Qltb a b = true <-> a < b.
Proof.
  unfold Qltb. rewrite negb_true_iff. split.
  - intros H. apply Qnot_le_lt. intros Hle.
    apply Qle_bool_iff in Hle. congruence.
  - intros H. destruct (Qle_bool b a) eqn:E; trivial.
    apply Qle_bool_iff in E. apply Qlt_not_le in H. contradiction.
Qed.

Lemma Qltb_ge (a b : Q) : Qltb a b = false <-> b <= a.
Proof.
  unfold Qltb. rewrite negb_false_iff. apply Qle_bool_iff.
Qed.

Lemma roundQ_between (lo hi : Z) (q : Q) :
  inject_Z lo <= q -> q <= inject_Z hi -> (lo <= Math.roundQ q <= hi)%Z.
Proof.
  intros Hlo Hhi. unfold Math.roundQ. split.
  - rewrite <- (Qfloor_Z lo). apply Qfloor_resp_le. lra.
  - assert (H : (Qfloor (q + (1 # 2)) <= Qfloor (inject_Z hi + (1 # 2)))%Z)
      by (apply Qfloor_resp_le; lra).
    assert (E : Qfloor (inject_Z hi + (1 # 2)) = hi).
    { apply Z.le_antisymm.
      - apply Z.lt_succ_r. rewrite Zlt_Qlt.
        eapply Qle_lt_trans; [ apply Qfloor_le | ].
        unfold Z.succ. rewrite inject_Z_plus. change (inject_Z 1) with 1. lra.
      - rewrite <- (Qfloor_Z hi) at 1. apply Qfloor_resp_le. lra. }
    now rewrite E in H.
Qed.

(** ** Runs that do not throw *)

Lemma bind_run {A B : Type} (m : M A) (f : A -> M B) e s a s1 :
  m e s = Ok a s1 -> bind m f e s = f a e s1.
Proof. intros H. unfold bind. now rewrite H. Qed.

Lemma total_ret {A : Type} (a : A) : total (ret a).
Proof. intros e s. now exists a, s. Qed.

Lemma total_bind {A B : Type} (m : M A) (f : A -> M B) :
  total m -> (forall a, total (f a)) -> total (bind m f).
Proof.
  intros Hm Hf e s. destruct (Hm e s) as (a & s1 & Ha).
  rewrite (bind_run _ _ _ _ _ _ Ha). apply Hf.
Qed.

Lemma total_random : total Math_random.
Proof. intros e s. unfold Math_random. eauto. Qed.

Lemma total_now : total Date_now.
Proof. intros e s. unfold Date_now. eauto. Qed.

Lemma total_member {A : Type} (a : A) : total (member (Some a)).
Proof. apply total_ret. Qed.

Lemma total_forEach {A B : Type} (body : A -> M B) (l : list A) :
  (forall a, total (body a)) -> total (forEach body l).
Proof.
  intros Hb. induction l as [| a l IH]; simpl.
  - apply total_ret.
  - apply total_bind; [ apply Hb | intros b ].
    apply total_bind; [ apply IH | intros bs; apply total_ret ].
Qed.

Lemma over30_aging (queries : Queries) :
  gt0 (V2.over30 queries) = true -> exists a, queries_aging queries = Some a.
Proof.
  unfold V2.over30. destruct (queries_aging queries) as [a |]; simpl.
  - eauto.
  - discriminate.
Qed.

Ltac totality :=
  repeat first
    [ apply total_ret
    | apply total_random
    | apply total_now
    | apply total_member
    | apply total_forEach; intros
    | apply total_bind; [ | intros ]
    | match goal with
      | |- total (if gt0 (V2.over30 ?q) then _ else _) =>
          let E := fresh "E" in
          let a := fresh "a" in
          let Ha := fresh "Ha" in
          destruct (gt0 (V2.over30 q)) eqn:E;
          [ destruct (over30_aging q E) as [a Ha]; rewrite Ha | ]
      | |- total (if ?b then _ else _) => destruct b
      end ].

Lemma total_generateDQITrend (currentDqi : num) (weeks : nat) :
  total (generateDQITrend currentDqi weeks).
Proof. unfold generateDQITrend, weeksAgo. totality. Qed.

Lemma total_generateTrendData (v : num) (weeks : nat) (decreasing : bool) :
  total (generateTrendData v weeks decreasing).
Proof. unfold generateTrendData, weeksAgo. totality. Qed.

Lemma total_generateSAEList (raw : Raw) : total (generateSAEList raw).
Proof. unfold generateSAEList. totality. Qed.

Lemma total_generateFlaggedPatients (base spread : Q) (raw : Raw) :
  total (generateFlaggedPatientsWith base spread raw).
Proof. unfold generateFlaggedPatientsWith. totality. Qed.

(** The insight generator of revision 2 guards every call of
    [toLocaleString] with [|| 0]: it never throws. *)
Lemma V2_generateAIInsights_total raw dqi saes queries lab visits :
  total (V2.generateAIInsights raw dqi saes queries lab visits).
Proof.
  unfold V2.generateAIInsights, V2.localeOf, toLocaleString. totality.
Qed.

Lemma V2_generateAgentRecommendations_total raw saes queries signatures lab coding :
  total (V2.generateAgentRecommendations raw saes queries signatures lab coding).
Proof.
  unfold V2.generateAgentRecommendations, V2.localeOf, V2.deadlineIn, toLocaleString.
  totality.
Qed.

Lemma V2_dqiTrendOf_total raw dqi : total (V2.dqiTrendOf raw dqi).
Proof.
  unfold V2.dqiTrendOf.
  destruct (V2.degenerate _); [ apply total_generateDQITrend | apply total_ret ].
Qed.

Lemma V2_lastUpdatedOf_total raw : total (V2.lastUpdatedOf raw).
Proof. unfold V2.lastUpdatedOf. totality. Qed.

Ltac run_bind lemma :=
  match goal with
  | |- context [bind ?m ?f ?e ?s0] =>
      let a := fresh "a" in
      let s1 := fresh "s" in
      let H := fresh "H" in
      destruct (lemma e s0) as (a & s1 & H);
      rewrite (bind_run m f e s0 a s1 H)
  end.

(** The transformation of revision 2 never throws, and its result
    carries the derived fields and the trend chosen for the DQI. *)
Lemma V2_transform_run (raw : Raw) (e : Env) (s : St) :
  exists d s' s1,
    V2.transform raw e s = Ok d s' /\
    derivedOf d = V2_derived raw /\
    V2.dqiTrendOf raw (V2.dqi raw) e s = Ok (dm_trends_dqi d) s1.
Proof.
  unfold V2.transform, calculateSiteRankings.
  run_bind (V2_dqiTrendOf_total raw (V2.dqi raw)).
  run_bind (V2_generateAIInsights_total raw (V2.dqi raw)
              (orEmpty (raw_saes raw) noSaes) (orEmpty (raw_queries raw) noQueries)
              (orEmpty (raw_lab raw) noLab) (orEmpty (raw_visits raw) noVisits)).
  run_bind (V2_generateAgentRecommendations_total raw
              (orEmpty (raw_saes raw) noSaes) (orEmpty (raw_queries raw) noQueries)
              (orEmpty (raw_signatures raw) noSignatures) (orEmpty (raw_lab raw) noLab)
              (orEmpty (raw_coding raw) noCoding)).
  run_bind (V2_lastUpdatedOf_total raw).
  run_bind total_now.
  run_bind (total_generateFlaggedPatients 30 40 raw).
  run_bind (total_generateSAEList raw).
  run_bind (total_generateTrendData
              (Fin (inject_Z (V2.cleanPatientPercent (orEmpty (raw_saes raw) noSaes))))
              7 false).
  run_bind (total_generateTrendData
              (Fin (orQ (queries_open (orEmpty (raw_queries raw) noQueries)) 0)) 7 true).
  unfold ret. do 3 eexists. split; [ reflexivity | ].
  split; [ reflexivity | exact H ].
Qed.

(** ** The composite index on the end-to-end scenario *)

(** C1, counterexample: on the scenario neither revision of the adapter
    computes a composite DQI of 95. *)
Lemma C1_composite_is_not_95 :
  V2.dqi scenario <> Fin 95 /\ V1.dqi scenario <> Fin 95.
Proof.
  split; intros H; vm_compute in H; discriminate H.
Qed.

(** C1, amended: on the scenario the model returned by revision 2 carries
    the composite DQI 85 (the verification rate 0 of the SDV category enters
    the sum as a score of 0, with weight 0.10, and the visit, lab, coding and
    signature scores are 100), and revision 1, which replaces the last three
    terms by the constants 0.75, 0.85 and 0.90, computes 87. *)
Theorem C1_composite_dqi :
  (forall e s, exists d s',
      V2.transform scenario e s = Ok d s' /\
      kpi_dqi_current (dm_executiveKPIs d) = Fin 85) /\
  V1.dqi scenario = Fin 87.
Proof.
  split.
  - intros e s. destruct (V2_transform_run scenario e s) as (d & s' & s1 & Hrun & Hd & _).
    exists d, s'. split; [ exact Hrun | ].
    change (dm_executiveKPIs d) with (dv_executiveKPIs (derivedOf d)).
    rewrite Hd. vm_compute. reflexivity.
  - vm_compute. reflexivity.
Qed.

(** ** The readiness ladder *)

Lemma isZero_spec (v : option Q) : isZero v = true <-> openIsZero v.
Proof.
  unfold isZero, openIsZero. destruct v as [q |]; simpl.
  - rewrite Qeq_bool_iff. split.
    + intros H. now exists q.
    + intros (o & Ho & H0). now inversion Ho; subst.
  - split; [ discriminate | intros (o & Ho & _); discriminate ].
Qed.

Lemma ltc_spec (v : option Q) (c : Q) : ltc v c = true <-> openBelow c v.
Proof.
  unfold ltc, openBelow. destruct v as [q |]; simpl.
  - rewrite Qltb_lt. split.
    + intros H. now exists q.
    + intros (o & Ho & H0). now inversion Ho; subst.
  - split; [ discriminate | intros (o & Ho & _); discriminate ].
Qed.

Lemma gec_spec (v : option Q) (c : Q) :
  0 < c -> (gec v c = true <-> c <= orQ v 0).
Proof.
  intros Hc. unfold gec. destruct v as [q |]; simpl.
  - rewrite Qle_bool_iff.
    destruct (Qeq_bool q 0) eqn:E.
    + apply Qeq_bool_iff in E. rewrite E. tauto.
    + tauto.
  - split; [ discriminate | intros H; lra ].
Qed.

Lemma ladder_of_tests (ceiling floor : Q) (openSAEs : option Q) (rate : Q)
    (t1 t2 : bool) :
  (t1 = true <-> openIsZero openSAEs /\ 98 <= rate) ->
  (t2 = true <-> openBelow ceiling openSAEs /\ floor <= rate) ->
  ladder ceiling floor openSAEs rate
    (if t1 then "ready" else if t2 then "at-risk" else "not-ready").
Proof.
  intros H1 H2. unfold ladder.
  destruct t1, t2; repeat split; intros; try discriminate; intuition congruence.
Qed.

(** C2, counterexample: with 5 open SAEs and a resolution rate of 90 the
    100/85 ladder of revision 2 does not answer 'not-ready'. *)
Lemma C2_five_ninety_is_not_not_ready :
  V2.readinessStatus (withOpen 5) (withRate 90) <> "not-ready".
Proof.
  vm_compute. discriminate.
Qed.

(** C2, amended: the readiness status is a first-match ladder on the open
    SAEs and the query resolution rate: 'ready' iff the open SAEs are 0 and
    the rate is at least 98; otherwise 'at-risk' iff the open SAEs are below
    the ceiling and the rate is at least the floor; otherwise 'not-ready'.
    Revision 1 uses the ceiling 10 and the floor 90, revision 2 the ceiling
    100 and the floor 85.  In particular (0, 98) is 'ready', and (5, 90) is
    'at-risk' under both ladders. *)
Theorem C2_readiness_ladder :
  (forall saes queries,
      ladder 10 90 (saes_open saes) (orQ (queries_resolutionRate queries) 0)
        (V1.readinessStatus saes queries)) /\
  (forall saes queries,
      ladder 100 85 (saes_open saes) (orQ (queries_resolutionRate queries) 0)
        (V2.readinessStatus saes queries)) /\
  V1.readinessStatus (withOpen 0) (withRate 98) = "ready" /\
  V2.readinessStatus (withOpen 0) (withRate 98) = "ready" /\
  V1.readinessStatus (withOpen 5) (withRate 90) = "at-risk" /\
  V2.readinessStatus (withOpen 5) (withRate 90) = "at-risk".
Proof.
  split; [ | split; [ | repeat split; vm_compute; reflexivity ] ].
  - intros saes queries. unfold V1.readinessStatus.
    apply ladder_of_tests; rewrite andb_true_iff.
    + rewrite isZero_spec, gec_spec by lra. tauto.
    + rewrite ltc_spec, gec_spec by lra. tauto.
  - intros saes queries. unfold V2.readinessStatus, V2.queryResolutionScore.
    apply ladder_of_tests; rewrite andb_true_iff.
    + rewrite isZero_spec, Qle_bool_iff. tauto.
    + rewrite ltc_spec, Qle_bool_iff. tauto.
Qed.

(** C10: a snapshot whose [saes] lacks [open] is 'not-ready' whatever the
    query resolution rate: [undefined === 0] and [undefined < ceiling] are
    both false.  This holds for the ladder of either revision and for the
    status in the model that revision 2 returns. *)
Theorem C10_absent_open_is_not_ready (raw : Raw) :
  saes_open (orEmpty (raw_saes raw) noSaes) = None ->
  let saes := orEmpty (raw_saes raw) noSaes in
  let queries := orEmpty (raw_queries raw) noQueries in
  V1.readinessStatus saes queries = "not-ready" /\
  V2.readinessStatus saes queries = "not-ready" /\
  forall e s, exists d s',
    V2.transform raw e s = Ok d s' /\
    kpi_readinessStatus (dm_executiveKPIs d) = "not-ready".
Proof.
  intros Hopen saes queries.
  assert (H2 : V2.readinessStatus saes queries = "not-ready").
  { unfold V2.readinessStatus. subst saes. rewrite Hopen. reflexivity. }
  split; [ | split; [ exact H2 | ] ].
  - unfold V1.readinessStatus. subst saes. rewrite Hopen. reflexivity.
  - intros e s. destruct (V2_transform_run raw e s) as (d & s' & s1 & Hrun & Hd & _).
    exists d, s'. split; [ exact Hrun | ].
    change (dm_executiveKPIs d) with (dv_executiveKPIs (derivedOf d)).
    rewrite Hd. exact H2.
Qed.

Lemma C10_absent_open_witness :
  V1.readinessStatus (mkSaes (Some 500) None None None) (withRate 100) = "not-ready" /\
  V2.readinessStatus (mkSaes (Some 500) None None None) (withRate 100) = "not-ready" /\
  forall e s, exists d s',
    V2.transform (rateOnly 100) e s = Ok d s' /\
    kpi_readinessStatus (dm_executiveKPIs d) = "not-ready".
Proof.
  apply (C10_absent_open_is_not_ready (rateOnly 100)). reflexivity.
Defined.

(** ** Retrieval failure and the baseline fixture *)

Lemma loadRealData_fails (host : Host) :
  RealData host = None -> fetchFails (fetched host) ->
  loadRealData host None = (None, None).
Proof.
  intros Hembedded Hfetch. unfold loadRealData. rewrite Hembedded.
  destruct (fetched host); simpl in Hfetch; try reflexivity. contradiction.
Qed.

(** Whatever [getRealDashboardData] throws, [initAsync] catches. *)
Lemma initAsync_catches transform host cache e s err :
  getRealDashboardData transform host cache e s = Throw err ->
  initAsync true true transform host cache e s = MockData.
Proof.
  intros H. unfold initAsync. simpl. rewrite H. reflexivity.
Qed.

(** C8: when nothing is cached, no snapshot is embedded and the fetch
    fails, [getRealDashboardData] returns the fixture [MockData] instead of
    throwing, whatever the transformation is, and the application starts
    from [MockData]; in every case what the application starts from carries
    its block of executive KPIs. *)
Theorem C8_retrieval_failure_serves_mock
    (transform : Raw -> M DashboardModel) (host : Host) (e : Env) (s : St) :
  RealData host = None -> fetchFails (fetched host) ->
  getRealDashboardData transform host None e s = Ok (MockData, None) s /\
  (forall useRealData adapterLoaded,
      initAsync useRealData adapterLoaded transform host None e s = MockData) /\
  (forall useRealData adapterLoaded cache,
      hasExecutiveKPIs
        (initAsync useRealData adapterLoaded transform host cache e s) = true).
Proof.
  intros Hembedded Hfetch.
  assert (Hget : getRealDashboardData transform host None e s = Ok (MockData, None) s).
  { unfold getRealDashboardData.
    rewrite (loadRealData_fails host Hembedded Hfetch). reflexivity. }
  split; [ exact Hget | split ].
  - intros useRealData adapterLoaded. unfold initAsync. rewrite Hget.
    destruct (useRealData && adapterLoaded); reflexivity.
  - intros useRealData adapterLoaded cache. unfold initAsync.
    destruct (useRealData && adapterLoaded); simpl.
    + destruct (getRealDashboardData transform host cache e s)
        as [[[| d] c] s' | err]; reflexivity.
    + reflexivity.
Qed.

Lemma C8_retrieval_failure_witness :
  getRealDashboardData V2.transform offline None (fixedEnv 0 0) start
    = Ok (MockData, None) start /\
  (forall useRealData adapterLoaded,
      initAsync useRealData adapterLoaded V2.transform offline None (fixedEnv 0 0) start
        = MockData) /\
  (forall useRealData adapterLoaded cache,
      hasExecutiveKPIs
        (initAsync useRealData adapterLoaded V2.transform offline cache (fixedEnv 0 0) start)
        = true).
Proof.
  apply (C8_retrieval_failure_serves_mock V2.transform offline (fixedEnv 0 0) start).
  - reflexivity.
  - simpl. exact I.
Defined.

(** ** Exceptions in the generators *)

(** C9, the code at the failing input: on the snapshot [{}] the generators
    of revision 1 (lines 1075-1184) throw a [TypeError], the insight
    generator at [saes.open.toLocaleString()] and the recommendation
    generator at [queries.open.toLocaleString()]; the generators of
    revision 2 (lines 479-603), which write [(saes.open || 0)], return on
    every snapshot. *)
Theorem C9_v1_generators_throw_on_empty_snapshot :
  (forall e s,
      V1.generateAIInsights emptyRaw (V1.dqi emptyRaw) (V1.sitesAtRisk noSaes)
        noSaes noQueries e s = Throw "TypeError") /\
  (forall e s,
      V1.generateAgentRecommendations emptyRaw noSaes noQueries (V1.sitesAtRisk noSaes)
        e s = Throw "TypeError") /\
  (forall raw dqi saes queries lab visits,
      total (V2.generateAIInsights raw dqi saes queries lab visits)) /\
  (forall raw saes queries signatures lab coding,
      total (V2.generateAgentRecommendations raw saes queries signatures lab coding)).
Proof.
  split; [ | split; [ | split ] ].
  - intros e s. reflexivity.
  - intros e s. reflexivity.
  - exact V2_generateAIInsights_total.
  - exact V2_generateAgentRecommendations_total.
Qed.

(** ** Site rankings *)

Section Rankings.

Variable getCountryName : string -> string.

Lemma insertBy_perm {A : Type} (cmp : A -> A -> Z) (x : A) (l : list A) :
  Permutation (insertBy cmp x l) (x :: l).
Proof.
  induction l as [| y l IH]; simpl.
  - apply Permutation_refl.
  - destruct (cmp x y >? 0)%Z.
    + eapply Permutation_trans; [ apply perm_skip, IH | apply perm_swap ].
    + apply Permutation_refl.
Qed.

Lemma sort_perm {A : Type} (cmp : A -> A -> Z) (l : list A) :
  Permutation (sort cmp l) l.
Proof.
  induction l as [| x l IH]; simpl.
  - apply perm_nil.
  - eapply Permutation_trans; [ apply insertBy_perm | apply perm_skip, IH ].
Qed.

Lemma refs_of_entries (leaves : list (string * (string * Site))) (k : nat) :
  map se_ref
      (map (fun p : nat * (string * (string * Site)) =>
              siteEntry getCountryName (fst p) (snd p))
           (combine (seq k (List.length leaves)) leaves))
  = seq k (List.length leaves).
Proof.
  revert k. induction leaves as [| leaf leaves IH]; intros k; simpl.
  - reflexivity.
  - rewrite IH. f_equal. destruct leaf as [c [i d]]. reflexivity.
Qed.

Lemma allSites_refs (rawRegions : Regions) :
  map se_ref (allSites getCountryName rawRegions)
  = seq 0 (List.length (siteLeaves rawRegions)).
Proof. unfold allSites. apply refs_of_entries. Qed.

Lemma allSites_length (rawRegions : Regions) :
  List.length (allSites getCountryName rawRegions)
  = List.length (siteLeaves rawRegions).
Proof.
  rewrite <- (length_map se_ref), allSites_refs. apply length_seq.
Qed.

Lemma rankedSites_perm (rawRegions : Regions) :
  Permutation (rankedSites getCountryName rawRegions)
              (allSites getCountryName rawRegions).
Proof. apply sort_perm. Qed.

Lemma rankedSites_length (rawRegions : Regions) :
  List.length (rankedSites getCountryName rawRegions)
  = List.length (siteLeaves rawRegions).
Proof.
  rewrite (Permutation_length (rankedSites_perm rawRegions)).
  apply allSites_length.
Qed.

(** No two objects of the sorted array are the same object. *)
Lemma rankedSites_distinct (rawRegions : Regions) :
  NoDup (map se_ref (rankedSites getCountryName rawRegions)).
Proof.
  apply (Permutation_NoDup (l := map se_ref (allSites getCountryName rawRegions))).
  - apply Permutation_map, Permutation_sym, rankedSites_perm.
  - rewrite allSites_refs. apply seq_NoDup.
Qed.

Lemma in_skipn {A : Type} (x : A) (k : nat) (l : list A) :
  In x (skipn k l) -> In x l.
Proof.
  intros H. rewrite <- (firstn_skipn k l). apply in_or_app. now right.
Qed.

Lemma in_firstn {A : Type} (x : A) (k : nat) (l : list A) :
  In x (firstn k l) -> In x l.
Proof.
  intros H. rewrite <- (firstn_skipn k l). apply in_or_app. now left.
Qed.

Lemma NoDup_app_disjoint {A : Type} (l1 l2 : list A) (x : A) :
  NoDup (l1 ++ l2) -> In x l1 -> In x l2 -> False.
Proof.
  induction l1 as [| y l1 IH]; simpl; intros Hnd H1 H2.
  - exact H1.
  - inversion Hnd as [| y' l' Hnotin Hnd']; subst.
    destruct H1 as [-> | H1].
    + apply Hnotin, in_or_app. now right.
    + now apply IH.
Qed.

Lemma topSites_ranked rawRegions s :
  In s (topSites getCountryName rawRegions) ->
  In s (rankedSites getCountryName rawRegions).
Proof. apply in_firstn. Qed.

Lemma bottomSites_ranked rawRegions s :
  In s (bottomSites getCountryName rawRegions) ->
  In s (rankedSites getCountryName rawRegions).
Proof.
  unfold bottomSites, sliceLast. intros H. apply in_rev in H.
  exact (in_skipn _ _ _ H).
Qed.

Lemma ranked_in_allSites rawRegions s :
  In s (rankedSites getCountryName rawRegions) ->
  In s (allSites getCountryName rawRegions).
Proof. apply Permutation_in, rankedSites_perm. Qed.


(** C5: in a tree with at least 10 site leaves, no site object is both in
    [topSites] (the first 5 of the array sorted by descending score) and in
    [bottomSites] (its last 5, reversed); in a tree with exactly 3 site
    leaves each list holds all three sites, so they overlap. *)
Theorem C5_top_and_bottom_sites (rawRegions : Regions) :
  ((10 <= List.length (siteLeaves rawRegions))%nat ->
   forall a b,
     In a (topSites getCountryName rawRegions) ->
     In b (bottomSites getCountryName rawRegions) ->
     se_ref a <> se_ref b) /\
  (List.length (siteLeaves rawRegions) = 3%nat ->
   (exists s, In s (topSites getCountryName rawRegions)) /\
   forall s,
     In s (topSites getCountryName rawRegions) <->
     In s (bottomSites getCountryName rawRegions)).
Proof.
  pose proof (rankedSites_length rawRegions) as Hlen.
  pose proof (rankedSites_distinct rawRegions) as Hnd.
  unfold topSites, bottomSites, sliceFirst, sliceLast.
  set (ranked := rankedSites getCountryName rawRegions) in *.
  split.
  - intros Hten a b Ha Hb Heq. apply in_rev in Hb.
    rewrite Hlen in Hb.
    replace (List.length (siteLeaves rawRegions) - 5)%nat
      with ((List.length (siteLeaves rawRegions) - 10) + 5)%nat in Hb by lia.
    rewrite <- skipn_skipn in Hb. apply in_skipn in Hb.
    rewrite <- (firstn_skipn 5 ranked), map_app in Hnd.
    apply (NoDup_app_disjoint _ _ (se_ref a) Hnd).
    + now apply in_map.
    + rewrite Heq. now apply in_map.
  - intros Hthree. rewrite Hlen, Hthree. simpl skipn.
    rewrite firstn_all2 by lia. split.
    + destruct ranked as [| s l]; [ simpl in Hlen; lia | ].
      exists s. now left.
    + intros s. apply in_rev.
Qed.

End Rankings.

(** ** Derived fields of sites and countries *)



Section Derivation.

Variable getCountryName : string -> string.

Lemma countryEntries_node rawRegions c :
  In c (countryEntries getCountryName rawRegions) ->
  exists node, In node (countryNodes rawRegions) /\
               c = transformCountry getCountryName node.
Proof.
  unfold countryEntries, countryNodes, transformRegionsData.
  induction rawRegions as [| r rs IH]; simpl; intros H.
  - contradiction.
  - apply in_app_or in H. destruct H as [H | H].
    + apply in_map_iff in H. destruct H as (node & Hc & Hin).
      exists node. split; [ apply in_or_app; now left | now rewrite Hc ].
    + destruct (IH H) as (node & Hin & Hc).
      exists node. split; [ apply in_or_app; now right | exact Hc ].
Qed.



Lemma countryEntries_map rawRegions :
  countryEntries getCountryName rawRegions
  = map (transformCountry getCountryName) (countryNodes rawRegions).
Proof.
  unfold countryEntries, countryNodes, transformRegionsData.
  induction rawRegions as [| r rs IH]; simpl.
  - reflexivity.
  - now rewrite map_app, IH.
Qed.




End Derivation.

(** ** Range of the scores *)

Lemma ratio_range (t o : Q) :
  0 < t -> 0 <= o <= t -> 0 <= (t - o) / t * 100 <= 100.
Proof.
  intros Ht [Ho Hot].
  assert (H0 : 0 <= (t - o) / t) by (apply Qle_shift_div_l; lra).
  assert (H1 : (t - o) / t <= 1) by (apply Qle_shift_div_r; lra).
  lra.
Qed.

Lemma positive_nonzero (t : Q) : 0 < t -> Qeq_bool t 0 = false.
Proof.
  intros Ht. destruct (Qeq_bool t 0) eqn:E; trivial.
  apply Qeq_bool_iff in E. lra.
Qed.

Lemma orQ_percentage (r : option Q) : percentage r -> 0 <= orQ r 0 <= 100.
Proof.
  intros H. unfold orQ. destruct r as [q |]; [ | lra ].
  destruct (Qeq_bool q 0); [ lra | now apply H ].
Qed.

Lemma resolved_ratio (total outstanding : option Q) :
  resolved total outstanding -> gt0 total = true ->
  exists t o, total = Some t /\ outstanding = Some o /\ 0 < t /\ 0 <= o <= t.
Proof.
  intros Hres Hgt. destruct total as [t |]; [ | discriminate ].
  apply Qltb_lt in Hgt.
  destruct (Hres t eq_refl Hgt) as (o & Ho & Hrange).
  now exists t, o.
Qed.

(** C3: the scores are not kept in [0, 100] on the inputs that the
    claim names.  A precomputed rate of 200 gives the composite DQI 115, and
    a site and a country with 3 open queries out of 1 get the score -140:
    neither the composite nor the score of a node, which the code comments
    as 'Scale 20-100', is clamped, where the scores of visits, lab and
    signatures are. *)
Lemma C3_scores_leave_range :
  ~ inRange (V2.dqi overRate) /\
  (exists s, In s (topSites V2.getCountryName overOpen) /\ (se_dqi s < 0)%Z) /\
  (exists c, In c (countryEntries V2.getCountryName overOpen) /\ (ce_dqi c < 0)%Z).
Proof.
  split; [ | split ].
  - intros (q & H & Hq). vm_compute in H. inversion H; subst q.
    destruct Hq as [_ Hq]. vm_compute in Hq. apply Hq. reflexivity.
  - eexists. split; [ left; reflexivity | vm_compute; reflexivity ].
  - eexists. split; [ left; reflexivity | vm_compute; reflexivity ].
Qed.

(** ** The synthesized trend *)

Lemma forEach_weeks (point : nat -> Z -> Q -> obj) (l : list nat) (e : Env) (d r : nat) :
  forEach (fun i => date <- weeksAgo i ;; x <- Math_random ;; ret (point i date x))
          l e (mkSt d r)
  = Ok (runWeeks point e d r l)
       (mkSt (d + List.length l) (r + List.length l)).
Proof.
  revert d r. induction l as [| i l IH]; intros d r.
  - simpl. unfold ret. now rewrite !Nat.add_0_r.
  - cbn [forEach runWeeks List.length].
    rewrite (bind_run _ _ e (mkSt d r)
               (point i (isoDay (clock e r - Z.of_nat i * 7 * msPerDay)) (random e d))
               (mkSt (S d) (S r))) by reflexivity.
    rewrite (bind_run _ _ _ _ _ _ (IH (S d) (S r))).
    unfold ret. now rewrite <- !Nat.add_succ_comm.
Qed.

Lemma generateDQITrend_run (currentDqi : num) (weeks : nat) (e : Env) (s : St) :
  generateDQITrend currentDqi weeks e s
  = Ok (runWeeks (dqiPoint currentDqi) e (draws s) (reads s) (weeksDown weeks))
       (mkSt (draws s + weeks) (reads s + weeks)).
Proof.
  destruct s as [d r]. simpl draws. simpl reads.
  assert (Hlen : List.length (weeksDown weeks) = weeks).
  { unfold weeksDown. now rewrite length_rev, length_seq. }
  pose proof (forEach_weeks (dqiPoint currentDqi) (weeksDown weeks) e d r) as H.
  rewrite Hlen in H. exact H.
Qed.

Lemma isoDay_weeks (c : Z) (i : nat) :
  isoDay (c - Z.of_nat i * 7 * msPerDay) = (isoDay c - 7 * Z.of_nat i)%Z.
Proof.
  unfold isoDay.
  replace (c - Z.of_nat i * 7 * msPerDay)%Z
    with (c + (- (7 * Z.of_nat i)) * msPerDay)%Z by ring.
  rewrite Z_div_plus_full by (unfold msPerDay; lia). ring.
Qed.

Lemma isoDay_mono (a b : Z) : (a <= b)%Z -> (isoDay a <= isoDay b)%Z.
Proof.
  intros H. unfold isoDay. apply Z.div_le_mono; [ unfold msPerDay; lia | exact H ].
Qed.

(** The value of the point of the current week: the jitter is
    [(Math.random() - 0.5) * 5], and rounding moves it by at most 0.5. *)
Lemma last_point_value (current : Z) (r : Q) :
  (23 <= current)%Z -> 0 <= r < 1 ->
  exists v,
    valueOf (dqiPoint (Fin (inject_Z current)) 0 0 r) = Some (Fin (inject_Z v)) /\
    (current - 3 <= v <= current + 3)%Z.
Proof.
  intros Hc Hr. unfold dqiPoint, trendPoint, valueOf. simpl get.
  cbn [sub add neg mul].
  assert (Hc' : 23 <= inject_Z current).
  { change 23 with (inject_Z 23). now rewrite <- Zle_Qle. }
  set (x := inject_Z current + - (ofNat 0 * 3) + (r + - (1 # 2)) * 5).
  assert (Hx : inject_Z current - (5 # 2) <= x < inject_Z current + (5 # 2)).
  { subst x. change (ofNat 0) with 0. lra. }
  unfold Math.max, lt. destruct (Qltb 20 x) eqn:E.
  - eexists. split; [ reflexivity | ].
    apply roundQ_between; rewrite ?inject_Z_plus, ?inject_Z_opp;
      unfold Z.sub; rewrite ?inject_Z_plus, ?inject_Z_opp;
      change (inject_Z 3) with 3; lra.
  - apply Qltb_ge in E. lra.
Qed.

(** C6, counterexample: the points that the synthesizer returns for the
    current value 80 and an absent series have the properties [date] and
    [value] and no other; none is flagged [synthetic: true]. *)
Lemma C6_points_are_not_flagged :
  exists pts s',
    V2.dqiTrendOf emptyRaw (Fin 80) (fixedEnv (1 # 2) 1700000000000) start = Ok pts s' /\
    List.length pts = 7%nat /\
    Forall (fun p => ~ flaggedSynthetic p) pts.
Proof.
  do 2 eexists. split; [ vm_compute; reflexivity | ].
  split; [ reflexivity | ].
  repeat constructor; unfold flaggedSynthetic; simpl; discriminate.
Qed.

(** C6, amended: for the current value 80 and an absent or empty supplied
    series, under a clock that does not run backwards and a random source in
    [0, 1), the synthesizer returns exactly 7 points whose dates increase
    strictly, the value of the last point is within 3 of 80 (a jitter below
    2.5, then rounding), and the points have no [synthetic] property. *)
Theorem C6_synthesized_trend (raw : Raw) (e : Env) (s : St) :
  orEmpty (raw_dqiTrend raw) [] = [] -> hostEnv e ->
  exists pts s',
    V2.dqiTrendOf raw (Fin 80) e s = Ok pts s' /\
    List.length pts = 7%nat /\
    (exists days, map dateOf pts = map Some days /\ increasing days) /\
    Forall (fun p => get "synthetic" p = None) pts /\
    (exists v, valueOf (last pts []) = Some (Fin (inject_Z v)) /\ (77 <= v <= 83)%Z).
Proof.
  intros Hseries [Hrandom Hclock]. unfold V2.dqiTrendOf. rewrite Hseries.
  cbn [V2.degenerate]. rewrite generateDQITrend_run.
  change (weeksDown 7) with [6; 5; 4; 3; 2; 1; 0]%nat.
  cbn [runWeeks]. do 2 eexists. split; [ reflexivity | ].
  split; [ reflexivity | split; [ | split ] ].
  - exists (map (fun p : nat * nat =>
                   isoDay (clock e (fst p + reads s) - Z.of_nat (snd p) * 7 * msPerDay))
                [(0, 6); (1, 5); (2, 4); (3, 3); (4, 2); (5, 1); (6, 0)]%nat).
    split; [ reflexivity | ].
    cbn [map fst snd Nat.add increasing]. rewrite !isoDay_weeks.
    pose proof (fun j k H => isoDay_mono _ _ (Hclock j k H)) as Hmono.
    set (r := reads s).
    pose proof (Hmono r (S r) ltac:(lia)).
    pose proof (Hmono (S r) (S (S r)) ltac:(lia)).
    pose proof (Hmono (S (S r)) (S (S (S r))) ltac:(lia)).
    pose proof (Hmono (S (S (S r))) (S (S (S (S r)))) ltac:(lia)).
    pose proof (Hmono (S (S (S (S r)))) (S (S (S (S (S r))))) ltac:(lia)).
    pose proof (Hmono (S (S (S (S (S r))))) (S (S (S (S (S (S r)))))) ltac:(lia)).
    repeat split; lia.
  - repeat constructor.
  - cbn [last].
    destruct (last_point_value 80 (random e (S (S (S (S (S (S (draws s))))))))
                ltac:(lia) (Hrandom _)) as (v & Hv & Hrange).
    exists v. split; [ | lia ].
    unfold dqiPoint, trendPoint, valueOf in *. simpl get in *. exact Hv.
Qed.

Lemma C6_synthesized_trend_witness :
  exists pts s',
    V2.dqiTrendOf emptyRaw (Fin 80) (fixedEnv (1 # 2) 1700000000000) start = Ok pts s' /\
    List.length pts = 7%nat /\
    (exists days, map dateOf pts = map Some days /\ increasing days) /\
    Forall (fun p => get "synthetic" p = None) pts /\
    (exists v, valueOf (last pts []) = Some (Fin (inject_Z v)) /\ (77 <= v <= 83)%Z).
Proof.
  apply (C6_synthesized_trend emptyRaw (fixedEnv (1 # 2) 1700000000000) start).
  - reflexivity.
  - split; simpl; intros; [ split; [ discriminate | reflexivity ] | lia ].
Defined.

(** ** Two runs on one snapshot *)

(** C7, counterexample: on a snapshot that supplies its own trend series,
    a run one day later differs from the first in [previousSnapshotDate],
    and a run at the same instant with other values of [Math.random()]
    differs in the sampled patients. *)
Lemma C7_two_runs_differ :
  V2.degenerate (orEmpty (raw_dqiTrend supplied) []) = false /\
  V2.transform supplied (fixedEnv 0 1700000000000) start
    <> V2.transform supplied (fixedEnv 0 (1700000000000 + msPerDay)) start /\
  V2.transform supplied (fixedEnv 0 1700000000000) start
    <> V2.transform supplied (fixedEnv (1 # 2) 1700000000000) start.
Proof.
  split; [ reflexivity | split ]; intros H.
  - apply (f_equal previousSnapshotOf) in H. vm_compute in H. discriminate H.
  - apply (f_equal sampledScoresOf) in H. vm_compute in H. discriminate H.
Qed.

(** C7, amended: on a snapshot that supplies its own non-degenerate trend
    series, any two runs of revision 2 return, and their models agree on
    every field computed from the snapshot alone (data source, governance
    statement, extraction statistics, study, executive KPIs, readiness
    criteria, regions, site rankings, bottlenecks) and both carry the
    supplied series, verbatim, as the trend of the DQI. *)
Theorem C7_runs_agree_on_derived_fields (raw : Raw) (series : list obj) :
  raw_dqiTrend raw = Some series -> V2.degenerate series = false ->
  forall e1 s1 e2 s2, exists d1 t1 d2 t2,
    V2.transform raw e1 s1 = Ok d1 t1 /\
    V2.transform raw e2 s2 = Ok d2 t2 /\
    derivedOf d1 = derivedOf d2 /\
    dm_trends_dqi d1 = series /\
    dm_trends_dqi d2 = series.
Proof.
  intros Hseries Hreal e1 s1 e2 s2.
  destruct (V2_transform_run raw e1 s1) as (d1 & t1 & u1 & Hrun1 & Hd1 & Htrend1).
  destruct (V2_transform_run raw e2 s2) as (d2 & t2 & u2 & Hrun2 & Hd2 & Htrend2).
  exists d1, t1, d2, t2.
  split; [ exact Hrun1 | split; [ exact Hrun2 | split ] ].
  - now rewrite Hd1, Hd2.
  - unfold V2.dqiTrendOf in Htrend1, Htrend2.
    rewrite Hseries in Htrend1, Htrend2. cbn [orEmpty] in Htrend1, Htrend2.
    rewrite Hreal in Htrend1, Htrend2. unfold ret in Htrend1, Htrend2.
    injection Htrend1 as E1 _. injection Htrend2 as E2 _. split; congruence.
Qed.

Lemma C7_runs_agree_witness :
  exists d1 t1 d2 t2,
    V2.transform supplied (fixedEnv 0 1700000000000) start = Ok d1 t1 /\
    V2.transform supplied (fixedEnv (1 # 2) (1700000000000 + msPerDay)) start
      = Ok d2 t2 /\
    derivedOf d1 = derivedOf d2 /\
    dm_trends_dqi d1 = [trendPoint 19660 (Fin 84); trendPoint 19667 (Fin 85)] /\
    dm_trends_dqi d2 = [trendPoint 19660 (Fin 84); trendPoint 19667 (Fin 85)].
Proof.
  apply (C7_runs_agree_on_derived_fields supplied
           [trendPoint 19660 (Fin 84); trendPoint 19667 (Fin 85)]).
  - reflexivity.
  - reflexivity.
Defined.

(** ** The theorems at concrete trees *)

(** The ranking of the ten sites: sites with equal scores keep the order
    of the traversal (Site 1, Site 6, Site 10; then Site 2, Site 4, Site 9),
    and the worst site comes first in [bottomSites]. *)
Example tenSites_ranked :
  map (fun s => (se_id s, se_dqi s)) (topSites V2.getCountryName tenSites)
    = [("Site 1", 100); ("Site 6", 100); ("Site 10", 100); ("Site 2", 92);
       ("Site 4", 92)]%Z /\
  map (fun s => (se_id s, se_dqi s)) (bottomSites V2.getCountryName tenSites)
    = [("Site 7", 36); ("Site 8", 52); ("Site 3", 60); ("Site 5", 84);
       ("Site 9", 92)]%Z.
Proof. split; vm_compute; reflexivity. Qed.

Example tenSites_countries :
  map (fun c => (ce_name c, ce_sites c, ce_patients c, ce_dqi c, ce_status c))
      (countryEntries V2.getCountryName tenSites)
    = [("United States", 6, 62, 88%Z, "healthy"); ("Brazil", 2, 11, 40%Z, "critical");
       ("Germany", 2, 7, 92%Z, "healthy")].
Proof. vm_compute. reflexivity. Qed.

(** The scores that enter the composite DQI of the scenario. *)
Example scenario_scores :
  V2.saeResolutionScore (orEmpty (raw_saes scenario) noSaes) = Fin 100 /\
  V2.queryResolutionScore (orEmpty (raw_queries scenario) noQueries) = 80 /\
  isNum (V2.visitScore (orEmpty (raw_visits scenario) noVisits)) 100 /\
  isNum (V2.labScore (orEmpty (raw_lab scenario) noLab)) 100 /\
  isNum (V2.codingScore (orEmpty (raw_coding scenario) noCoding)) 100 /\
  V2.sdvScore (orEmpty (raw_sdv scenario) noSdv) = 0 /\
  isNum (V2.signatureScore (orEmpty (raw_signatures scenario) noSignatures)) 100 /\
  V2.readinessStatus (orEmpty (raw_saes scenario) noSaes)
                     (orEmpty (raw_queries scenario) noQueries) = "not-ready".
Proof. repeat split; vm_compute; reflexivity. Qed.

(** The scores of a node are those of binary64.  With 34 queries of
    which 23 are open, the rate times 0.85 is 27.499999999999996 in binary64
    and the clean percentage is 27, where exact arithmetic gives 27.5 and 28;
    the score is 46 in both. *)
Example node_scores_binary64 :
  nodeCleanPercent (resolutionRate 34 23) = 27%Z /\
  Math.roundQ ((34 - 23) / 34 * 100 * (85 # 100)) = 28%Z /\
  nodeDqi (resolutionRate 34 23) = 46%Z /\
  B64.mul (resolutionRate 34 23) (B64.nearest (85 # 100))
  == 7740561859543039 # 281474976710656.
Proof. repeat split; vm_compute; reflexivity. Qed.

(** Without the counter of missing visits the composite DQI of revision 2
    is NaN: [undefined / 10] is NaN and [Math.max], [Math.min] keep it. *)
Example dqi_without_visits : V2.dqi emptyRaw = NaN /\ V1.dqi emptyRaw = Fin 67.
Proof. split; vm_compute; reflexivity. Qed.


Lemma C5_top_and_bottom_witness :
  (forall a b,
      In a (topSites V2.getCountryName tenSites) ->
      In b (bottomSites V2.getCountryName tenSites) ->
      se_ref a <> se_ref b) /\
  (exists s, In s (topSites V2.getCountryName threeSites)) /\
  (forall s,
      In s (topSites V2.getCountryName threeSites) <->
      In s (bottomSites V2.getCountryName threeSites)).
Proof.
  split.
  - apply (proj1 (C5_top_and_bottom_sites V2.getCountryName tenSites)).
    vm_compute. repeat constructor.
  - apply (proj2 (C5_top_and_bottom_sites V2.getCountryName threeSites)).
    reflexivity.
Defined.

(** * Further properties of the code *)

(** ** The sort of the site rankings *)

Lemma ordered_app {A : Type} (R : A -> A -> Prop) (l1 l2 : list A) :
  ordered R (l1 ++ l2) <->
  ordered R l1 /\ ordered R l2 /\ (forall a b, In a l1 -> In b l2 -> R a b).
Proof.
  induction l1 as [| x l1 IH]; simpl.
  - intuition.
  - rewrite Forall_app, IH. rewrite !Forall_forall. split.
    + intros ((H1 & H2) & H3 & H4 & H5). repeat split; trivial.
      intros a b [<- | Ha] Hb; auto.
    + intros ((H1 & H2) & H3 & H4). repeat split; trivial.
      * intros b Hb. apply H4; auto.
      * intros a b Ha Hb. apply H4; auto.
Qed.

Lemma ordered_rev {A : Type} (R : A -> A -> Prop) (l : list A) :
  ordered R l -> ordered (fun a b => R b a) (rev l).
Proof.
  induction l as [| x l IH]; simpl; [ trivial | ].
  intros [Hx Hl]. apply ordered_app. split; [ now apply IH | split ].
  - simpl. split; [ constructor | exact I ].
  - intros a b Ha [<- | []]. apply in_rev in Ha.
    rewrite Forall_forall in Hx. now apply Hx.
Qed.

Lemma ordered_weaken {A : Type} (R S : A -> A -> Prop) (l : list A) :
  (forall a b, R a b -> S a b) -> ordered R l -> ordered S l.
Proof.
  intros HRS. induction l as [| x l IH]; simpl; [ trivial | ].
  intros [Hx Hl]. split; [ | now apply IH ].
  eapply Forall_impl; [ | exact Hx ]. intros b. apply HRS.
Qed.

Lemma in_insertBy {A : Type} (cmp : A -> A -> Z) (x z : A) (l : list A) :
  In z (insertBy cmp x l) <-> z = x \/ In z l.
Proof.
  split.
  - intros H. apply (Permutation_in _ (insertBy_perm cmp x l)) in H.
    destruct H as [-> | H]; auto.
  - intros H. apply (Permutation_in _ (Permutation_sym (insertBy_perm cmp x l))).
    destruct H as [-> | H]; [ now left | now right ].
Qed.

Lemma insertBy_ranked (x : SiteEntry) (l : list SiteEntry) :
  ordered rankedBefore l ->
  Forall (fun y => (se_ref x < se_ref y)%nat) l ->
  ordered rankedBefore (insertBy byDqiDesc x l).
Proof.
  induction l as [| y l IH]; simpl; intros Hl Hx.
  - split; [ constructor | exact I ].
  - destruct Hl as [Hy Hl]. inversion Hx as [| ? ? Hxy Hxl]; subst.
    unfold byDqiDesc at 1. destruct (se_dqi y - se_dqi x >? 0)%Z eqn:E.
    + simpl. split; [ | now apply IH ].
      apply Forall_forall. intros z Hz. apply in_insertBy in Hz.
      destruct Hz as [-> | Hz].
      * left. lia.
      * rewrite Forall_forall in Hy. now apply Hy.
    + simpl. split; [ | now split ].
      assert (Hkey : (se_dqi y <= se_dqi x)%Z) by lia.
      constructor.
      * unfold rankedBefore. destruct (Z.eq_dec (se_dqi x) (se_dqi y)); [ right | left ];
          [ now split | lia ].
      * apply Forall_forall. intros z Hz.
        rewrite Forall_forall in Hy, Hxl.
        specialize (Hy z Hz). specialize (Hxl z Hz). unfold rankedBefore in *.
        destruct (Z.eq_dec (se_dqi x) (se_dqi z)); [ right; now split | left ].
        destruct Hy as [Hy | [Hy _]]; lia.
Qed.

Lemma sort_ranked (l : list SiteEntry) :
  ordered (fun a b => (se_ref a < se_ref b)%nat) l ->
  ordered rankedBefore (sort byDqiDesc l).
Proof.
  induction l as [| x l IH]; simpl; [ trivial | ].
  intros [Hx Hl]. apply insertBy_ranked; [ now apply IH | ].
  apply Forall_forall. intros y Hy.
  apply (Permutation_in _ (sort_perm byDqiDesc l)) in Hy.
  rewrite Forall_forall in Hx. now apply Hx.
Qed.

Lemma entries_in_order getCountryName (leaves : list (string * (string * Site))) (k : nat) :
  let entries :=
    map (fun p : nat * (string * (string * Site)) =>
           siteEntry getCountryName (fst p) (snd p))
        (combine (seq k (List.length leaves)) leaves) in
  ordered (fun a b => (se_ref a < se_ref b)%nat) entries /\
  Forall (fun a => (k <= se_ref a)%nat) entries.
Proof.
  revert k. induction leaves as [| leaf leaves IH]; intros k; simpl.
  - split; [ exact I | constructor ].
  - destruct (IH (S k)) as [Hord Hge]. simpl in Hord, Hge.
    assert (Href : se_ref (siteEntry getCountryName k leaf) = k)
      by (destruct leaf as [c [i d]]; reflexivity).
    repeat split.
    + rewrite Href. eapply Forall_impl; [ | exact Hge ]. simpl. intros a Ha. lia.
    + exact Hord.
    + constructor; [ rewrite Href; lia | ].
      eapply Forall_impl; [ | exact Hge ]. simpl. intros a Ha. lia.
Qed.

Lemma rankedSites_ranked (getCountryName : string -> string) (rawRegions : Regions) :
  ordered rankedBefore (rankedSites getCountryName rawRegions).
Proof. apply sort_ranked. unfold allSites. apply entries_in_order. Qed.

Lemma rankedSites_descending (getCountryName : string -> string) (rawRegions : Regions) :
  ordered (fun a b => (se_dqi b <= se_dqi a)%Z) (rankedSites getCountryName rawRegions).
Proof.
  eapply ordered_weaken; [ | apply rankedSites_ranked ].
  intros a b [Hlt | [Heq _]]; lia.
Qed.

(** X1: the sorted array is in descending order of score, and the sort is
    stable: of two sites with the same score, the one met first in the
    traversal of the tree (region, country, site) comes first. *)
Theorem rankedSites_sorted_stable (getCountryName : string -> string)
    (rawRegions : Regions) :
  ordered rankedBefore (rankedSites getCountryName rawRegions) /\
  ordered (fun a b => (se_dqi b <= se_dqi a)%Z) (rankedSites getCountryName rawRegions).
Proof.
  split; [ apply rankedSites_ranked | apply rankedSites_descending ].
Qed.

Lemma ordered_firstn {A : Type} (R : A -> A -> Prop) (k : nat) (l : list A) :
  ordered R l -> ordered R (firstn k l).
Proof.
  intros H. rewrite <- (firstn_skipn k l) in H. now apply ordered_app in H.
Qed.

Lemma ordered_skipn {A : Type} (R : A -> A -> Prop) (k : nat) (l : list A) :
  ordered R l -> ordered R (skipn k l).
Proof.
  intros H. rewrite <- (firstn_skipn k l) in H. now apply ordered_app in H.
Qed.

(** X2: [topSites] and [bottomSites] each hold min(5, n) of the n sites
    of the tree; [topSites] is in descending and [bottomSites] in ascending
    order of score; the first site of [topSites] has the highest score of all
    sites and the first site of [bottomSites] the lowest; both lists are empty
    only when the tree has no site. *)
Theorem rankings_shape (getCountryName : string -> string) (rawRegions : Regions) :
  let top := topSites getCountryName rawRegions in
  let bottom := bottomSites getCountryName rawRegions in
  let all := allSites getCountryName rawRegions in
  List.length top = Nat.min 5 (List.length (siteLeaves rawRegions)) /\
  List.length bottom = Nat.min 5 (List.length (siteLeaves rawRegions)) /\
  ordered (fun a b => (se_dqi b <= se_dqi a)%Z) top /\
  ordered (fun a b => (se_dqi a <= se_dqi b)%Z) bottom /\
  headBounds Z.le top all /\
  headBounds Z.ge bottom all.
Proof.
  intros top bottom all.
  pose proof (rankedSites_length getCountryName rawRegions) as Hlen.
  pose proof (rankedSites_perm getCountryName rawRegions) as Hperm.
  pose proof (rankedSites_descending getCountryName rawRegions) as Hdesc.
  subst top bottom all. unfold topSites, bottomSites, sliceFirst, sliceLast.
  set (ranked := rankedSites getCountryName rawRegions) in *.
  set (n := List.length (siteLeaves rawRegions)) in *.
  assert (Hempty : n = 0%nat -> allSites getCountryName rawRegions = []).
  { intros H0. apply length_zero_iff_nil.
    now rewrite <- (Permutation_length Hperm), Hlen. }
  split; [ now rewrite length_firstn, Hlen | ].
  split; [ rewrite length_rev, length_skipn, Hlen; lia | ].
  split; [ now apply ordered_firstn | ].
  split; [ apply (ordered_rev _ _ (ordered_skipn _ (List.length ranked - 5) _ Hdesc)) | ].
  split.
  - unfold headBounds. destruct ranked as [| best rest] eqn:E; simpl.
    + apply Hempty. simpl in Hlen. lia.
    + apply Forall_forall. intros s Hs.
      apply (Permutation_in _ (Permutation_sym Hperm)) in Hs.
      destruct Hdesc as [Hbest _]. rewrite Forall_forall in Hbest.
      destruct Hs as [<- | Hs]; [ lia | now apply Hbest ].
  - unfold headBounds.
    destruct (rev (skipn (List.length ranked - 5) ranked)) as [| worst rest] eqn:E.
    + apply Hempty. apply (f_equal (@List.length _)) in E.
      rewrite length_rev, length_skipn, Hlen in E. simpl in E. lia.
    + apply (f_equal (@rev _)) in E. rewrite rev_involutive in E. simpl in E.
      rewrite <- (firstn_skipn (List.length ranked - 5) ranked), E, app_assoc in Hdesc.
      apply ordered_app in Hdesc. destruct Hdesc as (_ & _ & Hlast).
      apply Forall_forall. intros s Hs.
      apply (Permutation_in _ (Permutation_sym Hperm)) in Hs.
      rewrite <- (firstn_skipn (List.length ranked - 5) ranked), E, app_assoc in Hs.
      apply in_app_or in Hs. destruct Hs as [Hs | [<- | []]].
      * apply Z.le_ge. apply (Hlast s worst Hs). now left.
      * lia.
Qed.

(** ** Roll-ups over the region tree *)

Lemma fold_left_Qplus (l : list Q) (a : Q) : fold_left Qplus l a == a + sumQ l.
Proof.
  unfold sumQ. revert a. induction l as [| x l IH]; intros a; simpl.
  - lra.
  - rewrite (IH (a + x)), (IH (0 + x)). lra.
Qed.

Lemma sumQ_cons (x : Q) (l : list Q) : sumQ (x :: l) == x + sumQ l.
Proof.
  unfold sumQ at 1. simpl. rewrite fold_left_Qplus. lra.
Qed.

Lemma sumQ_app (l1 l2 : list Q) : sumQ (l1 ++ l2) == sumQ l1 + sumQ l2.
Proof.
  induction l1 as [| x l1 IH]; simpl.
  - change (sumQ []) with 0. lra.
  - rewrite !sumQ_cons, IH. lra.
Qed.

Lemma sumQ_flat_map {A B : Type} (f : A -> list B) (g : B -> Q) (l : list A) :
  sumQ (map g (flat_map f l)) == sumQ (map (fun a => sumQ (map g (f a))) l).
Proof.
  induction l as [| a l IH]; simpl.
  - reflexivity.
  - rewrite map_app, sumQ_app, sumQ_cons, IH. reflexivity.
Qed.

Lemma sumQ_map_plus {A : Type} (f g : A -> Q) (l : list A) :
  sumQ (map (fun a => f a + g a) l) == sumQ (map f l) + sumQ (map g l).
Proof.
  induction l as [| a l IH]; simpl.
  - change (sumQ []) with 0. lra.
  - rewrite !sumQ_cons, IH. lra.
Qed.

Lemma sumQ_map_ext {A : Type} (f g : A -> Q) (l : list A) :
  (forall a, f a == g a) -> sumQ (map f l) == sumQ (map g l).
Proof.
  intros H. induction l as [| a l IH]; simpl.
  - reflexivity.
  - rewrite !sumQ_cons, IH, (H a). reflexivity.
Qed.

Lemma siteLeaves_by_country (rawRegions : Regions) :
  siteLeaves rawRegions
  = flat_map (fun c : string * Country =>
                map (fun s : string * Site => (fst c, s))
                    (orEmpty (country_sites (snd c)) []))
             (countryNodes rawRegions).
Proof.
  unfold siteLeaves, countryNodes.
  induction rawRegions as [| r rs IH]; simpl.
  - reflexivity.
  - now rewrite flat_map_app, IH.
Qed.

Lemma entries_patients getCountryName (leaves : list (string * (string * Site))) (k : nat) :
  map se_patients
      (map (fun p : nat * (string * (string * Site)) =>
              siteEntry getCountryName (fst p) (snd p))
           (combine (seq k (List.length leaves)) leaves))
  = map (fun leaf => orQ (site_patients (snd (snd leaf))) 0) leaves.
Proof.
  revert k. induction leaves as [| leaf leaves IH]; intros k; simpl.
  - reflexivity.
  - rewrite IH. f_equal. destruct leaf as [c [i d]]. reflexivity.
Qed.

(** X3: the patients shown for the countries add up to the patients of
    all the sites that [calculateSiteRankings] collects: the roll-up from site
    to country is a plain sum, with an absent [patients] counted as 0. *)
Theorem patients_roll_up (getCountryName : string -> string) (rawRegions : Regions) :
  sumQ (map ce_patients (countryEntries getCountryName rawRegions))
  == sumQ (map se_patients (allSites getCountryName rawRegions)).
Proof.
  unfold allSites. rewrite entries_patients, siteLeaves_by_country.
  rewrite sumQ_flat_map, countryEntries_map, map_map.
  apply sumQ_map_ext. intros [code data]. simpl. now rewrite map_map.
Qed.

Lemma lengthQ_app {A : Type} (l1 l2 : list A) :
  lengthQ (l1 ++ l2) == lengthQ l1 + lengthQ l2.
Proof.
  unfold lengthQ. now rewrite length_app, Nat2Z.inj_add, inject_Z_plus.
Qed.

(** X4: the study header and the region view count differently.
    [countTotalCountries] is the number of country entries of the region view
    when no region declares [total_countries]; and the sites shown for the
    countries add up to [countTotalSites] plus the site keys of the countries
    that declare no [total_sites], which [countTotalSites] counts as 0. *)
Theorem study_counts (getCountryName : string -> string) (rawRegions : Regions) :
  (Forall (fun r : string * Region => region_total_countries (snd r) = None) rawRegions ->
   countTotalCountries (Some rawRegions)
   == lengthQ (countryEntries getCountryName rawRegions)) /\
  sumQ (map ce_sites (countryEntries getCountryName rawRegions))
  == countTotalSites (Some rawRegions)
     + sumQ (map undeclaredSites (countryNodes rawRegions)).
Proof.
  split.
  - intros Hnone. unfold countTotalCountries. rewrite countryEntries_map.
    unfold countryNodes. simpl orEmpty.
    induction rawRegions as [| r rs IH]; simpl.
    + reflexivity.
    + inversion Hnone as [| ? ? Hr Hrs]; subst.
      rewrite sumQ_cons, (IH Hrs), Hr. simpl orQ.
      rewrite map_app. unfold lengthQ.
      rewrite length_app, !length_map, Nat2Z.inj_add, inject_Z_plus. reflexivity.
  - unfold countTotalSites. rewrite countryEntries_map, map_map. simpl orEmpty.
    fold (countryNodes rawRegions).
    change (flat_map
              (fun r : string * Region =>
                 map (fun c : string * Country => orQ (country_total_sites (snd c)) 0)
                     (orEmpty (region_countries (snd r)) [])) rawRegions)
      with (flat_map
              (fun r : string * Region =>
                 map (fun c : string * Country => orQ (country_total_sites (snd c)) 0)
                     ((fun r : string * Region => orEmpty (region_countries (snd r)) []) r))
              rawRegions).
    assert (Hflat : forall (f : string * Country -> Q),
               flat_map (fun r : string * Region =>
                           map f (orEmpty (region_countries (snd r)) [])) rawRegions
               = map f (countryNodes rawRegions)).
    { intros f. unfold countryNodes.
      induction rawRegions as [| r rs IH]; simpl; [ reflexivity | ].
      now rewrite map_app, IH. }
    rewrite Hflat, <- sumQ_map_plus. apply sumQ_map_ext.
    intros [code data]. unfold undeclaredSites. simpl.
    destruct (country_total_sites data) as [q |]; simpl.
    + destruct (Qeq_bool q 0); lra.
    + lra.
Qed.

Lemma study_counts_witness :
  countTotalCountries (Some threeSites)
  == lengthQ (countryEntries V2.getCountryName threeSites).
Proof.
  apply (proj1 (study_counts V2.getCountryName threeSites)). repeat constructor.
Defined.

(** ** The snapshot cache *)

(** X5: [loadRealData] leaves in [RealDataCache] what it returns; a
    snapshot, once cached, is returned by every later call, whatever the
    embedded data and the network have become; an embedded [RealData] is
    preferred to the network; and a failed fetch caches nothing, so that the
    next call tries again. *)
Theorem loadRealData_cache (host : Host) (cache : option Raw) :
  fst (loadRealData host cache) = snd (loadRealData host cache) /\
  (forall raw later,
      snd (loadRealData host cache) = Some raw ->
      loadRealData later (snd (loadRealData host cache)) = (Some raw, Some raw)) /\
  (forall raw, cache = Some raw -> loadRealData host cache = (Some raw, Some raw)) /\
  (forall embedded,
      cache = None -> RealData host = Some embedded ->
      loadRealData host cache = (embedded, embedded)) /\
  (cache = None -> RealData host = None -> fetchFails (fetched host) ->
   forall later, loadRealData later (snd (loadRealData host cache))
                 = loadRealData later None).
Proof.
  split; [ | split; [ | split; [ | split ] ] ].
  - unfold loadRealData. destruct cache; [ reflexivity | ].
    destruct (RealData host); [ reflexivity | ].
    destruct (fetched host); reflexivity.
  - intros raw later H. rewrite H. reflexivity.
  - intros raw ->. reflexivity.
  - intros embedded -> H. unfold loadRealData. now rewrite H.
  - intros -> Hembedded Hfetch later.
    now rewrite (loadRealData_fails host Hembedded Hfetch).
Qed.

Lemma loadRealData_cache_witness :
  loadRealData offline (snd (loadRealData (embedding scenario) None))
    = (Some scenario, Some scenario) /\
  loadRealData (embedding scenario) (snd (loadRealData offline None))
    = loadRealData (embedding scenario) None.
Proof.
  split.
  - apply (proj1 (proj2 (loadRealData_cache (embedding scenario) None))).
    reflexivity.
  - apply (proj2 (proj2 (proj2 (proj2 (loadRealData_cache offline None)))));
      [ reflexivity | reflexivity | exact I ].
Defined.

(** X6: whenever a snapshot is available (cached, embedded or fetched),
    the application does not fall back to the fixture: revision 2 of the
    transformation returns on every snapshot, and the application starts from
    the model computed from that snapshot. *)
Theorem available_snapshot_is_served (host : Host) (cache : option Raw) (raw : Raw)
    (e : Env) (s : St) :
  fst (loadRealData host cache) = Some raw ->
  exists d,
    initAsync true true V2.transform host cache e s = Model d /\
    derivedOf d = V2_derived raw.
Proof.
  intros Hload. unfold initAsync, getRealDashboardData.
  destruct (loadRealData host cache) as [loaded cache']. simpl in Hload. subst loaded.
  destruct (V2_transform_run raw e s) as (d & s' & s1 & Hrun & Hd & _).
  exists d. simpl. rewrite (bind_run _ _ _ _ _ _ Hrun). simpl. now split.
Qed.

Lemma available_snapshot_witness :
  exists d,
    initAsync true true V2.transform (embedding scenario) None (fixedEnv 0 0) start
      = Model d /\
    derivedOf d = V2_derived scenario.
Proof.
  apply (available_snapshot_is_served (embedding scenario) None scenario). reflexivity.
Defined.

(** ** The sampled lists *)

Lemma forEach_Forall2 {A B : Type} (P : A -> B -> Prop) (body : A -> M B)
    (l : list A) (e : Env) :
  (forall a s, In a l -> exists b s', body a e s = Ok b s' /\ P a b) ->
  forall s, exists bs s', forEach body l e s = Ok bs s' /\ Forall2 P l bs.
Proof.
  induction l as [| a l IH]; intros Hbody s; simpl.
  - exists [], s. split; [ reflexivity | constructor ].
  - destruct (Hbody a s (or_introl eq_refl)) as (b & s1 & Hb & HP).
    destruct (IH (fun a' s' H => Hbody a' s' (or_intror H)) s1) as (bs & s2 & Hbs & HF).
    exists (b :: bs), s2. rewrite (bind_run _ _ _ _ _ _ Hb), (bind_run _ _ _ _ _ _ Hbs).
    split; [ reflexivity | now constructor ].
Qed.

Lemma Qfloor_scaled (r : Q) (n : Z) :
  0 <= r < 1 -> (0 < n)%Z -> (0 <= Qfloor (r * inject_Z n) <= n - 1)%Z.
Proof.
  intros [H0 H1] Hn.
  assert (Hn' : 0 < inject_Z n) by (change 0 with (inject_Z 0); now rewrite <- Zlt_Qlt).
  split.
  - rewrite <- (Qfloor_Z 0). apply Qfloor_resp_le. change (inject_Z 0) with 0. nra.
  - apply Z.lt_succ_r. replace (Z.succ (n - 1)) with n by lia.
    rewrite Zlt_Qlt. eapply Qle_lt_trans; [ apply Qfloor_le | ]. nra.
Qed.

Lemma truncQ_between (lo hi : Z) (q : Q) :
  inject_Z lo <= q <= inject_Z hi -> (lo <= truncQ q <= hi)%Z.
Proof.
  intros [Hlo Hhi]. unfold truncQ. destruct (Qle_bool 0 q) eqn:E.
  - split.
    + rewrite <- (Qfloor_Z lo). now apply Qfloor_resp_le.
    + rewrite <- (Qfloor_Z hi). now apply Qfloor_resp_le.
  - split.
    + assert (H : (Qfloor (- q) <= Qfloor (inject_Z (- lo)))%Z)
        by (apply Qfloor_resp_le; rewrite inject_Z_opp; lra).
      rewrite Qfloor_Z in H. lia.
    + assert (H : (Qfloor (inject_Z (- hi)) <= Qfloor (- q))%Z)
        by (apply Qfloor_resp_le; rewrite inject_Z_opp; lra).
      rewrite Qfloor_Z in H. lia.
Qed.

Lemma isoDay_days (now days : Z) :
  isoDay (now - days * msPerDay) = (isoDay now - days)%Z.
Proof.
  unfold isoDay.
  replace (now - days * msPerDay)%Z with (now + (- days) * msPerDay)%Z by ring.
  rewrite Z_div_plus_full by (unfold msPerDay; lia). ring.
Qed.

(** The day of [new Date(now - Math.random() * days * 24 * 60 * 60 * 1000)]. *)
Lemma sampled_date (now days : Z) (r : Q) :
  0 <= r < 1 -> (0 <= days)%Z ->
  (isoDay now - days
   <= isoDay (truncQ (inject_Z now - r * inject_Z days * inject_Z msPerDay))
   <= isoDay now)%Z.
Proof.
  intros [H0 H1] Hdays.
  assert (Hd : 0 <= inject_Z days)
    by (change 0 with (inject_Z 0); now rewrite <- Zle_Qle).
  assert (Hm : 0 < inject_Z msPerDay) by reflexivity.
  assert (Hprod : 0 <= inject_Z days * inject_Z msPerDay) by nra.
  assert (Hlow : inject_Z (now - days * msPerDay)
                 == inject_Z now - inject_Z days * inject_Z msPerDay).
  { unfold Z.sub. rewrite inject_Z_plus, inject_Z_opp, inject_Z_mult. ring. }
  destruct (truncQ_between (now - days * msPerDay) now
              (inject_Z now - r * inject_Z days * inject_Z msPerDay)) as [Hlo Hhi].
  { rewrite Hlow. split; nra. }
  rewrite <- isoDay_days. split; now apply isoDay_mono.
Qed.
Lemma Qfloor_Qeq (a b : Q) : a == b -> Qfloor a = Qfloor b.
Proof.
  intros H. apply Z.le_antisymm; apply Qfloor_resp_le; rewrite H; apply Qle_refl.
Qed.

Lemma sampleSize_le_10 (counter : option Q) : (sampleSize counter <= 10)%nat.
Proof.
  unfold sampleSize, upTo. rewrite length_seq.
  assert (H : (Qfloor (Qmin10 (orQ counter 5)) <= 10)%Z).
  { rewrite <- (Qfloor_Z 10). apply Qfloor_resp_le. unfold Qmin10.
    destruct (Qltb (orQ counter 5) 10) eqn:E; [ | apply Qle_refl ].
    apply Qltb_lt in E. change (inject_Z 10) with 10. lra. }
  lia.
Qed.

(** X7: the sample lists have [floor(min(10, counter))] records, and 5
    when the counter is absent or 0: never more than 10, none when the counter
    is below 1 and not 0, and five records for a snapshot that reports no
    open SAE at all. *)
Theorem sampleSize_rule (counter : option Q) :
  (sampleSize counter <= 10)%nat /\
  (counter = None -> sampleSize counter = 5%nat) /\
  (forall q, counter = Some q ->
     (q == 0 -> sampleSize counter = 5%nat) /\
     (10 <= q -> sampleSize counter = 10%nat) /\
     (1 <= q < 10 -> Z.of_nat (sampleSize counter) = Qfloor q) /\
     (q < 1 -> ~ q == 0 -> sampleSize counter = 0%nat)).
Proof.
  split; [ apply sampleSize_le_10 | ].
  unfold sampleSize, upTo. rewrite length_seq.
  split.
  - intros ->. reflexivity.
  - intros q ->. simpl orQ. repeat split.
    + intros H0. apply Qeq_bool_iff in H0. rewrite H0. reflexivity.
    + intros H10. destruct (Qeq_bool q 0) eqn:E0; [ apply Qeq_bool_iff in E0; lra | ].
      unfold Qmin10. destruct (Qltb q 10) eqn:E; [ apply Qltb_lt in E; lra | ].
      reflexivity.
    + intros [H1 H10]. destruct (Qeq_bool q 0) eqn:E0; [ apply Qeq_bool_iff in E0; lra | ].
      unfold Qmin10. apply Qltb_lt in H10. rewrite H10.
      apply Z2Nat.id. rewrite <- (Qfloor_Z 0). apply Qfloor_resp_le.
      change (inject_Z 0) with 0. lra.
    + intros H1 Hnz. destruct (Qeq_bool q 0) eqn:E0; [ apply Qeq_bool_iff in E0; contradiction | ].
      unfold Qmin10. assert (E : Qltb q 10 = true) by (apply Qltb_lt; lra). rewrite E.
      assert (H : (Qfloor q < 1)%Z).
      { rewrite Zlt_Qlt. eapply Qle_lt_trans; [ apply Qfloor_le | exact H1 ]. }
      destruct (Qfloor q); try reflexivity; lia.
Qed.

Lemma sampleSize_rule_witness :
  sampleSize (Some 0) = 5%nat /\ sampleSize (Some 12282) = 10%nat /\
  Z.of_nat (sampleSize (Some (7 # 2))) = Qfloor (7 # 2) /\
  sampleSize (Some (1 # 2)) = 0%nat /\ sampleSize None = 5%nat.
Proof.
  pose proof (sampleSize_rule (Some 0)) as (_ & _ & H0).
  pose proof (sampleSize_rule (Some 12282)) as (_ & _ & H1).
  pose proof (sampleSize_rule (Some (7 # 2))) as (_ & _ & H2).
  pose proof (sampleSize_rule (Some (1 # 2))) as (_ & _ & H3).
  pose proof (sampleSize_rule None) as (_ & H4 & _).
  split; [ apply (proj1 (H0 0 eq_refl)); reflexivity | ].
  split; [ apply (proj1 (proj2 (H1 12282 eq_refl))); discriminate | ].
  split; [ apply (proj1 (proj2 (proj2 (H2 (7 # 2) eq_refl)))); split; [ discriminate | reflexivity ] | ].
  split; [ apply (proj2 (proj2 (proj2 (H3 (1 # 2) eq_refl)))); [ reflexivity | discriminate ] | ].
  apply H4. reflexivity.
Defined.

Lemma skipn_nth {A : Type} (d : A) (l : list A) (k : nat) :
  (k < List.length l)%nat -> skipn k l = nth k l d :: skipn (S k) l.
Proof.
  revert k. induction l as [| x l IH]; intros k Hk; simpl in Hk.
  - lia.
  - destruct k as [| k]; [ reflexivity | ].
    simpl. apply IH. lia.
Qed.

Lemma Forall2_ids {B : Type} (f : B -> string) (ids : list string) (n k : nat)
    (l : list B) :
  Forall2 (fun i r => f r = nth (i - 1) ids "") (seq (S k) n) l ->
  (k + n <= List.length ids)%nat ->
  map f l = firstn n (skipn k ids).
Proof.
  revert k l. induction n as [| n IH]; intros k l HF Hlen; simpl in HF.
  - inversion HF. reflexivity.
  - inversion HF as [| i r tl rs Hr Hrs]; subst.
    replace (S k - 1)%nat with k in Hr by lia.
    rewrite (skipn_nth "" ids k) by lia.
    cbn [map firstn]. now rewrite Hr, (IH (S k) rs Hrs) by lia.
Qed.

Lemma Forall2_Forall {A B : Type} (P : A -> B -> Prop) (Q : B -> Prop)
    (l : list A) (bs : list B) :
  (forall a b, In a l -> P a b -> Q b) -> Forall2 P l bs -> Forall Q bs.
Proof.
  intros HPQ HF. induction HF as [| a b l bs Hab HF IH]; constructor.
  - apply (HPQ a b); [ now left | exact Hab ].
  - apply IH. intros a' b' Hin. apply HPQ. now right.
Qed.

Lemma Forall2_flags {B : Type} (f : B -> bool) (g : nat -> bool) (l : list nat)
    (bs : list B) :
  Forall2 (fun i r => f r = g i) l bs ->
  List.length (filter f bs) = List.length (filter g l).
Proof.
  intros HF. induction HF as [| i r l bs Hr HF IH]; simpl; [ reflexivity | ].
  rewrite Hr. destruct (g i); simpl; now rewrite IH.
Qed.

Lemma first_five (n : nat) :
  (n <= 10)%nat ->
  List.length (filter (fun i => (i <=? 5)%nat) (seq 1 n)) = Nat.min 5 n.
Proof.
  intros Hn. do 11 (destruct n as [| n]; [ reflexivity | ]). lia.
Qed.

Lemma upTo_range (bound : Q) (i : nat) :
  In i (upTo (Qmin10 bound)) -> (1 <= i <= 10)%nat.
Proof.
  unfold upTo. intros H. apply in_seq in H.
  assert (Hle : (Qfloor (Qmin10 bound) <= 10)%Z).
  { rewrite <- (Qfloor_Z 10). apply Qfloor_resp_le. unfold Qmin10.
    destruct (Qltb bound 10) eqn:E; [ | apply Qle_refl ].
    apply Qltb_lt in E. change (inject_Z 10) with 10. lra. }
  lia.
Qed.

Lemma sae_sample (e : Env) (i : nat) (s : St) :
  hostEnv e -> (1 <= i <= 10)%nat ->
  exists r s',
    (r1 <- Math_random ;;
     now <- Date_now ;;
     r2 <- Math_random ;;
     ret {| sae_id := "SAE-" ++ padStart4 (decimal (1000 + i));
            sae_patientId := "PAT-" ++ padStart4 (decimal i);
            sae_siteId := "Site " ++ decimal (100 + i);
            sae_site := "Clinical Site " ++ decimal (100 + i);
            sae_event := nth (i mod 4) saeEvents "";
            sae_severity := "Serious";
            sae_status := "Open";
            sae_daysOpen := (Qfloor (r1 * 45) + 5)%Z;
            sae_reportedDate :=
              isoDay (truncQ (inject_Z now - r2 * 60 * inject_Z msPerDay));
            sae_blocking := (i <=? 5)%nat |}) e s = Ok r s' /\
    saeSample e i r.
Proof.
  intros [Hrandom _] Hi. do 2 eexists. split; [ reflexivity | ].
  unfold saeSample. cbn [sae_id sae_patientId sae_blocking sae_status sae_daysOpen
                          sae_reportedDate].
  split; [ | split; [ | split; [ reflexivity | split; [ reflexivity | split ] ] ] ].
  - do 11 (destruct i as [| i]; [ try lia; reflexivity | ]). lia.
  - do 11 (destruct i as [| i]; [ try lia; reflexivity | ]). lia.
  - pose proof (Qfloor_scaled _ 45 (Hrandom (draws s)) ltac:(lia)) as H.
    change (inject_Z 45) with 45 in H. lia.
  - exists (reads (mkSt (S (draws s)) (reads s))).
    apply (sampled_date _ 60); [ apply Hrandom | lia ].
Qed.

(** X8: under a random source in [0, 1), [generateSAEList] returns as many
    records as the sample-size rule gives for [saes.open]; their ids are
    SAE-1001, SAE-1002, ... in order; every record is 'Open', has been open
    for 5 to 49 days and was reported at most 60 days before a reading of the
    clock; and the records that the safety panel counts as blocking are the
    first five, or all of them when there are fewer. *)
Theorem generateSAEList_sample (raw : Raw) (e : Env) (s : St) :
  hostEnv e ->
  exists l s',
    generateSAEList raw e s = Ok l s' /\
    List.length l = sampleSize (saes_open (orEmpty (raw_saes raw) noSaes)) /\
    map sae_id l = firstn (List.length l) saeIds /\
    List.length (Dashboard.blockingSAEs l) = Nat.min 5 (List.length l) /\
    Forall (fun r => sae_status r = "Open" /\ (5 <= sae_daysOpen r <= 49)%Z /\
                     withinDays e 60 (sae_reportedDate r)) l.
Proof.
  intros Henv. unfold generateSAEList.
  set (open := saes_open (orEmpty (raw_saes raw) noSaes)).
  edestruct (forEach_Forall2 (saeSample e)) as (l & s' & Hrun & HF).
  2: { exists l, s'. split; [ exact Hrun | ].
       pose proof (Forall2_length HF) as Hlen. fold (sampleSize open) in Hlen.
       pose proof (sampleSize_le_10 open) as Hten.
       split; [ now symmetry | ]. rewrite <- Hlen.
       split; [ | split ].
       - apply (Forall2_ids sae_id saeIds (sampleSize open) 0 l); [ | simpl; lia ].
         unfold sampleSize, upTo in *. rewrite length_seq.
         eapply Forall2_impl; [ | exact HF ]. intros i r H. apply H.
       - unfold Dashboard.blockingSAEs.
         rewrite (Forall2_flags sae_blocking (fun i => (i <=? 5)%nat)
                    (upTo (Qmin10 (orQ open 5))) l).
         + unfold sampleSize, upTo in *. rewrite length_seq in *.
           now apply first_five.
         + eapply Forall2_impl; [ | exact HF ]. intros i r H. apply H.
       - eapply Forall2_Forall; [ | exact HF ].
         intros i r _ H. unfold saeSample in H. tauto. }
  intros i s0 Hi. apply sae_sample; [ exact Henv | ].
  exact (upTo_range _ _ Hi).
Qed.

Lemma generateSAEList_sample_witness :
  exists l s',
    generateSAEList scenario (fixedEnv (1 # 2) 1700000000000) start = Ok l s' /\
    List.length l = sampleSize (saes_open (orEmpty (raw_saes scenario) noSaes)) /\
    map sae_id l = firstn (List.length l) saeIds /\
    List.length (Dashboard.blockingSAEs l) = Nat.min 5 (List.length l) /\
    Forall (fun r => sae_status r = "Open" /\ (5 <= sae_daysOpen r <= 49)%Z /\
                     withinDays (fixedEnv (1 # 2) 1700000000000) 60 (sae_reportedDate r)) l.
Proof.
  apply (generateSAEList_sample scenario (fixedEnv (1 # 2) 1700000000000) start).
  split; simpl; intros; [ split; [ discriminate | reflexivity ] | lia ].
Defined.

Lemma patient_sample (lo spread : Z) (e : Env) (i : nat) (s : St) :
  hostEnv e -> (1 <= i <= 10)%nat -> (0 <= spread)%Z ->
  exists p s',
    (r1 <- Math_random ;;
     r2 <- Math_random ;;
     r3 <- Math_random ;;
     r4 <- Math_random ;;
     r5 <- Math_random ;;
     now <- Date_now ;;
     r6 <- Math_random ;;
     ret {| pat_id := "PAT-" ++ padStart4 (decimal i);
            pat_siteId := "Site " ++ decimal (100 + i);
            pat_site := "Clinical Site " ++ decimal (100 + i);
            pat_status := "flagged";
            pat_dqi := Math.roundQ (inject_Z lo + r1 * inject_Z spread);
            pat_isClean := false;
            pat_missingVisits := Qfloor (r2 * 3);
            pat_missingPages := Qfloor (r3 * 5);
            pat_openQueries := (Qfloor (r4 * 10) + 1)%Z;
            pat_labIssues := Qfloor (r5 * 3);
            pat_saeStatus := "open";
            pat_saeCount := 1;
            pat_lastActivity :=
              isoDay (truncQ (inject_Z now - r6 * 7 * inject_Z msPerDay)) |}) e s
    = Ok p s' /\
    patientSample e lo (lo + spread) i p.
Proof.
  intros [Hrandom _] Hi Hspread. do 2 eexists. split; [ reflexivity | ].
  unfold patientSample.
  cbn [pat_id pat_status pat_saeStatus pat_isClean pat_dqi pat_missingVisits
       pat_missingPages pat_openQueries pat_labIssues pat_lastActivity draws reads].
  assert (Hs : 0 <= inject_Z spread)
    by (change 0 with (inject_Z 0); now rewrite <- Zle_Qle).
  split; [ do 11 (destruct i as [| i]; [ try lia; reflexivity | ]); lia | ].
  repeat (split; [ reflexivity | ]).
  split; [ | split; [ | split; [ | split; [ | split ] ] ] ].
  - pose proof (Hrandom (draws s)) as [Hr0 Hr1].
    set (r := random e (draws s)) in *. clearbody r.
    assert (H0 : 0 <= r * inject_Z spread) by (apply Qmult_le_0_compat; assumption).
    assert (H1 : r * inject_Z spread <= inject_Z spread).
    { rewrite <- (Qmult_1_l (inject_Z spread)) at 2.
      apply Qmult_le_compat_r; [ now apply Qlt_le_weak | exact Hs ]. }
    set (x := r * inject_Z spread) in *. clearbody x.
    apply roundQ_between; [ clear - H0; lra | rewrite inject_Z_plus; clear - H1; lra ].
  - pose proof (Qfloor_scaled _ 3 (Hrandom (S (draws s))) ltac:(lia)) as H.
    change (inject_Z 3) with 3 in H. lia.
  - pose proof (Qfloor_scaled _ 5 (Hrandom (S (S (draws s)))) ltac:(lia)) as H.
    change (inject_Z 5) with 5 in H. lia.
  - pose proof (Qfloor_scaled _ 10 (Hrandom (S (S (S (draws s))))) ltac:(lia)) as H.
    change (inject_Z 10) with 10 in H. lia.
  - pose proof (Qfloor_scaled _ 3 (Hrandom (S (S (S (S (draws s)))))) ltac:(lia)) as H.
    change (inject_Z 3) with 3 in H. lia.
  - exists (reads s). apply (sampled_date _ 7); [ apply Hrandom | lia ].
Qed.

Lemma flagged_patients_sample (lo spread : Z) (raw : Raw) (e : Env) (s : St) :
  hostEnv e -> (0 <= spread)%Z ->
  exists l s',
    generateFlaggedPatientsWith (inject_Z lo) (inject_Z spread) raw e s = Ok l s' /\
    List.length l
      = sampleSize (saes_patientsWithOpenSAE (orEmpty (raw_saes raw) noSaes)) /\
    map pat_id l = firstn (List.length l) patientIds /\
    Forall2 (patientSample e lo (lo + spread))
            (seq 1 (List.length l)) l.
Proof.
  intros Henv Hspread. unfold generateFlaggedPatientsWith.
  set (counter := saes_patientsWithOpenSAE (orEmpty (raw_saes raw) noSaes)).
  edestruct (forEach_Forall2 (patientSample e lo (lo + spread))) as (l & s' & Hrun & HF).
  2: { exists l, s'. split; [ exact Hrun | ].
       pose proof (Forall2_length HF) as Hlen. fold (sampleSize counter) in Hlen.
       pose proof (sampleSize_le_10 counter) as Hten.
       split; [ now symmetry | ]. rewrite <- Hlen.
       unfold sampleSize, upTo in *. rewrite length_seq in *.
       split; [ | exact HF ].
       apply (Forall2_ids pat_id patientIds _ 0 l); [ | simpl; lia ].
       eapply Forall2_impl; [ | exact HF ]. intros i r H. apply H. }
  intros i s0 Hi. apply patient_sample; [ exact Henv | | exact Hspread ].
  exact (upTo_range _ _ Hi).
Qed.

(** X9: under a random source in [0, 1), [generateFlaggedPatients] returns
    as many patients as the sample-size rule gives for
    [saes.patientsWithOpenSAE], with the ids PAT-0001, PAT-0002, ... in order.
    Every patient is flagged, not clean and has an open SAE, so the patient
    table counts all of them as flagged and as with SAE; the sampled score
    lies in [30, 70] in revision 2 and in [40, 70] in revision 1, the missing
    visits and lab issues in [0, 2], the missing pages in [0, 4], the open
    queries in [1, 10], and the last activity at most 7 days before a reading
    of the clock. *)
Theorem generateFlaggedPatients_sample (raw : Raw) (e : Env) (s : St) :
  hostEnv e ->
  let counter := saes_patientsWithOpenSAE (orEmpty (raw_saes raw) noSaes) in
  (exists l s',
      V2.generateFlaggedPatients raw e s = Ok l s' /\
      List.length l = sampleSize counter /\
      map pat_id l = firstn (List.length l) patientIds /\
      Dashboard.flagged l = l /\ Dashboard.withSAE l = l /\
      Forall2 (patientSample e 30 70) (seq 1 (List.length l)) l) /\
  (exists l s',
      V1.generateFlaggedPatients raw e s = Ok l s' /\
      List.length l = sampleSize counter /\
      map pat_id l = firstn (List.length l) patientIds /\
      Dashboard.flagged l = l /\ Dashboard.withSAE l = l /\
      Forall2 (patientSample e 40 70) (seq 1 (List.length l)) l).
Proof.
  intros Henv counter.
  assert (Hall : forall lo hi (l : list Patient) (idx : list nat),
             Forall2 (patientSample e lo hi) idx l ->
             Dashboard.flagged l = l /\ Dashboard.withSAE l = l).
  { intros lo hi l idx HF. unfold Dashboard.flagged, Dashboard.withSAE.
    induction HF as [| i p idx l Hp HF [IH1 IH2]]; simpl; [ now split | ].
    destruct Hp as (_ & -> & -> & _). simpl. now rewrite IH1, IH2. }
  split.
  - destruct (flagged_patients_sample 30 40 raw e s Henv ltac:(lia))
      as (l & s' & Hrun & Hlen & Hids & HF).
    exists l, s'. destruct (Hall _ _ _ _ HF) as [Hf Hw].
    repeat split; assumption.
  - destruct (flagged_patients_sample 40 30 raw e s Henv ltac:(lia))
      as (l & s' & Hrun & Hlen & Hids & HF).
    exists l, s'. destruct (Hall _ _ _ _ HF) as [Hf Hw].
    repeat split; assumption.
Qed.

Lemma generateFlaggedPatients_sample_witness :
  (exists l s',
      V2.generateFlaggedPatients scenario (fixedEnv (1 # 2) 1700000000000) start
        = Ok l s' /\
      List.length l = sampleSize None /\
      map pat_id l = firstn (List.length l) patientIds /\
      Dashboard.flagged l = l /\ Dashboard.withSAE l = l /\
      Forall2 (patientSample (fixedEnv (1 # 2) 1700000000000) 30 70)
              (seq 1 (List.length l)) l) /\
  (exists l s',
      V1.generateFlaggedPatients scenario (fixedEnv (1 # 2) 1700000000000) start
        = Ok l s' /\
      List.length l = sampleSize None /\
      map pat_id l = firstn (List.length l) patientIds /\
      Dashboard.flagged l = l /\ Dashboard.withSAE l = l /\
      Forall2 (patientSample (fixedEnv (1 # 2) 1700000000000) 40 70)
              (seq 1 (List.length l)) l).
Proof.
  apply (generateFlaggedPatients_sample scenario (fixedEnv (1 # 2) 1700000000000) start).
  split; simpl; intros; [ split; [ discriminate | reflexivity ] | lia ].
Defined.


(** ** The trend series in general *)

Lemma generateTrendData_run (currentValue : num) (weeks : nat) (decreasing : bool)
    (e : Env) (s : St) :
  generateTrendData currentValue weeks decreasing e s
  = Ok (runWeeks (trendDataPoint currentValue weeks decreasing) e (draws s) (reads s)
          (weeksDown weeks))
       (mkSt (draws s + weeks) (reads s + weeks)).
Proof.
  destruct s as [d r]. simpl draws. simpl reads.
  assert (Hlen : List.length (weeksDown weeks) = weeks).
  { unfold weeksDown. now rewrite length_rev, length_seq. }
  pose proof (forEach_weeks (trendDataPoint currentValue weeks decreasing)
                (weeksDown weeks) e d r) as H.
  rewrite Hlen in H. exact H.
Qed.

Lemma runWeeks_length point e d r l :
  List.length (runWeeks point e d r l) = List.length l.
Proof.
  revert d r. induction l as [| i l IH]; intros d r; simpl; [ reflexivity | ].
  now rewrite IH.
Qed.

Lemma runWeeks_dates point e d r l :
  (forall i date x, dateOf (point i date x) = Some date) ->
  map dateOf (runWeeks point e d r l) = map Some (runDays e r l).
Proof.
  intros Hdate. revert d r. induction l as [| i l IH]; intros d r; simpl.
  - reflexivity.
  - now rewrite Hdate, isoDay_weeks, IH.
Qed.

Lemma runWeeks_Forall (P : obj -> Prop) point e d r l :
  (forall k, 0 <= random e k < 1) ->
  (forall i date x, In i l -> 0 <= x < 1 -> P (point i date x)) ->
  Forall P (runWeeks point e d r l).
Proof.
  intros Hrandom HP. revert d r.
  induction l as [| i l IH]; intros d r; simpl; constructor.
  - apply HP; [ now left | apply Hrandom ].
  - apply IH. intros j date x Hj. apply HP. now right.
Qed.

Lemma runDays_later (e : Env) (r r' : nat) (i : nat) (l : list nat) :
  (forall j k, (j <= k)%nat -> (clock e j <= clock e k)%Z) ->
  (r <= r')%nat -> Forall (fun j => (j < i)%nat) l ->
  Forall (fun day => (isoDay (clock e r) - 7 * Z.of_nat i < day)%Z) (runDays e r' l).
Proof.
  intros Hclock. revert r'. induction l as [| j l IH]; intros r' Hr Hl; cbn [runDays].
  - constructor.
  - inversion Hl as [| ? ? Hj Hl']; subst. constructor.
    + pose proof (isoDay_mono _ _ (Hclock r r' Hr)). lia.
    + apply IH; [ lia | exact Hl' ].
Qed.

Lemma runDays_ordered (e : Env) (r : nat) (l : list nat) :
  (forall j k, (j <= k)%nat -> (clock e j <= clock e k)%Z) ->
  ordered (fun a b => (b < a)%nat) l -> ordered Z.lt (runDays e r l).
Proof.
  intros Hclock. revert r. induction l as [| i l IH]; intros r; cbn [runDays ordered].
  - trivial.
  - intros [Hi Hl]. split; [ | now apply IH ].
    apply (runDays_later e r (S r) i l Hclock); [ lia | exact Hi ].
Qed.

Lemma weeksDown_ordered (weeks : nat) :
  ordered (fun a b => (b < a)%nat) (weeksDown weeks) /\
  Forall (fun i => (i < weeks)%nat) (weeksDown weeks).
Proof.
  unfold weeksDown. split.
  - apply (ordered_rev (fun a b => (a < b)%nat)).
    generalize 0%nat. induction weeks as [| n IH]; intros k; simpl; [ trivial | ].
    split; [ | apply IH ].
    apply Forall_forall. intros j Hj. apply in_seq in Hj. lia.
  - apply Forall_forall. intros i Hi. apply in_rev in Hi. apply in_seq in Hi. lia.
Qed.

Lemma round_near (q : Q) :
  q - (1 # 2) <= inject_Z (Math.roundQ q) <= q + (1 # 2).
Proof.
  unfold Math.roundQ. split.
  - pose proof (Qlt_floor (q + (1 # 2))) as H.
    rewrite inject_Z_plus in H. change (inject_Z 1) with 1 in H. lra.
  - apply Qfloor_le.
Qed.

Lemma week_ratio (i weeks : nat) :
  (i < weeks)%nat ->
  exists rho, div (Fin (ofNat i)) (Fin (ofNat weeks)) = Fin rho /\ 0 <= rho <= 1.
Proof.
  intros Hi. unfold div, ofNat.
  assert (Hw : 0 < inject_Z (Z.of_nat weeks))
    by (change 0 with (inject_Z 0); rewrite <- Zlt_Qlt; lia).
  assert (Hi0 : 0 <= inject_Z (Z.of_nat i))
    by (change 0 with (inject_Z 0); rewrite <- Zle_Qle; lia).
  assert (Hiw : inject_Z (Z.of_nat i) <= inject_Z (Z.of_nat weeks))
    by (rewrite <- Zle_Qle; lia).
  rewrite (positive_nonzero _ Hw). eexists. split; [ reflexivity | ].
  split; [ apply Qle_shift_div_l | apply Qle_shift_div_r ]; lra.
Qed.

(** X10: [generateTrendData] returns exactly [weeks] points, one per
    week, whose dates increase strictly under a clock that does not run
    backwards.  For a current value c >= 0 and a random source in [0, 1)
    every value is an integer between 0.8 c - 1 and 1.05 c + 1 for a rising
    series, and between 0.95 c - 1 and 1.35 c + 1 for a falling one; and a
    current value of 0 gives a series of zeros. *)
Theorem generateTrendData_series (c : Q) (weeks : nat) (decreasing : bool)
    (e : Env) (s : St) :
  hostEnv e -> 0 <= c ->
  exists pts s',
    generateTrendData (Fin c) weeks decreasing e s = Ok pts s' /\
    List.length pts = weeks /\
    (exists days, map dateOf pts = map Some days /\ ordered Z.lt days) /\
    Forall (valueBetween
              (if decreasing then (95 # 100) * c - 1 else (8 # 10) * c - 1)
              (if decreasing then (135 # 100) * c + 1 else (105 # 100) * c + 1))
           pts /\
    (c == 0 -> Forall (fun p => valueOf p = Some (Fin 0)) pts).
Proof.
  intros [Hrandom Hclock] Hc. rewrite generateTrendData_run.
  destruct (weeksDown_ordered weeks) as [Hord Hlt].
  do 2 eexists. split; [ reflexivity | ].
  split; [ rewrite runWeeks_length; unfold weeksDown; now rewrite length_rev, length_seq | ].
  assert (Hpoint : forall i date x, In i (weeksDown weeks) -> 0 <= x < 1 ->
             exists q,
               valueOf (trendDataPoint (Fin c) weeks decreasing i date x)
                 = Some (Fin (inject_Z (Math.roundQ q))) /\
               (if decreasing then (95 # 100) * c else (8 # 10) * c) <= q /\
               q <= (if decreasing then (135 # 100) * c else (105 # 100) * c) /\
               (c == 0 -> q == 0)).
  { intros i date x Hi Hx. rewrite Forall_forall in Hlt.
    destruct (week_ratio i weeks (Hlt i Hi)) as (rho & Hrho & Hrange).
    unfold trendDataPoint. cbv zeta. rewrite Hrho.
    unfold trendPoint, valueOf. simpl get.
    destruct decreasing; cbn [add sub mul neg Math.round];
      (eexists; split; [ reflexivity | ]);
      (split; [ nra | split; [ nra | intros H0; rewrite H0; ring ] ]). }
  split; [ | split ].
  - exists (runDays e (reads s) (weeksDown weeks)). split.
    + apply runWeeks_dates. reflexivity.
    + now apply runDays_ordered.
  - apply runWeeks_Forall; [ exact Hrandom | ].
    intros i date x Hi Hx. destruct (Hpoint i date x Hi Hx) as (q & Hv & Hlo & Hhi & _).
    exists (Math.roundQ q). split; [ exact Hv | ].
    pose proof (round_near q). destruct decreasing; lra.
  - intros H0. apply runWeeks_Forall; [ exact Hrandom | ].
    intros i date x Hi Hx. destruct (Hpoint i date x Hi Hx) as (q & Hv & _ & _ & Hq).
    rewrite Hv. unfold Math.roundQ.
    assert (E : Qfloor (q + (1 # 2)) = 0%Z).
    { rewrite (Qfloor_Qeq (q + (1 # 2)) (1 # 2)); [ reflexivity | ].
      rewrite (Hq H0). reflexivity. }
    now rewrite E.
Qed.

Lemma generateTrendData_series_witness :
  exists pts s',
    generateTrendData (Fin 0) 7 true (fixedEnv (1 # 2) 1700000000000) start = Ok pts s' /\
    List.length pts = 7%nat /\
    (exists days, map dateOf pts = map Some days /\ ordered Z.lt days) /\
    Forall (valueBetween ((95 # 100) * 0 - 1) ((135 # 100) * 0 + 1)) pts /\
    (0 == 0 -> Forall (fun p => valueOf p = Some (Fin 0)) pts).
Proof.
  apply (generateTrendData_series 0 7 true (fixedEnv (1 # 2) 1700000000000) start).
  - split; simpl; intros; [ split; [ discriminate | reflexivity ] | lia ].
  - discriminate.
Defined.

Lemma dqiPoint_value (c : Q) (i : nat) (date : Z) (x : Q) :
  0 <= x < 1 ->
  exists v : Z,
    valueOf (dqiPoint (Fin c) i date x) = Some (Fin (inject_Z v)) /\
    20 <= inject_Z v <= Qmax 20 (c + 3) /\
    (c <= 17 -> v = 20%Z).
Proof.
  intros Hx. unfold dqiPoint, trendPoint, valueOf. simpl get.
  cbn [sub add neg mul].
  assert (Hi : 0 <= ofNat i * 3).
  { unfold ofNat. assert (0 <= inject_Z (Z.of_nat i))
      by (change 0 with (inject_Z 0); rewrite <- Zle_Qle; lia). lra. }
  set (q := c + - (ofNat i * 3) + (x + - (1 # 2)) * 5).
  assert (Hq : q <= c + (5 # 2)) by (subst q; lra).
  pose proof (Q.le_max_l 20 (c + 3)) as Hmax1.
  pose proof (Q.le_max_r 20 (c + 3)) as Hmax2.
  unfold Math.max, lt. destruct (Qltb 20 q) eqn:E.
  - apply Qltb_lt in E. exists (Math.roundQ q). split; [ reflexivity | ].
    pose proof (round_near q) as Hnear.
    assert (H20 : (20 <= Math.roundQ q)%Z).
    { rewrite <- (Qfloor_Z 20). apply Qfloor_resp_le.
      change (inject_Z 20) with 20. lra. }
    rewrite Zle_Qle in H20. change (inject_Z 20) with 20 in H20.
    split; [ split; lra | intros H17; lra ].
  - exists 20%Z. split; [ reflexivity | ].
    change (inject_Z 20) with 20. split; [ split; lra | reflexivity ].
Qed.

(** X11: [generateDQITrend] returns exactly [weeks] points whose dates
    increase strictly under a clock that does not run backwards.  For a
    finite current DQI c every value is an integer between 20 and
    max(20, c + 3): the history is floored at 20, so for c <= 17 every point,
    the one of the current week included, shows 20.  For a current DQI that
    is NaN every value is NaN. *)
Theorem generateDQITrend_series (current : num) (weeks : nat) (e : Env) (s : St) :
  hostEnv e ->
  exists pts s',
    generateDQITrend current weeks e s = Ok pts s' /\
    List.length pts = weeks /\
    (exists days, map dateOf pts = map Some days /\ ordered Z.lt days) /\
    (forall c, current = Fin c ->
       Forall (valueBetween 20 (Qmax 20 (c + 3))) pts /\
       (c <= 17 -> Forall (fun p => valueOf p = Some (Fin 20)) pts)) /\
    (current = NaN -> Forall (fun p => valueOf p = Some NaN) pts).
Proof.
  intros [Hrandom Hclock]. rewrite generateDQITrend_run.
  destruct (weeksDown_ordered weeks) as [Hord Hlt].
  do 2 eexists. split; [ reflexivity | ].
  split; [ rewrite runWeeks_length; unfold weeksDown; now rewrite length_rev, length_seq | ].
  split; [ | split ].
  - exists (runDays e (reads s) (weeksDown weeks)). split.
    + apply runWeeks_dates. reflexivity.
    + now apply runDays_ordered.
  - intros c ->. split.
    + apply runWeeks_Forall; [ exact Hrandom | ].
      intros i date x _ Hx. destruct (dqiPoint_value c i date x Hx) as (v & Hv & Hr & _).
      now exists v.
    + intros H17. apply runWeeks_Forall; [ exact Hrandom | ].
      intros i date x _ Hx. destruct (dqiPoint_value c i date x Hx) as (v & Hv & _ & H20).
      now rewrite Hv, (H20 H17).
  - intros ->. apply runWeeks_Forall; [ exact Hrandom | ].
    intros i date x _ _. reflexivity.
Qed.

Lemma generateDQITrend_series_witness :
  exists pts s',
    generateDQITrend (Fin 12) 4 (fixedEnv (1 # 2) 1700000000000) start = Ok pts s' /\
    List.length pts = 4%nat /\
    (exists days, map dateOf pts = map Some days /\ ordered Z.lt days) /\
    (forall c, Fin 12 = Fin c ->
       Forall (valueBetween 20 (Qmax 20 (c + 3))) pts /\
       (c <= 17 -> Forall (fun p => valueOf p = Some (Fin 20)) pts)) /\
    (Fin 12 = NaN -> Forall (fun p => valueOf p = Some NaN) pts).
Proof.
  apply (generateDQITrend_series (Fin 12) 4 (fixedEnv (1 # 2) 1700000000000) start).
  split; simpl; intros; [ split; [ discriminate | reflexivity ] | lia ].
Defined.

Lemma isPlaceholder_spec (p : obj) : V2.isPlaceholder p = true <-> placeholder p.
Proof.
  unfold V2.isPlaceholder, placeholder, valueOf.
  destruct (get "value" p) as [[n | d | t | b] |];
    try (split; [ discriminate | intros (q & H & _); discriminate ]).
  destruct n as [x | | neg]; simpl.
  - rewrite Qeq_bool_iff. split.
    + intros H. now exists x.
    + intros (q & H & Hq). now injection H as ->.
  - split; [ discriminate | intros (q & H & _); discriminate ].
  - split; [ discriminate | intros (q & H & _); discriminate ].
Qed.

(** X12: the trend of the DQI is the supplied series, verbatim and
    without a draw from the random source, as soon as one of its points has a
    value other than the number 50; a series that is absent, empty or flat at
    50 is discarded, and 7 synthesized points take its place. *)
Theorem dqiTrendOf_choice (raw : Raw) (dqi : num) (e : Env) (s : St) :
  let series := orEmpty (raw_dqiTrend raw) [] in
  (Forall placeholder series ->
   exists pts s',
     V2.dqiTrendOf raw dqi e s = Ok pts s' /\
     List.length pts = 7%nat /\ draws s' = (draws s + 7)%nat) /\
  (~ Forall placeholder series -> V2.dqiTrendOf raw dqi e s = Ok series s).
Proof.
  intros series. unfold V2.dqiTrendOf. fold series.
  assert (Hdeg : V2.degenerate series = true <-> Forall placeholder series).
  { unfold V2.degenerate. destruct series as [| p l] eqn:E.
    - split; [ constructor | reflexivity ].
    - rewrite forallb_forall, Forall_forall.
      split; intros H x Hx; apply isPlaceholder_spec, H, Hx. }
  split.
  - intros H. apply Hdeg in H. rewrite H, generateDQITrend_run.
    do 2 eexists. split; [ reflexivity | ]. split; reflexivity.
  - intros H. destruct (V2.degenerate series) eqn:E; [ | reflexivity ].
    exfalso. apply H, Hdeg. reflexivity.
Qed.

Lemma dqiTrendOf_choice_witness :
  (exists pts s',
      V2.dqiTrendOf scenario (Fin 85) (fixedEnv 0 0) start = Ok pts s' /\
      List.length pts = 7%nat /\ draws s' = (draws start + 7)%nat) /\
  V2.dqiTrendOf supplied (Fin 85) (fixedEnv 0 0) start
    = Ok [trendPoint 19660 (Fin 84); trendPoint 19667 (Fin 85)] start.
Proof.
  split.
  - apply (proj1 (dqiTrendOf_choice scenario (Fin 85) (fixedEnv 0 0) start)).
    constructor.
  - apply (proj2 (dqiTrendOf_choice supplied (Fin 85) (fixedEnv 0 0) start)).
    intros H. inversion H as [| p l (q & Hv & Hq) _]; subst.
    vm_compute in Hv. injection Hv as <-. vm_compute in Hq. discriminate Hq.
Defined.

(** ** Clean patients and the readiness checklist *)

Lemma roundQ_le (q : Q) (hi : Z) : q <= inject_Z hi -> (Math.roundQ q <= hi)%Z.
Proof.
  intros H. apply (roundQ_between (Qfloor q) hi q); [ apply Qfloor_le | exact H ].
Qed.

Lemma V2_cleanPatientPercent_bound (saes : Saes) :
  (V2.cleanPatientPercent saes <= 86)%Z.
Proof.
  unfold V2.cleanPatientPercent, V2.cleanPatients.
  set (p := orQ (saes_patientsWithOpenSAE saes) 0).
  destruct (V2.totalUniquePatients saes >? 0)%Z eqn:E; [ | lia ].
  apply Z.gtb_lt in E.
  assert (Ht : 1 <= inject_Z (V2.totalUniquePatients saes)).
  { change 1 with (inject_Z 1). rewrite <- Zle_Qle. lia. }
  assert (Hp : inject_Z (V2.totalUniquePatients saes) <= p * (35 # 10) + (1 # 2)).
  { unfold V2.totalUniquePatients, Math.roundQ. fold p. apply Qfloor_le. }
  set (t := inject_Z (V2.totalUniquePatients saes)) in *. clearbody t.
  apply roundQ_le. change (inject_Z 86) with 86.
  assert (Hmax : Qmax 0 (t - p) <= (86 # 100) * t).
  { apply Q.max_lub; lra. }
  assert (Hdiv : Qmax 0 (t - p) / t <= 86 # 100) by (apply Qle_shift_div_r; lra).
  lra.
Qed.

(** X13: in revision 2 the clean-patient percentage is at most 86 on
    every snapshot (the total is estimated as 3.5 times the patients with an
    open SAE), so the 'Clean Patient %' item of the readiness checklist,
    which asks for 95, always fails.  The readiness status does not consult
    it: the status is 'ready' exactly when the 'sae' and the 'query' items
    pass, and a 'ready' dashboard therefore still shows a failed item. *)
Theorem V2_clean_criterion_never_passes (saes : Saes) (queries : Queries) :
  (V2.cleanPatientPercent saes <= 86)%Z /\
  map crit_id (V2.readinessCriteria saes queries)
    = ["sae"; "clean"; "query"; "critical_queries"] /\
  (exists sae query aged,
      map crit_status (V2.readinessCriteria saes queries) = [sae; "fail"; query; aged] /\
      (V2.readinessStatus saes queries = "ready" <-> sae = "pass" /\ query = "pass")).
Proof.
  pose proof (V2_cleanPatientPercent_bound saes) as Hpct.
  split; [ exact Hpct | split; [ reflexivity | ] ].
  do 3 eexists. split.
  - unfold V2.readinessCriteria. cbn [map crit_status].
    assert (E : (V2.cleanPatientPercent saes >=? 95)%Z = false) by lia.
    rewrite E. reflexivity.
  - unfold V2.readinessStatus, V2.queryResolutionScore, V2.passIf.
    destruct (isZero (saes_open saes)),
             (Qle_bool 98 (orQ (queries_resolutionRate queries) 0)); simpl;
      try (destruct (ltc (saes_open saes) 100 && _));
      split; try discriminate; try tauto; intros [H1 H2]; discriminate.
Qed.

Lemma Qfloor_unique (q : Q) (z : Z) :
  inject_Z z <= q -> q < inject_Z z + 1 -> Qfloor q = z.
Proof.
  intros Hlo Hhi. apply Z.le_antisymm.
  - apply Z.lt_succ_r. rewrite Zlt_Qlt. unfold Z.succ. rewrite inject_Z_plus.
    change (inject_Z 1) with 1. eapply Qle_lt_trans; [ apply Qfloor_le | exact Hhi ].
  - rewrite <- (Qfloor_Z z) at 1. now apply Qfloor_resp_le.
Qed.

(** X14: in revision 1 the clean-patient percentage takes three values
    only: 100 when [saes.patientsWithOpenSAE] is absent or 0 (5000 patients
    are assumed, all clean), 66.7 when it is positive (the total is estimated
    as three times the counter), and 0 when it is negative.  The 'clean' item
    of its checklist so passes exactly when the counter is absent or 0. *)
Theorem V1_cleanPatientPercent_values (raw : Raw) :
  let counter := opt saes_patientsWithOpenSAE (raw_saes raw) in
  (counter = None -> isNum (V1.cleanPatientPercent raw) 100) /\
  (forall p, counter = Some p ->
     (p == 0 -> isNum (V1.cleanPatientPercent raw) 100) /\
     (0 < p -> isNum (V1.cleanPatientPercent raw) (667 # 10)) /\
     (p < 0 -> isNum (V1.cleanPatientPercent raw) 0)) /\
  (V1.cleanCriterionStatus raw = "pass" <->
   counter = None \/ exists p, counter = Some p /\ p == 0).
Proof.
  intros counter.
  assert (Hsame : saes_patientsWithOpenSAE (orEmpty (raw_saes raw) noSaes) = counter).
  { subst counter. destruct (raw_saes raw); reflexivity. }
  assert (Hnone : counter = None -> V1.cleanPatientPercent raw = Fin (inject_Z 1000 / 10)
                                    /\ V1.cleanCriterionStatus raw = "pass").
  { intros H. unfold V1.cleanCriterionStatus, V1.cleanPatientPercent, V1.cleanPatients,
      V1.estimateTotalPatients. fold counter. rewrite Hsame, H. split; reflexivity. }
  assert (Hzero : forall p, counter = Some p -> p == 0 ->
             V1.cleanPatientPercent raw = Fin (inject_Z 1000 / 10)
             /\ V1.cleanCriterionStatus raw = "pass").
  { intros p H H0. unfold V1.cleanCriterionStatus, V1.cleanPatientPercent, V1.cleanPatients,
      V1.estimateTotalPatients. fold counter. rewrite Hsame, H.
    assert (E3 : Qeq_bool (p * 3) 0 = true) by (apply Qeq_bool_iff; rewrite H0; reflexivity).
    assert (E0 : Qeq_bool p 0 = true) by (now apply Qeq_bool_iff).
    unfold or, truthy, toNumber, mul, orQ. rewrite E3, E0. split; reflexivity. }
  assert (Hpos : forall p, counter = Some p -> 0 < p ->
             isNum (V1.cleanPatientPercent raw) (667 # 10)
             /\ V1.cleanCriterionStatus raw = "fail").
  { intros p H Hp.
    assert (Hval : V1.cleanPatientPercent raw = Fin (inject_Z 667 / 10)).
    { unfold V1.cleanPatientPercent, V1.cleanPatients, V1.estimateTotalPatients.
      fold counter. rewrite Hsame, H.
      assert (E3 : Qeq_bool (p * 3) 0 = false) by (apply positive_nonzero; lra).
      assert (E0 : Qeq_bool p 0 = false) by (now apply positive_nonzero).
      unfold or, truthy, toNumber, mul, orQ. rewrite E3, E0. cbn [negb sub add neg].
      assert (Emax : Math.max (Fin 0) (Fin (p * 3 + - p)) = Fin (p * 3 + - p)).
      { unfold Math.max, lt.
        assert (E : Qltb 0 (p * 3 + - p) = true) by (apply Qltb_lt; lra).
        now rewrite E. }
      rewrite Emax.
      assert (Egt : gt (Fin (p * 3)) (Fin 0) = true) by (apply Qltb_lt; lra).
      rewrite Egt. unfold div at 2. rewrite E3. cbn [Math.round].
      assert (H23 : (p * 3 + - p) / (p * 3) == 2 # 3) by (field; lra).
      assert (Eround : Math.roundQ ((p * 3 + - p) / (p * 3) * 1000) = 667%Z).
      { unfold Math.roundQ. apply Qfloor_unique; rewrite H23;
          change (inject_Z 667) with 667; lra. }
      rewrite Eround. reflexivity. }
    unfold V1.cleanCriterionStatus. rewrite Hval. split; reflexivity. }
  assert (Hneg : forall p, counter = Some p -> p < 0 ->
             V1.cleanPatientPercent raw = Fin 0 /\ V1.cleanCriterionStatus raw = "fail").
  { intros p H Hp. unfold V1.cleanCriterionStatus, V1.cleanPatientPercent, V1.cleanPatients,
      V1.estimateTotalPatients. fold counter. rewrite Hsame, H.
    assert (E3 : Qeq_bool (p * 3) 0 = false).
    { destruct (Qeq_bool (p * 3) 0) eqn:E; trivial. apply Qeq_bool_iff in E. lra. }
    unfold or, truthy, toNumber, mul. rewrite E3. cbn [negb].
    assert (Egt : gt (Fin (p * 3)) (Fin 0) = false) by (apply Qltb_ge; lra).
    rewrite Egt. split; reflexivity. }
  split; [ | split ].
  - intros H. destruct (Hnone H) as [-> _]. reflexivity.
  - intros p H. repeat split.
    + intros H0. destruct (Hzero p H H0) as [-> _]. reflexivity.
    + intros Hp. apply (Hpos p H Hp).
    + intros Hp. destruct (Hneg p H Hp) as [-> _]. reflexivity.
  - split.
    + intros Hpass. destruct counter as [p |] eqn:E; [ | now left ].
      right. exists p. split; [ reflexivity | ].
      destruct (Q_dec p 0) as [[Hlt | Hgt] | Heq]; [ | | exact Heq ].
      * destruct (Hneg p eq_refl Hlt) as [_ Hf]. congruence.
      * destruct (Hpos p eq_refl Hgt) as [_ Hf]. congruence.
    + intros [H | (p & H & H0)].
      * apply (Hnone H).
      * apply (Hzero p H H0).
Qed.

Lemma V1_cleanPatientPercent_witness :
  isNum (V1.cleanPatientPercent scenario) 100 /\
  isNum (V1.cleanPatientPercent (withPatients 0)) 100 /\
  isNum (V1.cleanPatientPercent (withPatients 12)) (667 # 10) /\
  isNum (V1.cleanPatientPercent (withPatients (-3))) 0.
Proof.
  split; [ | split; [ | split ] ].
  - apply (proj1 (V1_cleanPatientPercent_values scenario)). reflexivity.
  - apply (proj1 (proj1 (proj2 (V1_cleanPatientPercent_values (withPatients 0)))
                    0 eq_refl)).
    reflexivity.
  - apply (proj1 (proj2 (proj1 (proj2 (V1_cleanPatientPercent_values (withPatients 12)))
                           12 eq_refl))).
    reflexivity.
  - apply (proj2 (proj2 (proj1 (proj2 (V1_cleanPatientPercent_values (withPatients (-3))))
                           (-3) eq_refl))).
    reflexivity.
Defined.


(** ** The composite index: reach and absent counters *)

Lemma roundQ_between_half (lo hi : Z) (q : Q) :
  inject_Z lo - (1 # 2) <= q -> q < inject_Z hi + (1 # 2) ->
  (lo <= Math.roundQ q <= hi)%Z.
Proof.
  intros Hlo Hhi. unfold Math.roundQ. split.
  - rewrite <- (Qfloor_Z lo). apply Qfloor_resp_le. lra.
  - apply Z.lt_succ_r. rewrite Zlt_Qlt. unfold Z.succ. rewrite inject_Z_plus.
    change (inject_Z 1) with 1. eapply Qle_lt_trans; [ apply Qfloor_le | lra ].
Qed.

(** X15: in revision 1, where three of the five terms are constants, the
    composite DQI lies between 37 and 92 whenever the SAE counters are
    consistent and the resolution rate is a percentage: it cannot reach the
    target of 95 that the same model carries for it. *)
Theorem V1_dqi_reach (raw : Raw) :
  resolved (saes_total (orEmpty (raw_saes raw) noSaes))
           (saes_open (orEmpty (raw_saes raw) noSaes)) ->
  percentage (queries_resolutionRate (orEmpty (raw_queries raw) noQueries)) ->
  exists z : Z, V1.dqi raw = Fin (inject_Z z) /\ (37 <= z <= 92)%Z.
Proof.
  intros Hsaes Hrate. unfold V1.dqi.
  pose proof (orQ_percentage _ Hrate) as Hq.
  unfold V1.queryResolutionScore.
  set (q := orQ (queries_resolutionRate _) 0) in *.
  assert (Hsae : exists a, V1.saeResolutionScore (orEmpty (raw_saes raw) noSaes) = Fin a
                           /\ 0 <= a <= 1).
  { unfold V1.saeResolutionScore.
    destruct (gt0 (saes_total (orEmpty (raw_saes raw) noSaes))) eqn:Hgt.
    - destruct (resolved_ratio _ _ Hsaes Hgt) as (t & o & -> & -> & Ht & Ho).
      simpl. rewrite (positive_nonzero t Ht).
      eexists. split; [ reflexivity | ].
      pose proof (ratio_range t o Ht Ho) as Hr. unfold Qminus in Hr. lra.
    - exists 1. split; [ reflexivity | lra ]. }
  destruct Hsae as (a & -> & Ha).
  cbn [add mul Math.round].
  eexists. split; [ reflexivity | ].
  assert (Hdiv : 0 <= q / 100 <= 1).
  { split; [ apply Qle_shift_div_l | apply Qle_shift_div_r ]; lra. }
  apply roundQ_between_half; change (inject_Z 37) with 37; change (inject_Z 92) with 92; lra.
Qed.

Lemma V1_dqi_reach_witness :
  exists z : Z, V1.dqi scenario = Fin (inject_Z z) /\ (37 <= z <= 92)%Z.
Proof.
  apply (V1_dqi_reach scenario).
  - intros t H Ht. injection H as <-. exists 0. split; [ reflexivity | lra ].
  - intros q H. injection H as <-. lra.
Defined.

Lemma add_NaN_r (a : num) : add a NaN = NaN.
Proof. destruct a; reflexivity. Qed.

Lemma mul_NaN_l (a : num) : mul NaN a = NaN.
Proof. destruct a; reflexivity. Qed.

Lemma inverseScore_absent (unit : Q) : V2.inverseScore None unit = NaN.
Proof. reflexivity. Qed.

(** X16: in revision 2 the three inverse scores do not default an absent
    counter: when [visits.totalMissing], [lab.totalIssues] or
    [signatures.overdue] is absent the composite DQI is NaN, and so are its
    previous value and every point of the synthesized trend; the third
    insight then has the priority 'info', since [NaN < 70] is false. *)
Theorem V2_dqi_absent_counter (raw : Raw) :
  visits_totalMissing (orEmpty (raw_visits raw) noVisits) = None \/
  lab_totalIssues (orEmpty (raw_lab raw) noLab) = None \/
  signatures_overdue (orEmpty (raw_signatures raw) noSignatures) = None ->
  V2.dqi raw = NaN /\
  kpi_dqi_previous (V2.executiveKPIs raw) = NaN /\
  forall e s, exists d s',
    V2.transform raw e s = Ok d s' /\
    kpi_dqi_current (dm_executiveKPIs d) = NaN /\
    (orEmpty (raw_dqiTrend raw) [] = [] ->
     Forall (fun p => valueOf p = Some NaN) (dm_trends_dqi d)) /\
    ins_priority (last (dm_aiInsights d) (mkInsight 0 "" "" "" [] "" None 0 "")) = "info".
Proof.
  intros Habsent.
  assert (Hnan : V2.dqi raw = NaN).
  { unfold V2.dqi, V2.visitScore, V2.labScore, V2.signatureScore.
    destruct Habsent as [H | [H | H]]; rewrite H, inverseScore_absent, mul_NaN_l.
    - rewrite add_NaN_r.
      repeat match goal with
             | |- context [add NaN ?x] => change (add NaN x) with NaN
             end. reflexivity.
    - rewrite add_NaN_r.
      repeat match goal with
             | |- context [add NaN ?x] => change (add NaN x) with NaN
             end. reflexivity.
    - rewrite add_NaN_r. reflexivity. }
  split; [ exact Hnan | split ].
  - unfold V2.executiveKPIs. cbn [kpi_dqi_previous]. rewrite Hnan. reflexivity.
  - intros e s. unfold V2.transform, calculateSiteRankings.
    run_bind (V2_dqiTrendOf_total raw (V2.dqi raw)).
    assert (Hins : exists l s1,
               V2.generateAIInsights raw (V2.dqi raw) (orEmpty (raw_saes raw) noSaes)
                 (orEmpty (raw_queries raw) noQueries) (orEmpty (raw_lab raw) noLab)
                 (orEmpty (raw_visits raw) noVisits) e s0 = Ok l s1 /\
               ins_priority (last l (mkInsight 0 "" "" "" [] "" None 0 "")) = "info").
    { rewrite Hnan. unfold V2.generateAIInsights, V2.localeOf, toLocaleString.
      destruct (gt0 (V2.over30 (orEmpty (raw_queries raw) noQueries))) eqn:E.
      - destruct (over30_aging _ E) as [ag Hag]. rewrite Hag.
        do 2 eexists. split; reflexivity.
      - do 2 eexists. split; reflexivity. }
    destruct Hins as (l & s1 & Hl & Hprio).
    rewrite (bind_run _ _ _ _ _ _ Hl).
    run_bind (V2_generateAgentRecommendations_total raw
                (orEmpty (raw_saes raw) noSaes) (orEmpty (raw_queries raw) noQueries)
                (orEmpty (raw_signatures raw) noSignatures) (orEmpty (raw_lab raw) noLab)
                (orEmpty (raw_coding raw) noCoding)).
    run_bind (V2_lastUpdatedOf_total raw).
    run_bind total_now.
    run_bind (total_generateFlaggedPatients 30 40 raw).
    run_bind (total_generateSAEList raw).
    run_bind (total_generateTrendData
                (Fin (inject_Z (V2.cleanPatientPercent (orEmpty (raw_saes raw) noSaes))))
                7 false).
    run_bind (total_generateTrendData
                (Fin (orQ (queries_open (orEmpty (raw_queries raw) noQueries)) 0)) 7 true).
    unfold ret. do 2 eexists. split; [ reflexivity | ].
    cbn [dm_executiveKPIs dm_trends_dqi dm_aiInsights].
    split; [ unfold V2.executiveKPIs; cbn [kpi_dqi_current]; exact Hnan | ].
    split; [ | exact Hprio ].
    intros Hseries. unfold V2.dqiTrendOf in H. rewrite Hseries in H.
    cbn [V2.degenerate] in H. rewrite Hnan, generateDQITrend_run in H.
    injection H as <- _.
    change (weeksDown 7) with [6; 5; 4; 3; 2; 1; 0]%nat. cbn [runWeeks].
    repeat constructor.
Qed.

Lemma V2_dqi_absent_counter_witness :
  V2.dqi emptyRaw = NaN /\
  kpi_dqi_previous (V2.executiveKPIs emptyRaw) = NaN /\
  forall e s, exists d s',
    V2.transform emptyRaw e s = Ok d s' /\
    kpi_dqi_current (dm_executiveKPIs d) = NaN /\
    (orEmpty (raw_dqiTrend emptyRaw) [] = [] ->
     Forall (fun p => valueOf p = Some NaN) (dm_trends_dqi d)) /\
    ins_priority (last (dm_aiInsights d) (mkInsight 0 "" "" "" [] "" None 0 "")) = "info".
Proof.
  apply (V2_dqi_absent_counter emptyRaw). left. reflexivity.
Defined.


(** ** When the generators of revision 1 throw *)

(** X17: [generateAIInsights] of revision 1 throws a [TypeError] exactly
    when [saes.open], [saes.sitesWithOpenSAE] or [saes.patientsWithOpenSAE]
    is absent; when the three are present it returns the insights 1 and 3,
    and between them the insight 2 when queries older than 30 days are
    reported. *)
Theorem V1_generateAIInsights_throws_iff (raw : Raw) (dqi : num) (sitesAtRisk : Q)
    (saes : Saes) (queries : Queries) :
  (saeCountersPresent saes ->
   forall e s, exists l s',
     V1.generateAIInsights raw dqi sitesAtRisk saes queries e s = Ok l s' /\
     map ins_id l = (if gt0 (V2.over30 queries) then [1; 2; 3] else [1; 3])%Z) /\
  (~ saeCountersPresent saes ->
   forall e s,
     V1.generateAIInsights raw dqi sitesAtRisk saes queries e s = Throw "TypeError").
Proof.
  unfold saeCountersPresent. split.
  - intros (o & a & p & Ho & Ha & Hp) e s.
    unfold V1.generateAIInsights. rewrite Ho, Ha, Hp.
    destruct (gt0 (V2.over30 queries)) eqn:E.
    + destruct (over30_aging queries E) as [ag Hag]. rewrite Hag.
      assert (Hover : exists x, aging_over30 ag = Some x).
      { unfold V2.over30 in E. rewrite Hag in E. simpl in E.
        destruct (aging_over30 ag); [ eauto | discriminate ]. }
      destruct Hover as [x Hx]. destruct ag; simpl in Hx; subst.
      do 2 eexists. split; reflexivity.
    + do 2 eexists. split; reflexivity.
  - intros Hnot e s. unfold V1.generateAIInsights.
    destruct (saes_open saes) as [o |] eqn:Ho; [ | reflexivity ].
    destruct (saes_sitesWithOpenSAE saes) as [a |] eqn:Ha; [ | reflexivity ].
    destruct (saes_patientsWithOpenSAE saes) as [p |] eqn:Hp; [ | reflexivity ].
    exfalso. apply Hnot. now exists o, a, p.
Qed.

Lemma V1_generateAIInsights_witness :
  (forall e s, exists l s',
      V1.generateAIInsights scenario (Fin 87) 0
        (mkSaes (Some 500) (Some 0) (Some 0) (Some 0)) noQueries e s = Ok l s' /\
      map ins_id l = (if gt0 (V2.over30 noQueries) then [1; 2; 3] else [1; 3])%Z) /\
  (forall e s,
      V1.generateAIInsights scenario (Fin 87) 0
        (mkSaes (Some 500) (Some 0) None None) noQueries e s = Throw "TypeError").
Proof.
  split.
  - apply (proj1 (V1_generateAIInsights_throws_iff scenario (Fin 87) 0
                    (mkSaes (Some 500) (Some 0) (Some 0) (Some 0)) noQueries)).
    exists 0, 0, 0. repeat split.
  - apply (proj2 (V1_generateAIInsights_throws_iff scenario (Fin 87) 0
                    (mkSaes (Some 500) (Some 0) None None) noQueries)).
    intros (o & a & p & _ & Ha & _). discriminate Ha.
Defined.

(** X18: [generateAgentRecommendations] of revision 1 throws a
    [TypeError] exactly when [queries.open] is absent, or [saes.open] is
    positive and [saes.patientsWithOpenSAE] is absent; otherwise it returns a
    list that is never empty: its last item is the 'DQT' recommendation 4,
    whose priority is 'HIGH' when the resolution rate is below 90 and
    'MEDIUM' otherwise, an absent rate included. *)
Theorem V1_generateAgentRecommendations_throws_iff (raw : Raw) (saes : Saes)
    (queries : Queries) (sitesAtRisk : Q) :
  (recommendationCountersPresent saes queries ->
   forall e s, exists l last s',
     V1.generateAgentRecommendations raw saes queries sitesAtRisk e s
       = Ok (l ++ [last])%list s' /\
     rec_id last = 4%Z /\ rec_role last = "DQT" /\
     rec_priority last
       = (if ltc (queries_resolutionRate queries) 90 then "HIGH" else "MEDIUM") /\
     Forall (fun r => (rec_id r < 4)%Z) l) /\
  (~ recommendationCountersPresent saes queries ->
   forall e s,
     V1.generateAgentRecommendations raw saes queries sitesAtRisk e s
       = Throw "TypeError").
Proof.
  unfold recommendationCountersPresent. split.
  - intros ((qo & Hqo) & Hpat) e s.
    unfold V1.generateAgentRecommendations. rewrite Hqo.
    destruct (gt0 (saes_open saes)) eqn:Eopen.
    + destruct (Hpat eq_refl) as [p Hp]. rewrite Hp.
      destruct (saes_open saes) as [o |]; [ | discriminate Eopen ].
      destruct (gt0 (V2.over30 queries)) eqn:E.
      * destruct (over30_aging queries E) as [ag Hag]. rewrite Hag.
        assert (Hover : exists x, aging_over30 ag = Some x).
        { unfold V2.over30 in E. rewrite Hag in E. simpl in E.
          destruct (aging_over30 ag); [ eauto | discriminate ]. }
        destruct Hover as [x Hx]. destruct ag; simpl in Hx; subst.
        destruct (Qltb 0 sitesAtRisk).
        -- eexists [_; _; _], _, _. split; [ reflexivity | ].
           repeat split; repeat constructor.
        -- eexists [_; _], _, _. split; [ reflexivity | ].
           repeat split; repeat constructor.
      * destruct (Qltb 0 sitesAtRisk).
        -- eexists [_; _], _, _. split; [ reflexivity | ].
           repeat split; repeat constructor.
        -- eexists [_], _, _. split; [ reflexivity | ].
           repeat split; repeat constructor.
    + destruct (gt0 (V2.over30 queries)) eqn:E.
      * destruct (over30_aging queries E) as [ag Hag]. rewrite Hag.
        assert (Hover : exists x, aging_over30 ag = Some x).
        { unfold V2.over30 in E. rewrite Hag in E. simpl in E.
          destruct (aging_over30 ag); [ eauto | discriminate ]. }
        destruct Hover as [x Hx]. destruct ag; simpl in Hx; subst.
        destruct (Qltb 0 sitesAtRisk).
        -- eexists [_; _], _, _. split; [ reflexivity | ].
           repeat split; repeat constructor.
        -- eexists [_], _, _. split; [ reflexivity | ].
           repeat split; repeat constructor.
      * destruct (Qltb 0 sitesAtRisk).
        -- eexists [_], _, _. split; [ reflexivity | ].
           repeat split; repeat constructor.
        -- eexists [], _, _. split; [ reflexivity | ].
           repeat split; repeat constructor.
  - intros Hnot e s. unfold V1.generateAgentRecommendations.
    destruct (gt0 (saes_open saes)) eqn:Eopen.
    + destruct (saes_open saes) as [o |]; [ | discriminate Eopen ].
      destruct (saes_patientsWithOpenSAE saes) as [p |] eqn:Hp; [ | reflexivity ].
      destruct (queries_open queries) as [qo |] eqn:Hqo.
      { exfalso. apply Hnot. split; [ now exists qo | intros _; now exists p ]. }
      destruct (gt0 (V2.over30 queries)) eqn:E.
      * destruct (over30_aging queries E) as [ag Hag]. rewrite Hag.
        assert (Hover : exists x, aging_over30 ag = Some x).
        { unfold V2.over30 in E. rewrite Hag in E. simpl in E.
          destruct (aging_over30 ag); [ eauto | discriminate ]. }
        destruct Hover as [x Hx]. destruct ag; simpl in Hx; subst.
        destruct (Qltb 0 sitesAtRisk); reflexivity.
      * destruct (Qltb 0 sitesAtRisk); reflexivity.
    + destruct (queries_open queries) as [qo |] eqn:Hqo.
      { exfalso. apply Hnot. split; [ now exists qo | intros H; discriminate H ]. }
      destruct (gt0 (V2.over30 queries)) eqn:E.
      * destruct (over30_aging queries E) as [ag Hag]. rewrite Hag.
        assert (Hover : exists x, aging_over30 ag = Some x).
        { unfold V2.over30 in E. rewrite Hag in E. simpl in E.
          destruct (aging_over30 ag); [ eauto | discriminate ]. }
        destruct Hover as [x Hx]. destruct ag; simpl in Hx; subst.
        destruct (Qltb 0 sitesAtRisk); reflexivity.
      * destruct (Qltb 0 sitesAtRisk); reflexivity.
Qed.

Lemma V1_generateAgentRecommendations_witness :
  (forall e s, exists l last s',
      V1.generateAgentRecommendations scenario
        (orEmpty (raw_saes scenario) noSaes) (orEmpty (raw_queries scenario) noQueries) 0
        e s = Ok (l ++ [last])%list s' /\
      rec_id last = 4%Z /\ rec_role last = "DQT" /\
      rec_priority last = "HIGH" /\
      Forall (fun r => (rec_id r < 4)%Z) l) /\
  (forall e s,
      V1.generateAgentRecommendations emptyRaw noSaes noQueries 0 e s
        = Throw "TypeError").
Proof.
  split.
  - apply (proj1 (V1_generateAgentRecommendations_throws_iff scenario
                    (orEmpty (raw_saes scenario) noSaes)
                    (orEmpty (raw_queries scenario) noQueries) 0)).
    split; [ now exists 200 | intros H; discriminate H ].
  - apply (proj2 (V1_generateAgentRecommendations_throws_iff emptyRaw noSaes noQueries 0)).
    intros [(o & Ho) _]. discriminate Ho.
Defined.


(** ** The recommendations and insights of revision 2 *)

Lemma isoDay_after (now days : Z) :
  isoDay (now + days * msPerDay) = (isoDay now + days)%Z.
Proof.
  unfold isoDay. rewrite Z_div_plus_full by (unfold msPerDay; lia). reflexivity.
Qed.

Lemma shown_by_role (role : string) (l : list Recommendation) :
  Forall (fun r => rec_role r = roleOf (rec_id r)) l ->
  map rec_id (Dashboard.shownRecommendations role l)
  = filter (fun id => String.eqb role "all" || String.eqb (roleOf id) role)
           (map rec_id l).
Proof.
  intros H. unfold Dashboard.shownRecommendations.
  destruct (String.eqb role "all"); simpl.
  - induction l as [| r l IH]; simpl; [ reflexivity | ].
    inversion H; subst. now rewrite <- IH.
  - induction H as [| r l Hr H IH]; simpl; [ reflexivity | ].
    rewrite Hr. destruct (String.eqb (roleOf (rec_id r)) role); simpl; now rewrite IH.
Qed.

(** X19: [generateAgentRecommendations] of revision 2 never throws and
    draws nothing from the random source.  Its list holds, in the order of
    their ids, exactly the recommendations whose counter is positive (it is
    empty when none is): 1 for open SAEs, 2 for queries older than 30 days,
    3 for overdue signatures, 4 for lab issues, 5 for uncoded terms.  The role
    is 'Safety', 'CRA', 'Site', 'DQT', 'DQT' by id; each item reads the clock
    once, in order, and its deadline is the day of that reading plus 7, 14,
    14, 21, 21 days; and the role filter of the dashboard shows the ids of
    that role. *)
Theorem V2_generateAgentRecommendations_items (raw : Raw) (saes : Saes)
    (queries : Queries) (signatures : Signatures) (lab : Lab) (coding : Coding)
    (e : Env) (s : St) :
  exists l s',
    V2.generateAgentRecommendations raw saes queries signatures lab coding e s
      = Ok l s' /\
    map rec_id l
      = map fst (filter snd (recommendationGuards saes queries signatures lab coding)) /\
    draws s' = draws s /\
    reads s' = (List.length l + reads s)%nat /\
    Forall (fun r => rec_role r = roleOf (rec_id r)) l /\
    Forall2 (fun k r =>
               rec_deadline r
               = (isoDay (clock e (k + reads s)) + deadlineDays (rec_id r))%Z)
            (seq 0 (List.length l)) l /\
    forall role,
      map rec_id (Dashboard.shownRecommendations role l)
      = filter (fun id => String.eqb role "all" || String.eqb (roleOf id) role)
               (map rec_id l).
Proof.
  assert (Hrun : exists l s',
    V2.generateAgentRecommendations raw saes queries signatures lab coding e s
      = Ok l s' /\
    map rec_id l
      = map fst (filter snd (recommendationGuards saes queries signatures lab coding)) /\
    draws s' = draws s /\
    reads s' = (List.length l + reads s)%nat /\
    Forall (fun r => rec_role r = roleOf (rec_id r)) l /\
    Forall2 (fun k r =>
               rec_deadline r
               = (isoDay (clock e (k + reads s)) + deadlineDays (rec_id r))%Z)
            (seq 0 (List.length l)) l).
  { unfold V2.generateAgentRecommendations, recommendationGuards, V2.over30.
    destruct (queries_aging queries) as [[a b c d] |]; cbn [opt aging_over30];
      [ destruct (gt0 d) | change (gt0 None) with false ];
      destruct (gt0 (saes_open saes)), (gt0 (signatures_overdue signatures)),
               (gt0 (lab_totalIssues lab)), (gt0 (coding_totalUncoded coding));
      (do 2 eexists; split; [ reflexivity | ];
       split; [ reflexivity | ]; split; [ reflexivity | ]; split; [ reflexivity | ];
       split; [ repeat constructor | repeat constructor; apply isoDay_after ]). }
  destruct Hrun as (l & s' & Hl & Hids & Hd & Hr & Hroles & Hdead).
  exists l, s'. repeat (split; [ assumption | ]).
  intros role. now apply shown_by_role.
Qed.

(** X20: [generateAIInsights] of revision 2 never throws; it returns the
    insights 1 and 3, and between them the insight 2 when queries older than
    30 days are reported.  In the dashboard the badge of the insights 1 and 2
    is never the neutral one, and the DQI summary (insight 3) has the warning
    badge when the DQI is below 70 and the neutral badge otherwise, a DQI that
    is not a number included: its priority 'info' falls to the default of
    [getPriorityBadgeClass]. *)
Theorem V2_generateAIInsights_badges (raw : Raw) (dqi : num) (saes : Saes)
    (queries : Queries) (lab : Lab) (visits : Visits) (e : Env) (s : St) :
  exists l s',
    V2.generateAIInsights raw dqi saes queries lab visits e s = Ok l s' /\
    map ins_id l = (if gt0 (V2.over30 queries) then [1; 2; 3] else [1; 3])%Z /\
    Forall (fun i =>
              let badge := Dashboard.getPriorityBadgeClass (ins_priority i) in
              if (ins_id i =? 3)%Z
              then badge = (if lt dqi (Fin 70) then "badge-warning" else "badge-neutral")
              else badge <> "badge-neutral") l.
Proof.
  unfold V2.generateAIInsights, V2.over30.
  destruct (queries_aging queries) as [[a b c d] |]; cbn [opt aging_over30];
    [ destruct (gt0 d) | change (gt0 None) with false ];
    (do 2 eexists; split; [ reflexivity | ]; split; [ reflexivity | ];
     repeat constructor; cbv zeta; cbn [ins_id ins_priority Z.eqb Pos.eqb];
     [ match goal with
       | |- context [if ?g then "critical" else "high"] => destruct g
       end; discriminate ..
     | destruct (lt dqi (Fin 70)); reflexivity ]).
Qed.

(** ** The dashboard over the adapter's model *)

Lemma NoDup_firstn {A : Type} (n : nat) (l : list A) :
  NoDup l -> NoDup (firstn n l).
Proof.
  revert n. induction l as [| a l IH]; intros [| n] H; simpl; try constructor.
  - inversion H; subst. intros Hin. apply in_firstn in Hin. contradiction.
  - inversion H; subst. now apply IH.
Qed.

Lemma patientIds_NoDup : NoDup patientIds.
Proof.
  unfold patientIds. repeat constructor; simpl; intuition discriminate.
Qed.

(** [find] by key returns the element itself when the keys are unique. *)
Lemma find_by_key {A : Type} (key : A -> string) (l : list A) (a : A) :
  NoDup (map key l) -> In a l ->
  find (fun x => String.eqb (key x) (key a)) l = Some a.
Proof.
  induction l as [| b l IH]; simpl; intros Hnd Hin; [ contradiction | ].
  inversion Hnd as [| ? ? Hnotin Hnd']; subst.
  destruct (String.eqb (key b) (key a)) eqn:E.
  - apply String.eqb_eq in E. destruct Hin as [-> | Hin]; [ reflexivity | ].
    exfalso. apply Hnotin. rewrite E. now apply in_map.
  - destruct Hin as [-> | Hin]; [ now rewrite String.eqb_refl in E | ].
    now apply IH.
Qed.

Lemma ge_Z (a b : Z) : ge (Fin (inject_Z a)) (Fin (inject_Z b)) = (b <=? a)%Z.
Proof.
  unfold ge. destruct (Z.leb_spec b a) as [H | H].
  - apply Qle_bool_iff. now rewrite <- Zle_Qle.
  - destruct (Qle_bool (inject_Z b) (inject_Z a)) eqn:E; [ | reflexivity ].
    apply Qle_bool_iff in E. rewrite <- Zle_Qle in E. lia.
Qed.

Lemma patient_rows (e : Env) (lo hi : Z) (l : list Patient) :
  (hi <= 70)%Z ->
  map pat_id l = firstn (List.length l) patientIds ->
  Forall2 (patientSample e lo hi) (seq 1 (List.length l)) l ->
  Forall (patientRow l) l.
Proof.
  intros Hhi Hids HF. apply Forall_forall. intros p Hp. split.
  - unfold Dashboard.findPatient. apply find_by_key; [ | exact Hp ].
    rewrite Hids. apply NoDup_firstn, patientIds_NoDup.
  - assert (Hall : Forall (fun p => (pat_dqi p <= 70)%Z) l).
    { clear Hp Hids. induction HF as [| i q idx l' Hq HF IH]; constructor.
      - destruct Hq as (_ & _ & _ & _ & Hdqi & _). lia.
      - exact IH. }
    rewrite Forall_forall in Hall. specialize (Hall p Hp).
    unfold Dashboard.getStatusClass.
    change (Fin 90) with (Fin (inject_Z 90)). change (Fin 70) with (Fin (inject_Z 70)).
    rewrite !ge_Z.
    destruct (Z.leb_spec 90 (pat_dqi p)); [ lia | ].
    destruct (70 <=? pat_dqi p)%Z; discriminate.
Qed.

(** X21: in the patient table over the sampled patients of either
    revision, a click on a row opens that very patient
    ([showPatientDetails] finds it by its id, and the ids are distinct), and
    no score is shown in the colour of success, since the sampled scores stay
    at or below 70 and the table asks for 90. *)
Theorem sampled_patient_rows (raw : Raw) (e : Env) (s : St) :
  hostEnv e ->
  (exists l s',
      V2.generateFlaggedPatients raw e s = Ok l s' /\ Forall (patientRow l) l) /\
  (exists l s',
      V1.generateFlaggedPatients raw e s = Ok l s' /\ Forall (patientRow l) l).
Proof.
  intros Henv. split.
  - destruct (flagged_patients_sample 30 40 raw e s Henv ltac:(lia))
      as (l & s' & Hrun & _ & Hids & HF).
    exists l, s'. split; [ exact Hrun | ].
    apply (patient_rows e 30 (30 + 40)); [ lia | exact Hids | exact HF ].
  - destruct (flagged_patients_sample 40 30 raw e s Henv ltac:(lia))
      as (l & s' & Hrun & _ & Hids & HF).
    exists l, s'. split; [ exact Hrun | ].
    apply (patient_rows e 40 (40 + 30)); [ lia | exact Hids | exact HF ].
Qed.

Lemma sampled_patient_rows_witness :
  (exists l s',
      V2.generateFlaggedPatients scenario (fixedEnv (1 # 2) 1700000000000) start
        = Ok l s' /\ Forall (patientRow l) l) /\
  (exists l s',
      V1.generateFlaggedPatients scenario (fixedEnv (1 # 2) 1700000000000) start
        = Ok l s' /\ Forall (patientRow l) l).
Proof.
  apply (sampled_patient_rows scenario (fixedEnv (1 # 2) 1700000000000) start).
  split; simpl; intros; [ split; [ discriminate | reflexivity ] | lia ].
Defined.

Lemma heatmap_status (dqi : Z) : heatmapAgrees dqi (nodeStatus dqi).
Proof.
  unfold heatmapAgrees, Dashboard.getHeatmapClass, nodeStatus.
  change (Fin 90) with (Fin (inject_Z 90)). change (Fin 85) with (Fin (inject_Z 85)).
  change (Fin 75) with (Fin (inject_Z 75)). change (Fin 65) with (Fin (inject_Z 65)).
  rewrite !ge_Z, !Z.geb_leb.
  destruct (Z.leb_spec 90 dqi), (Z.leb_spec 85 dqi), (Z.leb_spec 75 dqi),
           (Z.leb_spec 65 dqi), (Z.leb_spec 70 dqi);
    try lia; cbv zeta; intuition congruence.
Qed.

(** X22: the heat map and the status of a country agree only in part.
    For every country of the region view, the status is 'healthy' exactly
    when the heat map shows level 1 or 2; level 3 is always 'at-risk' and
    level 5 always 'critical'; but level 4 (scores 65 to 74) holds countries
    of both the 'at-risk' and the 'critical' status, the status turning at 70
    and the heat map at 75 and 65. *)
Theorem country_heatmap_and_status (getCountryName : string -> string)
    (rawRegions : Regions) :
  Forall (fun c => heatmapAgrees (ce_dqi c) (ce_status c))
         (countryEntries getCountryName rawRegions) /\
  Dashboard.getHeatmapClass (Fin 72) = Dashboard.getHeatmapClass (Fin 68) /\
  nodeStatus 72 <> nodeStatus 68.
Proof.
  split; [ | split; [ reflexivity | discriminate ] ].
  rewrite countryEntries_map. apply Forall_forall. intros c Hc.
  apply in_map_iff in Hc. destruct Hc as ([code data] & <- & _).
  apply heatmap_status.
Qed.

Lemma NoDup_map_eq {A B : Type} (f : A -> B) (l : list A) (a b : A) :
  NoDup (map f l) -> In a l -> In b l -> f a = f b -> a = b.
Proof.
  induction l as [| x l IH]; simpl; intros Hnd Ha Hb Hf; [ contradiction | ].
  inversion Hnd as [| ? ? Hnotin Hnd']; subst.
  destruct Ha as [-> | Ha], Hb as [-> | Hb].
  - reflexivity.
  - exfalso. apply Hnotin. rewrite Hf. now apply in_map.
  - exfalso. apply Hnotin. rewrite <- Hf. now apply in_map.
  - now apply IH.
Qed.

Lemma entries_ids getCountryName (leaves : list (string * (string * Site))) (k : nat) :
  map se_id
      (map (fun p : nat * (string * (string * Site)) =>
              siteEntry getCountryName (fst p) (snd p))
           (combine (seq k (List.length leaves)) leaves))
  = map (fun leaf => fst (snd leaf)) leaves.
Proof.
  revert k. induction leaves as [| leaf leaves IH]; intros k; simpl.
  - reflexivity.
  - rewrite IH. f_equal. destruct leaf as [c [i d]]. reflexivity.
Qed.

(** X23: when no two sites of the tree have the same key, every row of
    the two ranking tables whose inline handler passes the id of its site
    unchanged (an id without quote, backslash, ampersand, line break or null
    character) opens that very site: [showSiteDetails] searches the top five
    and then the bottom five by id, and a site that is in both tables (fewer
    than ten sites) is the same object in both.  Nothing is stated of a row
    whose id holds one of those characters. *)
Theorem ranked_site_rows (getCountryName : string -> string) (rawRegions : Regions) :
  NoDup (map (fun leaf => fst (snd leaf)) (siteLeaves rawRegions)) ->
  let top := topSites getCountryName rawRegions in
  let bottom := bottomSites getCountryName rawRegions in
  Forall (fun site =>
            forall siteId,
              Dashboard.handlerArgument (se_id site) = Some siteId ->
              Dashboard.findSite top bottom siteId = Some site)
         (top ++ bottom)%list.
Proof.
  intros Hnd top bottom. apply Forall_forall. intros site Hsite siteId Hid.
  unfold Dashboard.handlerArgument in Hid.
  destruct (forallb Dashboard.verbatimChar (list_ascii_of_string (se_id site)));
    [ | discriminate Hid ].
  injection Hid as <-.
  assert (Hall : forall x, In x (top ++ bottom)%list ->
                           In x (allSites getCountryName rawRegions)).
  { intros x Hx. apply ranked_in_allSites. apply in_app_or in Hx.
    destruct Hx as [Hx | Hx]; [ now apply topSites_ranked | now apply bottomSites_ranked ]. }
  unfold Dashboard.findSite. fold top bottom.
  destruct (find (fun s0 => String.eqb (se_id s0) (se_id site)) (top ++ bottom)%list)
    as [found |] eqn:E.
  - apply find_some in E. destruct E as [Hin Heq]. apply String.eqb_eq in Heq.
    f_equal.
    apply (NoDup_map_eq se_id (allSites getCountryName rawRegions)); auto.
    unfold allSites. now rewrite entries_ids.
  - exfalso. apply (find_none _ _ E) in Hsite. now rewrite String.eqb_refl in Hsite.
Qed.

Lemma ranked_site_rows_witness :
  Dashboard.handlerArgument "Site 1" = Some "Site 1" /\
  Forall (fun site =>
            Dashboard.findSite (topSites V2.getCountryName threeSites)
                               (bottomSites V2.getCountryName threeSites) (se_id site)
            = Some site)
         (topSites V2.getCountryName threeSites
          ++ bottomSites V2.getCountryName threeSites)%list.
Proof.
  split; [ reflexivity | ].
  assert (Hkeys : NoDup (map (fun leaf : string * (string * Site) => fst (snd leaf))
                             (siteLeaves threeSites))).
  { simpl. repeat constructor; simpl; intuition discriminate. }
  pose proof (ranked_site_rows V2.getCountryName threeSites Hkeys) as Hrows.
  cbv zeta in Hrows. rewrite Forall_forall in Hrows.
  apply Forall_forall. intros site Hsite. apply (Hrows site Hsite).
  vm_compute in Hsite.
  repeat (destruct Hsite as [<- | Hsite]; [ reflexivity | ]). contradiction.
Defined.

(** An id with a single quote is not passed unchanged by the handler. *)
Example handlerArgument_quote : Dashboard.handlerArgument "Site O'Hara" = None.
Proof. reflexivity. Qed.


(** ** The bottleneck view and the deltas of the KPIs *)

(** X24: two tallies of the bottleneck view of revision 2.  The
    signatures add up on every snapshot: required = completed + pending +
    overdue (50000 completed signatures are assumed).  And when the snapshot
    reports no visits overdue by more than 30 days, the four buckets of
    overdue visits (30%, 25%, 25%, 20% of the missing visits, each rounded)
    add up to the overdue visits within 2. *)
Theorem V2_bottleneck_tallies (raw : Raw) :
  let b := V2.bottlenecks raw in
  bn_signatures_required b
  == bn_signatures_completed b + bn_signatures_pending b + bn_signatures_overdue b /\
  (orQ (visits_overdue30Days (orEmpty (raw_visits raw) noVisits)) 0 == 0 ->
   bn_visits_overdue b - 2 <= overdueBuckets b <= bn_visits_overdue b + 2).
Proof.
  intros b. split.
  - subst b. unfold V2.bottlenecks.
    cbn [bn_signatures_required bn_signatures_completed bn_signatures_pending
         bn_signatures_overdue]. ring.
  - intros Hnone. subst b. unfold overdueBuckets, V2.bottlenecks.
    cbn [bn_visits_overdue bn_visits_overdue_1_7 bn_visits_overdue_8_14
         bn_visits_overdue_15_30 bn_visits_overdue_over30].
    set (visits := orEmpty (raw_visits raw) noVisits) in *.
    set (m := orQ (visits_totalMissing visits) 0).
    assert (Hlast : orQ (visits_overdue30Days visits)
                        (inject_Z (Math.roundQ (m * (2 # 10))))
                    = inject_Z (Math.roundQ (m * (2 # 10)))).
    { destruct (visits_overdue30Days visits) as [q |]; [ | reflexivity ].
      simpl in *. destruct (Qeq_bool q 0) eqn:E; [ reflexivity | ].
      apply Qeq_bool_iff in Hnone. congruence. }
    rewrite Hlast.
    pose proof (round_near (m * (3 # 10))) as H1.
    pose proof (round_near (m * (25 # 100))) as H2.
    pose proof (round_near (m * (2 # 10))) as H3.
    lra.
Qed.

Lemma V2_bottleneck_tallies_witness :
  bn_visits_overdue (V2.bottlenecks (withVisits 1000 0)) - 2
  <= overdueBuckets (V2.bottlenecks (withVisits 1000 0))
  <= bn_visits_overdue (V2.bottlenecks (withVisits 1000 0)) + 2.
Proof.
  apply (proj2 (V2_bottleneck_tallies (withVisits 1000 0))). reflexivity.
Defined.

(** X25: the visit counts of the bottleneck view of revision 2 fall
    back separately.  [visits.total] is 1000 as soon as [totalMissing] or
    [overdue30Days] is absent, or their weighted sum is 0, and is the sum
    [totalMissing + 2 * overdue30Days] otherwise; [visits.completed] is 5000
    unless [totalMissing] is positive.  On a snapshot without visit counters
    the view so shows 5000 completed visits out of a total of 1000. *)
Theorem V2_bottleneck_visits (raw : Raw) :
  let visits := orEmpty (raw_visits raw) noVisits in
  let b := V2.bottlenecks raw in
  (visits_totalMissing visits = None \/ visits_overdue30Days visits = None ->
   bn_visits_total b = Fin 1000) /\
  (forall m o,
     visits_totalMissing visits = Some m -> visits_overdue30Days visits = Some o ->
     (m + o * 2 == 0 -> bn_visits_total b = Fin 1000) /\
     (~ m + o * 2 == 0 -> bn_visits_total b = Fin (m + o * 2))) /\
  (gt0 (visits_totalMissing visits) = false -> bn_visits_completed b = Fin 5000) /\
  (raw_visits raw = None ->
   bn_visits_total b = Fin 1000 /\ bn_visits_completed b = Fin 5000).
Proof.
  intros visits b. subst b. unfold V2.bottlenecks.
  cbn [bn_visits_total bn_visits_completed]. fold visits.
  split; [ | split; [ | split ] ].
  - intros [H | H]; rewrite H.
    + reflexivity.
    + destruct (visits_totalMissing visits); reflexivity.
  - intros m o Hm Ho. rewrite Hm, Ho. cbn [toNumber mul add]. unfold or, truthy.
    split; intros H.
    + apply Qeq_bool_iff in H. now rewrite H.
    + destruct (Qeq_bool (m + o * 2) 0) eqn:E; [ | reflexivity ].
      apply Qeq_bool_iff in E. contradiction.
  - intros H. now rewrite H.
  - intros H. subst visits. rewrite H. split; reflexivity.
Qed.

Lemma V2_bottleneck_visits_witness :
  bn_visits_total (V2.bottlenecks emptyRaw) = Fin 1000 /\
  bn_visits_completed (V2.bottlenecks emptyRaw) = Fin 5000 /\
  bn_visits_total (V2.bottlenecks (withVisits 0 0)) = Fin 1000 /\
  bn_visits_total (V2.bottlenecks (withVisits 40 5)) = Fin (40 + 5 * 2) /\
  bn_visits_completed (V2.bottlenecks (withVisits 0 0)) = Fin 5000.
Proof.
  pose proof (V2_bottleneck_visits emptyRaw) as (H1 & _ & _ & H4).
  pose proof (V2_bottleneck_visits (withVisits 0 0)) as (_ & H2 & H3 & _).
  pose proof (V2_bottleneck_visits (withVisits 40 5)) as (_ & H5 & _ & _).
  split; [ apply H1; left; reflexivity | ].
  split; [ apply (H4 eq_refl) | ].
  split; [ apply (proj1 (H2 0 0 eq_refl eq_refl)); reflexivity | ].
  split; [ apply (proj2 (H5 40 5 eq_refl eq_refl)); intros H; discriminate H | ].
  apply H3. reflexivity.
Defined.

Lemma roundQ_nonneg (q : Q) : 0 <= q -> (0 <= Math.roundQ q)%Z.
Proof.
  intros H. unfold Math.roundQ. rewrite <- (Qfloor_Z 0). apply Qfloor_resp_le.
  change (inject_Z 0) with 0. lra.
Qed.

Lemma V2_cleanPatientPercent_nonneg (saes : Saes) :
  (0 <= V2.cleanPatientPercent saes)%Z.
Proof.
  unfold V2.cleanPatientPercent.
  destruct (V2.totalUniquePatients saes >? 0)%Z eqn:E; [ | lia ].
  apply Z.gtb_lt in E. apply roundQ_nonneg.
  assert (Ht : 0 < inject_Z (V2.totalUniquePatients saes)).
  { change 0 with (inject_Z 0). now rewrite <- Zlt_Qlt. }
  assert (Hc : 0 <= V2.cleanPatients saes) by (unfold V2.cleanPatients; apply Q.le_max_l).
  assert (Hdiv : 0 <= V2.cleanPatients saes / inject_Z (V2.totalUniquePatients saes)).
  { apply Qle_shift_div_l; [ exact Ht | lra ]. }
  lra.
Qed.

(** X26: the changes 'vs last week' that the dashboard prints next to
    the KPIs of revision 2 come from no earlier snapshot.  On every snapshot
    the open SAEs are shown 200 and the sites at risk 15 below their previous
    value; the clean-patient percentage is shown min(2, percentage) above
    its previous value, and a composite DQI of at least 3 is shown 3 above
    its previous value. *)
Theorem V2_kpi_deltas (raw : Raw) :
  let k := V2.executiveKPIs raw in
  kpi_openSAEs_previous k - kpi_openSAEs_current k == 200 /\
  kpi_sitesAtRisk_previous k - kpi_sitesAtRisk_current k == 15 /\
  (kpi_cleanPatients_percentage k - kpi_cleanPatients_previousPercentage k
   = Z.min 2 (kpi_cleanPatients_percentage k))%Z /\
  (0 <= kpi_cleanPatients_percentage k)%Z /\
  (forall d, kpi_dqi_current k = Fin d -> 3 <= d ->
     exists p, kpi_dqi_previous k = Fin p /\ d - p == 3).
Proof.
  intros k. subst k. unfold V2.executiveKPIs.
  cbn [kpi_openSAEs_previous kpi_openSAEs_current kpi_sitesAtRisk_previous
       kpi_sitesAtRisk_current kpi_cleanPatients_percentage
       kpi_cleanPatients_previousPercentage kpi_dqi_current kpi_dqi_previous].
  pose proof (V2_cleanPatientPercent_nonneg (orEmpty (raw_saes raw) noSaes)) as Hpct.
  split; [ ring | ]. split; [ ring | ]. split; [ lia | ]. split; [ exact Hpct | ].
  intros d Hd H3. rewrite Hd. cbn [sub neg add]. unfold Math.max, lt.
  destruct (Qltb 0 (d + - (3))) eqn:E.
  - exists (d + - (3)). split; [ reflexivity | ring ].
  - apply Qltb_ge in E. exists 0. split; [ reflexivity | lra ].
Qed.

Lemma V2_kpi_deltas_witness :
  exists p, kpi_dqi_previous (V2.executiveKPIs scenario) = Fin p /\ 85 - p == 3.
Proof.
  apply (proj2 (proj2 (proj2 (proj2 (V2_kpi_deltas scenario)))) 85).
  - reflexivity.
  - lra.
Defined.
